(** * PEtab [Problem]: parameter-table accessors, scale transforms and loaders

    A shallow embedding of [petab/problem.py].  Python lists are Rocq lists,
    a parameter table (a pandas frame indexed by parameter id) is the list of
    its rows in table order, exceptions are the [Raise] branch of [result],
    and code that touches the outside world (warnings, file loads, the
    object store) runs in a small state-and-exception monad. *)

From Stdlib Require Import List String Ascii ZArith Bool Arith Lia.
From Stdlib Require Import Permutation Sorted Mergesort.
From Stdlib Require Import Reals Lra Classical_Prop.
Import ListNotations.

(* ================================================================== *)
(** ** Python values and exceptions *)

(** A scalar as a YAML document delivers it (the format version). *)
Inductive PyVal :=
| PyInt (z : Z)
| PyStr (s : string).

Definition PyVal_eqb (a b : PyVal) : bool :=
  match a, b with
  | PyInt x, PyInt y => Z.eqb x y
  | PyStr x, PyStr y => String.eqb x y
  | _, _ => false
  end.

(** The exceptions the embedded code can raise, one constructor per
    [raise] site or failing primitive. *)
Inductive exn :=
| ValueError_composite
    (* 'petab.Problem.from_yaml() can only be used for yaml files
       comprising a single model. ...' *)
| ValueError_unsupported_version (found expected : PyVal)
    (* 'Provided PEtab files are of unsupported version...' *)
| ValueError_ambiguous_truth
    (* a label that selects several rows yields a sub-series, which the
       scalar transform cannot branch on *)
| KeyError (key : string)
| IndexError
| TypeError_NoneType
| InvalidScale (tag : string)
| ShapeMismatch
| ExternalError (msg : string)
    (* raised inside another module or by the interpreter *).

Inductive result (A : Type) :=
| Ok (a : A)
| Raise (e : exn).
Arguments Ok {A} a.
Arguments Raise {A} e.

Definition rbind {A B} (r : result A) (k : A -> result B) : result B :=
  match r with
  | Ok a => k a
  | Raise e => Raise e
  end.

Declare Scope result_scope.
Delimit Scope result_scope with res.
Notation "x <- r ;; k" := (rbind r (fun x => k))
  (at level 61, r at next level, right associativity) : result_scope.
Open Scope result_scope.

(** [[f(x) for x in l]] with a body that may raise: left to right, the
    first exception aborts the comprehension. *)
Fixpoint list_comp {A B} (f : A -> result B) (l : list A) : result (list B) :=
  match l with
  | [] => Ok []
  | x :: l' => y <- f x ;; ys <- list_comp f l' ;; Ok (y :: ys)
  end.

(** [v[ix]] on a list, for a non-negative index. *)
Definition getitem {A} (v : list A) (ix : nat) : result A :=
  match nth_error v ix with
  | Some x => Ok x
  | None => Raise IndexError
  end.

(** [enumerate(l)] *)
Definition enumerate {A} (l : list A) : list (nat * A) :=
  combine (seq 0 (List.length l)) l.

(** [sorted(l)] on a list of ints. *)
Definition sorted (l : list nat) : list nat := NatSort.sort l.

(** A keyword argument with default [True]. *)
Definition kwarg (given : option bool) : bool :=
  match given with
  | Some b => b
  | None => true
  end.

(* ================================================================== *)
(** ** ScaleTransform ([petab.parameters], not part of this file's source) *)

(** Modelled from the spec: the scale tag of a parameter, section 3
    ([scale: {linear, log, log10}]); any other tag is the one section 4.1
    rejects with [InvalidScale]. *)
Inductive scale_kind :=
| LIN
| LOG
| LOG10
| OtherScale (tag : string).

Definition valid_scale (s : scale_kind) : bool :=
  match s with
  | OtherScale _ => false
  | _ => true
  end.

Module parameters.

(** Modelled from the spec: [parameters.scale] is missing from the source;
    section 4.1 gives it as: linear is the identity, log the natural
    logarithm, log10 the base-10 logarithm, any other tag fails with
    [InvalidScale].  Values are real numbers. *)
Definition scale (parameter : R) (scale_str : scale_kind) : result R :=
  match scale_str with
  | LIN => Ok parameter
  | LOG => Ok (ln parameter)
  | LOG10 => Ok (ln parameter / ln 10)%R
  | OtherScale tag => Raise (InvalidScale tag)
  end.

(** Modelled from the spec: [parameters.unscale] is missing from the
    source; section 4.1 gives it as the inverse operation: identity,
    exponential, power of ten. *)
Definition unscale (parameter : R) (scale_str : scale_kind) : result R :=
  match scale_str with
  | LIN => Ok parameter
  | LOG => Ok (exp parameter)
  | LOG10 => Ok (Rpower 10 parameter)
  | OtherScale tag => Raise (InvalidScale tag)
  end.

(** Modelled from the spec: [parameters.map_scale] is missing from the
    source; section 4.1 gives the vectorized form as element-wise over two
    sequences of equal length, failing with [ShapeMismatch] otherwise. *)
Fixpoint map_scale (vs : list R) (scale_strs : list scale_kind)
  : result (list R) :=
  match vs, scale_strs with
  | [], [] => Ok []
  | v :: vs', s :: ss' =>
      x <- scale v s ;; xs <- map_scale vs' ss' ;; Ok (x :: xs)
  | _, _ => Raise ShapeMismatch
  end.

End parameters.

(* ================================================================== *)
(** ** The parameter table and the problem object *)

(** One row of the parameter table; the frame's index label is
    [parameterId], the other fields are its columns. *)
Record ParameterRow := {
  parameterId : string;
  nominalValue : R;
  lowerBound : R;
  upperBound : R;
  parameterScale : scale_kind;
  estimate : Z
}.

Definition ParameterTable := list ParameterRow.

(** The other tables and the SBML objects are carried, never inspected. *)
Definition Table := list (list string).
Definition SbmlRef := string.

Record Problem := {
  condition_df : option Table;
  measurement_df : option Table;
  parameter_df : option ParameterTable;
  visualization_df : option Table;
  observable_df : option Table;
  sbml_reader : option SbmlRef;
  sbml_document : option SbmlRef;
  sbml_model : option SbmlRef
}.

(** [self.parameter_df[COLUMN]]: subscripting [None] is a [TypeError]. *)
Definition column {A} (self : Problem) (field : ParameterRow -> A)
  : result (list A) :=
  match parameter_df self with
  | Some df => Ok (map field df)
  | None => Raise TypeError_NoneType
  end.

(** [Problem.x_free_indices] *)
Definition x_free_indices (self : Problem) : result (list nat) :=
  estimated <- column self estimate ;;
  Ok (map fst
        (filter (fun jv => negb (Z.eqb (snd jv) 0)) (enumerate estimated))).

(** [Problem.x_fixed_indices] *)
Definition x_fixed_indices (self : Problem) : result (list nat) :=
  estimated <- column self estimate ;;
  Ok (map fst (filter (fun jv => Z.eqb (snd jv) 0) (enumerate estimated))).

(** [Problem._apply_mask] *)
Definition _apply_mask {A} (self : Problem) (v : list A) (free fixed : bool)
  : result (list A) :=
  if negb free && negb fixed then Ok []
  else if negb free then
    ixs <- x_fixed_indices self ;; list_comp (getitem v) ixs
  else if negb fixed then
    ixs <- x_free_indices self ;; list_comp (getitem v) ixs
  else Ok v.

(** [Problem.get_x_ids] *)
Definition get_x_ids (self : Problem) (free fixed : bool)
  : result (list string) :=
  v <- column self parameterId ;;
  _apply_mask self v free fixed.

(** [Problem.x_ids], [Problem.x_free_ids], [Problem.x_fixed_ids] *)
Definition x_ids (self : Problem) := get_x_ids self (kwarg None) (kwarg None).
Definition x_free_ids (self : Problem) :=
  get_x_ids self (kwarg None) (kwarg (Some false)).
Definition x_fixed_ids (self : Problem) :=
  get_x_ids self (kwarg (Some false)) (kwarg None).

(** [Problem.get_x_nominal] *)
Definition get_x_nominal (self : Problem) (free fixed scaled : bool)
  : result (list R) :=
  v <- column self nominalValue ;;
  v <- (if scaled then
          scales <- column self parameterScale ;;
          parameters.map_scale v scales
        else Ok v) ;;
  _apply_mask self v free fixed.

(** [Problem.get_lb] *)
Definition get_lb (self : Problem) (free fixed scaled : bool)
  : result (list R) :=
  v <- column self lowerBound ;;
  v <- (if scaled then
          scales <- column self parameterScale ;;
          parameters.map_scale v scales
        else Ok v) ;;
  _apply_mask self v free fixed.

(** [Problem.get_ub] *)
Definition get_ub (self : Problem) (free fixed scaled : bool)
  : result (list R) :=
  v <- column self upperBound ;;
  v <- (if scaled then
          scales <- column self parameterScale ;;
          parameters.map_scale v scales
        else Ok v) ;;
  _apply_mask self v free fixed.

(* ================================================================== *)
(** ** A state-and-exception monad for code with effects *)

(** A computation over a mutable state [S]; what was done to the state
    before an exception is raised stays done. *)
Definition M (S A : Type) : Type := S -> result A * S.

Definition ret {S A} (a : A) : M S A := fun s => (Ok a, s).

Definition raise {S A} (e : exn) : M S A := fun s => (Raise e, s).

Definition lift {S A} (r : result A) : M S A := fun s => (r, s).

Definition bind {S A B} (c : M S A) (k : A -> M S B) : M S B :=
  fun s =>
    match c s with
    | (Ok a, s') => k a s'
    | (Raise e, s') => (Raise e, s')
    end.

Notation "x <~ c ;; k" := (bind c (fun x => k))
  (at level 61, c at next level, right associativity).
Notation "c ;;; k" := (bind c (fun _ => k))
  (at level 61, right associativity).

(* ================================================================== *)
(** ** The object store: [scale_parameters] and [unscale_parameters] *)

(** A [Dict[str, float]]: its items in insertion order. *)
Definition PyDict := list (string * R).

Definition is_dict (d : PyDict) : Prop := NoDup (map fst d).

(** [d[k] = v]: overwrite in place, or append a new key. *)
Fixpoint dict_setitem (d : PyDict) (k : string) (v : R) : PyDict :=
  match d with
  | [] => [(k, v)]
  | (k', v') :: d' =>
      if String.eqb k' k then (k, v) :: d' else (k', v') :: dict_setitem d' k v
  end.

(** The receiver and the dictionaries alive in memory; a reference to a
    dictionary is its address in [dicts]. *)
Record Store := {
  self_obj : Problem;
  dicts : list PyDict
}.

Definition dict_ref := nat.

Definition get_self : M Store Problem := fun st => (Ok (self_obj st), st).

(** Reading through a reference; a reference handed out by [new_dict]
    always points into the store. *)
Definition deref (r : dict_ref) : M Store PyDict :=
  fun st =>
    match nth_error (dicts st) r with
    | Some d => (Ok d, st)
    | None => (Raise (ExternalError "dangling reference"), st)
    end.

(** A freshly built dictionary gets the next free address. *)
Definition new_dict (d : PyDict) : M Store dict_ref :=
  fun st =>
    (Ok (List.length (dicts st)),
     {| self_obj := self_obj st; dicts := dicts st ++ [d] |}).

(** [series[label]] on a column of the parameter table: no row with that
    label is a [KeyError]; exactly one gives its cell; several give a
    sub-series, on which the scalar transform fails. *)
Definition series_getitem {A} (self : Problem) (field : ParameterRow -> A)
  (label : string) : result A :=
  match parameter_df self with
  | None => Raise TypeError_NoneType
  | Some df =>
      match filter (fun r => String.eqb (parameterId r) label) df with
      | [] => Raise (KeyError label)
      | [r] => Ok (field r)
      | _ => Raise ValueError_ambiguous_truth
      end
  end.

(** [{k: body(k, v) for k, v in items}], filling the new dictionary [acc]. *)
Fixpoint dict_comp (body : string -> R -> M Store R)
  (items : list (string * R)) (acc : PyDict) : M Store PyDict :=
  match items with
  | [] => ret acc
  | (k, v) :: rest =>
      y <~ body k v ;;
      dict_comp body rest (dict_setitem acc k y)
  end.

(** [Problem.unscale_parameters] *)
Definition unscale_parameters (x_dict : dict_ref) : M Store dict_ref :=
  items <~ deref x_dict ;;
  d <~ dict_comp
         (fun parameter_id parameter_value =>
            self <~ get_self ;;
            scale_str <~ lift (series_getitem self parameterScale
                                 parameter_id) ;;
            lift (parameters.unscale parameter_value scale_str))
         items [] ;;
  new_dict d.

(** [Problem.scale_parameters] *)
Definition scale_parameters (x_dict : dict_ref) : M Store dict_ref :=
  items <~ deref x_dict ;;
  d <~ dict_comp
         (fun parameter_id parameter_value =>
            self <~ get_self ;;
            scale_str <~ lift (series_getitem self parameterScale
                                 parameter_id) ;;
            lift (parameters.scale parameter_value scale_str))
         items [] ;;
  new_dict d.

(** [Problem.unscale_parameters] with the function it calls,
    [parameters.unscale] (not part of this file's source), passed in. *)
Definition unscale_parameters_with (unscale : R -> scale_kind -> result R)
  (x_dict : dict_ref) : M Store dict_ref :=
  items <~ deref x_dict ;;
  d <~ dict_comp
         (fun parameter_id parameter_value =>
            self <~ get_self ;;
            scale_str <~ lift (series_getitem self parameterScale
                                 parameter_id) ;;
            lift (unscale parameter_value scale_str))
         items [] ;;
  new_dict d.

(** [Problem.scale_parameters] with the function it calls,
    [parameters.scale] (not part of this file's source), passed in. *)
Definition scale_parameters_with (scale : R -> scale_kind -> result R)
  (x_dict : dict_ref) : M Store dict_ref :=
  items <~ deref x_dict ;;
  d <~ dict_comp
         (fun parameter_id parameter_value =>
            self <~ get_self ;;
            scale_str <~ lift (series_getitem self parameterScale
                                 parameter_id) ;;
            lift (scale parameter_value scale_str))
         items [] ;;
  new_dict d.

(* ================================================================== *)
(** ** The outside world: file loads and warnings *)

(** A file argument of [from_files]: [None], one path, or several. *)
Inductive file_arg :=
| NoFile
| OneFile (path : string)
| ManyFiles (paths : list string).

(** Python truthiness of a file argument: [None], the empty string and the
    empty list are false. *)
Definition truthy (f : file_arg) : bool :=
  match f with
  | NoFile => false
  | OneFile p => negb (String.eqb p "")
  | ManyFiles ps => match ps with [] => false | _ => true end
  end.

Inductive table_kind :=
| ConditionTable
| MeasurementTable
| ParameterTableFile
| SbmlModelFile
| VisualizationTable
| ObservableTable.

Inductive warning_category :=
| DeprecationWarning.

(** What the program has done to its environment so far: the YAML files it
    parsed, the tables and models it loaded, and the warnings it issued,
    each oldest first. *)
Record World := {
  yaml_reads : list string;
  loads : list (table_kind * file_arg);
  warnings : list (warning_category * string)
}.

(** The keys of a PEtab YAML configuration (constants of [petab.C]). *)
Inductive yaml_key :=
| FORMAT_VERSION
| PARAMETER_FILE
| PROBLEMS
| SBML_FILES
| MEASUREMENT_FILES
| CONDITION_FILES
| VISUALIZATION_FILES
| OBSERVABLE_FILES.

(** Exceptions of the loaders; a missing YAML key is its own [KeyError]. *)
Definition KeyError_yaml (k : yaml_key) : exn :=
  KeyError
    match k with
    | FORMAT_VERSION => "FORMAT_VERSION"
    | PARAMETER_FILE => "PARAMETER_FILE"
    | PROBLEMS => "problems"
    | SBML_FILES => "SBML_FILES"
    | MEASUREMENT_FILES => "MEASUREMENT_FILES"
    | CONDITION_FILES => "CONDITION_FILES"
    | VISUALIZATION_FILES => "VISUALIZATION_FILES"
    | OBSERVABLE_FILES => "OBSERVABLE_FILES"
    end.

(** One entry of the configuration's ['problems'] list; an absent key is
    [None]. *)
Record ProblemEntry := {
  sbml_files : option (list string);
  measurement_files : option (list string);
  condition_files : option (list string);
  visualization_files : option (list string);
  observable_files : option (list string)
}.

(** The value under [PARAMETER_FILE]: a file name or a list of them. *)
Inductive yaml_files :=
| YStr (name : string)
| YList (names : list string).

(** A PEtab YAML configuration as a dictionary; an absent key is [None]. *)
Record YamlConfig := {
  format_version : option PyVal;
  parameter_file : option yaml_files;
  problems : option (list ProblemEntry)
}.

(** The argument of [from_yaml]: a dictionary or a file name. *)
Inductive yaml_input :=
| YamlDict (config : YamlConfig)
| YamlPath (path : string).

(** [d[key]] on a configuration dictionary. *)
Definition yaml_getitem {A} (key : yaml_key) (entry : option A) : result A :=
  match entry with
  | Some a => Ok a
  | None => Raise (KeyError_yaml key)
  end.

(** [d.get(key, [])] *)
Definition yaml_get_list {A} (entry : option (list A)) : list A :=
  match entry with
  | Some l => l
  | None => []
  end.

(** What a call into another module comes to: a value, or that module's
    own exception (never one of the exceptions raised in this file). *)
Inductive outcome (A : Type) :=
| Returned (a : A)
| Failed (msg : string).
Arguments Returned {A} a.
Arguments Failed {A} msg.

Definition external {A} (o : outcome A) : result A :=
  match o with
  | Returned a => Ok a
  | Failed msg => Raise (ExternalError msg)
  end.

(** The modules of the package and of the standard library that
    [problem.py] calls and that are not part of its source; each reader's
    outcome is fixed by the files on disk. *)
Class External := {
  (** [format_version.__format_version__] *)
  supported_format_version : PyVal;
  (** [yaml.load_yaml] *)
  yaml_load_yaml : string -> outcome YamlConfig;
  (** [yaml.is_composite_problem] *)
  yaml_is_composite_problem : YamlConfig -> outcome bool;
  (** [yaml.assert_single_condition_and_sbml_file] *)
  yaml_assert_single_condition_and_sbml_file : ProblemEntry -> outcome unit;
  (** the [get_path] that lines 172-190 build for a YAML file name *)
  path_relative_to : string -> string -> string;
  (** [conditions.get_condition_df] *)
  conditions_get_condition_df : file_arg -> outcome Table;
  (** [core.concat_tables(files, parser)], by the parser's table kind *)
  core_concat_tables : table_kind -> file_arg -> outcome Table;
  (** [parameters.get_parameter_df] *)
  parameters_get_parameter_df : file_arg -> outcome ParameterTable;
  (** [sbml.get_sbml_model] *)
  sbml_get_sbml_model : file_arg -> outcome (SbmlRef * SbmlRef * SbmlRef);
  (** [sbml.get_observables] *)
  sbml_get_observables :
    option SbmlRef -> bool -> outcome (list (string * string));
  (** [sbml.get_sigmas] *)
  sbml_get_sigmas : option SbmlRef -> bool -> outcome (list (string * string));
  (** [os.path.abspath] *)
  os_path_abspath : string -> string;
  (** [os.path.split(p)[-1]] *)
  os_path_split_last : string -> string
}.

(** [warnings.warn(message, category)]: the warning is recorded and the
    call returns [None]. *)
Definition warn (message : string) (category : warning_category)
  : M World unit :=
  fun w =>
    (Ok tt,
     {| yaml_reads := yaml_reads w;
        loads := loads w;
        warnings := warnings w ++ [(category, message)] |}).

(** Calling a table or model reader: the load is recorded, the reader's
    outcome returned. *)
Definition load {A} (kind : table_kind) (reader : file_arg -> outcome A)
  (file : file_arg) : M World A :=
  fun w =>
    (external (reader file),
     {| yaml_reads := yaml_reads w;
        loads := loads w ++ [(kind, file)];
        warnings := warnings w |}).

(** Parsing a YAML file. *)
Definition read_yaml `{External} (path : string) : M World YamlConfig :=
  fun w =>
    (external (yaml_load_yaml path),
     {| yaml_reads := yaml_reads w ++ [path];
        loads := loads w;
        warnings := warnings w |}).

(** [if file: x = reader(file)], with [x] left [None] otherwise. *)
Definition load_if {A} (kind : table_kind) (reader : file_arg -> outcome A)
  (file : file_arg) : M World (option A) :=
  if truthy file then a <~ load kind reader file ;; ret (Some a)
  else ret None.

(** [Problem.from_files] *)
Definition from_files `{External}
  (sbml_file condition_file measurement_file parameter_file
   visualization_files observable_files : file_arg) : M World Problem :=
  condition_df <~ load_if ConditionTable conditions_get_condition_df
                    condition_file ;;
  measurement_df <~ load_if MeasurementTable
                      (core_concat_tables MeasurementTable)
                      measurement_file ;;
  parameter_df <~ load_if ParameterTableFile parameters_get_parameter_df
                    parameter_file ;;
  sbml <~ load_if SbmlModelFile sbml_get_sbml_model sbml_file ;;
  visualization_df <~ load_if VisualizationTable
                        (core_concat_tables VisualizationTable)
                        visualization_files ;;
  observable_df <~ load_if ObservableTable
                     (core_concat_tables ObservableTable)
                     observable_files ;;
  ret {| condition_df := condition_df;
         measurement_df := measurement_df;
         parameter_df := parameter_df;
         visualization_df := visualization_df;
         observable_df := observable_df;
         sbml_reader := option_map (fun t => fst (fst t)) sbml;
         sbml_document := option_map (fun t => snd (fst t)) sbml;
         sbml_model := option_map snd sbml |}.

(** [Problem.from_yaml], lines 203-224: what is done with a configuration
    that passed both checks. *)
Definition from_yaml_files `{External} (yaml_config : YamlConfig)
  (get_path : string -> string) : M World Problem :=
  problem_list <~ lift (yaml_getitem PROBLEMS (problems yaml_config)) ;;
  problem0 <~ lift (getitem problem_list 0) ;;
  lift (external (yaml_assert_single_condition_and_sbml_file problem0)) ;;;
  pf <~ lift (yaml_getitem PARAMETER_FILE (parameter_file yaml_config)) ;;
  let parameter_file :=
    match pf with
    | YList names => ManyFiles (map get_path names)
    | YStr name => OneFile (get_path name)
    end in
  sbmls <~ lift (yaml_getitem SBML_FILES (sbml_files problem0)) ;;
  sbml0 <~ lift (getitem sbmls 0) ;;
  meas <~ lift (yaml_getitem MEASUREMENT_FILES
                  (measurement_files problem0)) ;;
  conds <~ lift (yaml_getitem CONDITION_FILES (condition_files problem0)) ;;
  cond0 <~ lift (getitem conds 0) ;;
  from_files
    (OneFile (get_path sbml0))
    (OneFile (get_path cond0))
    (ManyFiles (map get_path meas))
    parameter_file
    (ManyFiles (map get_path (yaml_get_list (visualization_files problem0))))
    (ManyFiles (map get_path (yaml_get_list (observable_files problem0)))).

(** [Problem.from_yaml] *)
Definition from_yaml `{External} (yaml_config : yaml_input)
  : M World Problem :=
  cg <~ match yaml_config with
        | YamlDict config => ret (config, fun filename : string => filename)
        | YamlPath yaml_path =>
            config <~ read_yaml yaml_path ;;
            ret (config, path_relative_to yaml_path)
        end ;;
  let yaml_config := fst cg in
  let get_path := snd cg in
  composite <~ lift (external (yaml_is_composite_problem yaml_config)) ;;
  if composite : bool then raise ValueError_composite
  else
    version <~ lift (yaml_getitem FORMAT_VERSION
                       (format_version yaml_config)) ;;
    if negb (PyVal_eqb version supported_format_version)
    then raise (ValueError_unsupported_version version
                  supported_format_version)
    else from_yaml_files yaml_config get_path.

(** [os.path.join(a, b)] on POSIX paths. *)
Definition ends_with_slash (a : string) : bool :=
  match String.get (String.length a - 1) a with
  | Some c => Ascii.eqb c "/"%char
  | None => false
  end.

Definition os_path_join (a b : string) : string :=
  if String.prefix "/" b then b
  else if String.eqb a "" || ends_with_slash a then a ++ b
  else a ++ "/" ++ b.

Definition deprecation_note : string :=
  "This function will be removed in future releases. ".

(** [get_default_condition_file_name] *)
Definition get_default_condition_file_name (model_name folder : string)
  : M World string :=
  warn deprecation_note DeprecationWarning ;;;
  ret (os_path_join folder ("experimentalCondition_" ++ model_name ++ ".tsv")).

(** [get_default_measurement_file_name] *)
Definition get_default_measurement_file_name (model_name folder : string)
  : M World string :=
  warn deprecation_note DeprecationWarning ;;;
  ret (os_path_join folder ("measurementData_" ++ model_name ++ ".tsv")).

(** [get_default_parameter_file_name] *)
Definition get_default_parameter_file_name (model_name folder : string)
  : M World string :=
  warn deprecation_note DeprecationWarning ;;;
  ret (os_path_join folder ("parameters_" ++ model_name ++ ".tsv")).

(** [get_default_sbml_file_name] *)
Definition get_default_sbml_file_name (model_name folder : string)
  : M World string :=
  warn deprecation_note DeprecationWarning ;;;
  ret (os_path_join folder ("model_" ++ model_name ++ ".xml")).

(** [Problem.from_folder] *)
Definition from_folder `{External} (folder : string)
  (model_name : option string) : M World Problem :=
  warn ("This function will be removed in future releases. " ++
        "Consider using a PEtab YAML file for grouping files")
       DeprecationWarning ;;;
  let folder := os_path_abspath folder in
  let model_name :=
    match model_name with
    | None => os_path_split_last folder
    | Some name => name
    end in
  condition_file <~ get_default_condition_file_name model_name folder ;;
  measurement_file <~ get_default_measurement_file_name model_name folder ;;
  parameter_file <~ get_default_parameter_file_name model_name folder ;;
  sbml_file <~ get_default_sbml_file_name model_name folder ;;
  from_files (OneFile sbml_file) (OneFile condition_file)
    (OneFile measurement_file) (OneFile parameter_file) NoFile NoFile.

(** [Problem.get_observables] *)
Definition get_observables `{External} (self : Problem) (remove : bool)
  : M World (list (string * string)) :=
  warn "This function will be removed in future releases."
       DeprecationWarning ;;;
  lift (external (sbml_get_observables (sbml_model self) remove)).

(** [Problem.get_sigmas] *)
Definition get_sigmas `{External} (self : Problem) (remove : bool)
  : M World (list (string * string)) :=
  warn "This function will be removed in future releases."
       DeprecationWarning ;;;
  lift (external (sbml_get_sigmas (sbml_model self) remove)).

(* ================================================================== *)
(** ** Specification-side vocabulary and sample data *)

(** A row is free when [estimate != 0] and fixed when [estimate == 0]. *)
Definition is_free (r : ParameterRow) : bool := negb (Z.eqb (estimate r) 0).
Definition is_fixed (r : ParameterRow) : bool := Z.eqb (estimate r) 0.

(** The rows a pair of flags asks for. *)
Definition selected (free fixed : bool) (r : ParameterRow) : bool :=
  if Z.eqb (estimate r) 0 then fixed else free.

(** The value of a row on its own scale, in the spec's words: linear is the
    identity, log the natural logarithm, log10 the base-10 logarithm. *)
Definition on_own_scale (field : ParameterRow -> R) (r : ParameterRow) : R :=
  match parameterScale r with
  | LIN => field r
  | LOG => ln (field r)
  | LOG10 => (ln (field r) / ln 10)%R
  | OtherScale _ => field r
  end.

Definition valid_scales (tbl : ParameterTable) : Prop :=
  Forall (fun r => valid_scale (parameterScale r) = true) tbl.

(** A problem that holds a parameter table and nothing else. *)
Definition problem_of (tbl : ParameterTable) : Problem :=
  {| condition_df := None; measurement_df := None;
     parameter_df := Some tbl;
     visualization_df := None; observable_df := None;
     sbml_reader := None; sbml_document := None; sbml_model := None |}.

(** The two-parameter table of the spec's scenario. *)
Definition scenario_table : ParameterTable :=
  [ {| parameterId := "k1"; nominalValue := 2; lowerBound := 0;
       upperBound := 10; parameterScale := LIN; estimate := 1 |};
    {| parameterId := "k2"; nominalValue := 1; lowerBound := 0;
       upperBound := 5; parameterScale := LOG10; estimate := 0 |} ].

Definition scenario : Problem := problem_of scenario_table.

(** Three parameters that share one nominal value and one upper bound. *)
Definition repeated_table : ParameterTable :=
  [ {| parameterId := "a"; nominalValue := 1; lowerBound := 1;
       upperBound := 1; parameterScale := LIN; estimate := 1 |};
    {| parameterId := "b"; nominalValue := 1; lowerBound := 1;
       upperBound := 1; parameterScale := LOG; estimate := 0 |};
    {| parameterId := "c"; nominalValue := 1; lowerBound := 1;
       upperBound := 1; parameterScale := LOG10; estimate := 1 |} ].

(** The scale the table gives to parameter [k] (linear when [k] is not a
    row label). *)
Definition scale_of (tbl : ParameterTable) (k : string) : scale_kind :=
  match filter (fun r => String.eqb (parameterId r) k) tbl with
  | r :: _ => parameterScale r
  | [] => LIN
  end.

(** What one entry of the comprehension evaluates to, given the receiver. *)
Definition entry_result (self : Problem) (op : R -> scale_kind -> result R)
  (k : string) (v : R) : result R :=
  scale_str <- series_getitem self parameterScale k ;; op v scale_str.

(** The comprehension over a body that does not touch the store. *)
Fixpoint dict_comp_pure (f : string -> R -> result R)
  (items : list (string * R)) (acc : PyDict) : result PyDict :=
  match items with
  | [] => Ok acc
  | (k, v) :: rest =>
      y <- f k v ;; dict_comp_pure f rest (dict_setitem acc k y)
  end.

(** The keys of a dictionary are parameter ids of the table. *)
Definition keys_known (tbl : ParameterTable) (d : PyDict) : Prop :=
  incl (map fst d) (map parameterId tbl).

(** What it means for a method that takes a dictionary [d] by the
    reference [x_dict], and that applies [transform] to its entries, to
    leave the stored records alone: the receiver with all its tables is the
    same afterwards, every dictionary that was in the store is still there
    unchanged, a returned reference is to a dictionary that did not exist
    before and that has the keys of [d] in their order, and the method does
    return when the keys of [d] are ids of a table with unique ids and
    [transform] returns on every entry at the scale of its key. *)
Definition leaves_records_alone (method : dict_ref -> M Store dict_ref)
  (transform : R -> scale_kind -> result R)
  (st : Store) (x_dict : dict_ref) (d : PyDict) : Prop :=
  self_obj (snd (method x_dict st)) = self_obj st /\
  (forall r old, nth_error (dicts st) r = Some old ->
                 nth_error (dicts (snd (method x_dict st))) r = Some old) /\
  (forall out, fst (method x_dict st) = Ok out ->
               nth_error (dicts st) out = None /\
               exists d', nth_error (dicts (snd (method x_dict st))) out
                          = Some d' /\
                          map fst d' = map fst d) /\
  (forall tbl, parameter_df (self_obj st) = Some tbl ->
               NoDup (map parameterId tbl) ->
               keys_known tbl d ->
               (forall k v, In (k, v) d ->
                            exists y, transform v (scale_of tbl k) = Ok y) ->
               exists out, fst (method x_dict st) = Ok out).

(** A store whose receiver holds the scenario table, with the dictionaries
    [{"k1": 2, "k2": 5}] at address 0 and [{"k1": -3}] at address 1. *)
Definition scenario_store : Store :=
  {| self_obj := scenario;
     dicts := [ [("k1"%string, 2%R); ("k2"%string, 5%R)];
                [("k1"%string, (-3)%R)] ] |}.

(** The configuration an argument of [from_yaml] stands for. *)
Definition config_of `{External} (yaml_config : yaml_input)
  : result YamlConfig :=
  match yaml_config with
  | YamlDict config => Ok config
  | YamlPath path => external (yaml_load_yaml path)
  end.

(** The [get_path] that goes with an argument of [from_yaml]. *)
Definition get_path_of `{External} (yaml_config : yaml_input)
  : string -> string :=
  match yaml_config with
  | YamlDict _ => fun filename => filename
  | YamlPath path => path_relative_to path
  end.

(** The world once the argument of [from_yaml] is a dictionary: a file
    name has been parsed, nothing else has happened. *)
Definition after_config (yaml_config : yaml_input) (w : World) : World :=
  match yaml_config with
  | YamlDict _ => w
  | YamlPath path =>
      {| yaml_reads := yaml_reads w ++ [path];
         loads := loads w;
         warnings := warnings w |}
  end.

(** The world with further warnings issued. *)
Definition warned (w : World) (ws : list (warning_category * string))
  : World :=
  {| yaml_reads := yaml_reads w;
     loads := loads w;
     warnings := warnings w ++ ws |}.

(** A computation that issues no warning. *)
Definition silent {A} (c : M World A) : Prop :=
  forall w, warnings (snd (c w)) = warnings w.

(** The exception of the format-version check. *)
Definition is_version_error (e : exn) : bool :=
  match e with
  | ValueError_unsupported_version _ _ => true
  | _ => false
  end.

(** A computation that never raises the format-version error. *)
Definition no_version_error {A} (c : M World A) : Prop :=
  forall w e, fst (c w) = Raise e -> is_version_error e = false.

(** The file names [from_folder] asks for. *)
Definition folder_model (E : External) (folder : string)
  (model_name : option string) : string :=
  match model_name with
  | None => os_path_split_last (os_path_abspath folder)
  | Some name => name
  end.

Definition folder_file (E : External) (folder : string)
  (model_name : option string) (stem extension : string) : string :=
  os_path_join (os_path_abspath folder)
    (stem ++ folder_model E folder model_name ++ extension).

(** A sample environment: format version 1, no YAML file on disk, a
    configuration is composite when it lists more than [limit] problems,
    and every file is readable. *)
Definition sample_external (limit : nat) : External :=
  {| supported_format_version := PyInt 1;
     yaml_load_yaml := fun _ => Failed "no such file";
     yaml_is_composite_problem :=
       fun config =>
         match problems config with
         | Some l => Returned (Nat.ltb limit (List.length l))
         | None => Failed "KeyError: 'problems'"
         end;
     yaml_assert_single_condition_and_sbml_file := fun _ => Returned tt;
     path_relative_to := fun yaml_path filename => filename;
     conditions_get_condition_df := fun _ => Returned [];
     core_concat_tables := fun _ _ => Returned [];
     parameters_get_parameter_df := fun _ => Returned scenario_table;
     sbml_get_sbml_model :=
       fun _ => Returned ("reader", "document", "model")%string;
     sbml_get_observables := fun _ _ => Returned [];
     sbml_get_sigmas := fun _ _ => Returned [];
     os_path_abspath := fun p => p;
     os_path_split_last := fun p => p |}.

Definition sample_entry : ProblemEntry :=
  {| sbml_files := Some ["model.xml"%string];
     measurement_files := Some ["measurements.tsv"%string];
     condition_files := Some ["conditions.tsv"%string];
     visualization_files := None;
     observable_files := Some ["observables.tsv"%string] |}.

Definition sample_config (version : PyVal) (entries : list ProblemEntry)
  : YamlConfig :=
  {| format_version := Some version;
     parameter_file := Some (YStr "parameters.tsv");
     problems := Some entries |}.

Definition empty_world : World :=
  {| yaml_reads := []; loads := []; warnings := [] |}.

(* ================================================================== *)
(** ** Further accessors of [Problem] *)

(** [Problem.x_nominal], [Problem.x_nominal_free],
    [Problem.x_nominal_fixed] *)
Definition x_nominal (self : Problem) :=
  get_x_nominal self (kwarg None) (kwarg None) false.
Definition x_nominal_free (self : Problem) :=
  get_x_nominal self (kwarg None) (kwarg (Some false)) false.
Definition x_nominal_fixed (self : Problem) :=
  get_x_nominal self (kwarg (Some false)) (kwarg None) false.

(** [Problem.x_nominal_scaled], [Problem.x_nominal_free_scaled],
    [Problem.x_nominal_fixed_scaled] *)
Definition x_nominal_scaled (self : Problem) :=
  get_x_nominal self (kwarg None) (kwarg None) true.
Definition x_nominal_free_scaled (self : Problem) :=
  get_x_nominal self (kwarg None) (kwarg (Some false)) true.
Definition x_nominal_fixed_scaled (self : Problem) :=
  get_x_nominal self (kwarg (Some false)) (kwarg None) true.

(** [Problem.lb], [Problem.lb_scaled], [Problem.ub], [Problem.ub_scaled] *)
Definition lb (self : Problem) :=
  get_lb self (kwarg None) (kwarg None) false.
Definition lb_scaled (self : Problem) :=
  get_lb self (kwarg None) (kwarg None) true.
Definition ub (self : Problem) :=
  get_ub self (kwarg None) (kwarg None) false.
Definition ub_scaled (self : Problem) :=
  get_ub self (kwarg None) (kwarg None) true.

(** A problem as [__init__] leaves it when called without arguments. *)
Definition empty_problem : Problem :=
  {| condition_df := None; measurement_df := None; parameter_df := None;
     visualization_df := None; observable_df := None;
     sbml_reader := None; sbml_document := None; sbml_model := None |}.

(** A computation that leaves one component of the world as it was. *)
Definition keeps {A X} (component : World -> X) (c : M World A) : Prop :=
  forall w, component (snd (c w)) = component w.

(** A computation whose only exceptions are those of other modules. *)
Definition fails_only_outside {A} (c : M World A) : Prop :=
  forall w e, fst (c w) = Raise e -> exists msg, e = ExternalError msg.

(** The loads [from_files] makes for its six arguments, in the order it
    makes them. *)
Definition planned_loads
  (sbml_file condition_file measurement_file parameter_file
   visualization_files observable_files : file_arg)
  : list (table_kind * file_arg) :=
  filter (fun load => truthy (snd load))
    [(ConditionTable, condition_file);
     (MeasurementTable, measurement_file);
     (ParameterTableFile, parameter_file);
     (SbmlModelFile, sbml_file);
     (VisualizationTable, visualization_files);
     (ObservableTable, observable_files)].

(** The file argument [from_yaml] makes of the value under
    [PARAMETER_FILE]. *)
Definition parameter_file_arg (get_path : string -> string)
  (pf : yaml_files) : file_arg :=
  match pf with
  | YList names => ManyFiles (map get_path names)
  | YStr name => OneFile (get_path name)
  end.

(** An attribute that is not [None]. *)
Definition is_set {A} (o : option A) : bool :=
  match o with
  | Some _ => true
  | None => false
  end.

(** A computation that makes the loads of [plan], one after the other,
    and nothing else: when it returns, all of them are on record; when it
    raises, the exception is a reader's and the record ends with the load
    that failed. *)
Definition follows_plan {A} (plan : list (table_kind * file_arg))
  (c : M World A) : Prop :=
  forall w,
    yaml_reads (snd (c w)) = yaml_reads w /\
    warnings (snd (c w)) = warnings w /\
    match fst (c w) with
    | Ok _ => loads (snd (c w)) = loads w ++ plan
    | Raise e =>
        (exists msg, e = ExternalError msg) /\
        exists n, n < List.length plan /\
                  loads (snd (c w)) = loads w ++ firstn (S n) plan
    end.

(** An environment in which the measurement, visualization and observable
    tables and the SBML model cannot be read. *)
Definition unreadable_external : External :=
  {| supported_format_version := PyInt 1;
     yaml_load_yaml := fun _ => Failed "no such file";
     yaml_is_composite_problem := fun _ => Returned false;
     yaml_assert_single_condition_and_sbml_file := fun _ => Returned tt;
     path_relative_to := fun _ filename => filename;
     conditions_get_condition_df := fun _ => Returned [];
     core_concat_tables := fun _ _ => Failed "unreadable";
     parameters_get_parameter_df := fun _ => Returned [];
     sbml_get_sbml_model := fun _ => Failed "unreadable";
     sbml_get_observables := fun _ _ => Returned [];
     sbml_get_sigmas := fun _ _ => Returned [];
     os_path_abspath := fun p => p;
     os_path_split_last := fun p => p |}.

(** A problem entry with a model but no condition file, and one that
    lists a second model and a second condition file. *)
Definition entry_without_conditions : ProblemEntry :=
  {| sbml_files := Some ["model.xml"%string];
     measurement_files := Some [];
     condition_files := Some [];
     visualization_files := None;
     observable_files := None |}.

Definition entry_with_spares : ProblemEntry :=
  {| sbml_files := Some ["model.xml"; "ignored.xml"]%string;
     measurement_files := Some ["measurements.tsv"%string];
     condition_files := Some ["conditions.tsv"; "ignored.tsv"]%string;
     visualization_files := None;
     observable_files := Some ["observables.tsv"%string] |}.

(* ================================================================== *)
(** ** Writing a problem to files *)

(** The exceptions of [to_files]: its two [ValueError]s and whatever a
    writer raises. *)
Inductive save_error :=
| ValueError_no_sbml_doc
    (* 'Unable to save SBML model with no sbml_doc set.' *)
| ValueError_no_table (name : string)
    (* 'Unable to save non-existent {name} table' *)
| WriterError (msg : string).

Inductive saved (A : Type) :=
| Done (a : A)
| Fail (e : save_error).
Arguments Done {A} a.
Arguments Fail {A} e.

(** A call to one of the writers, with what it was given. *)
Inductive writer_call :=
| WriteSbml (document : SbmlRef) (path : string)
| WriteTable (kind : table_kind) (table : Table) (path : string)
| WriteParameters (table : ParameterTable) (path : string)
| CreateYaml (sbml_file condition_file measurement_file parameter_file
              observable_file : option string) (yaml_file : string)
             (visualization_file : option string) (relative_paths : bool).

(** A computation that calls writers; the state is the list of calls made
    so far, oldest first. *)
Definition Saving (A : Type) : Type :=
  list writer_call -> saved A * list writer_call.

(** The writer modules and [pathlib], which are not part of this file's
    source. *)
Class Writers := {
  (** [str(Path(prefix_path) / path0)] *)
  pathlib_join : string -> string -> string;
  (** [sbml.write_sbml] *)
  sbml_write_sbml : SbmlRef -> string -> outcome unit;
  (** [conditions.write_condition_df] *)
  conditions_write_condition_df : Table -> string -> outcome unit;
  (** [measurements.write_measurement_df] *)
  measurements_write_measurement_df : Table -> string -> outcome unit;
  (** [parameters.write_parameter_df] *)
  parameters_write_parameter_df : ParameterTable -> string -> outcome unit;
  (** [observables.write_observable_df] *)
  observables_write_observable_df : Table -> string -> outcome unit;
  (** [core.write_visualization_df] *)
  core_write_visualization_df : Table -> string -> outcome unit;
  (** [yaml.create_problem_yaml] *)
  yaml_create_problem_yaml :
    option string -> option string -> option string -> option string ->
    option string -> string -> option string -> bool -> outcome unit
}.

Definition written {A} (o : outcome A) : saved A :=
  match o with
  | Returned a => Done a
  | Failed msg => Fail (WriterError msg)
  end.

(** Truthiness of a destination: [None] and the empty string are false. *)
Definition destination (path : option string) : bool :=
  match path with
  | Some p => negb (String.eqb p "")
  | None => false
  end.

(** [add_prefix] of [to_files], for the [prefix_path] given. *)
Definition add_prefix `{Writers} (prefix_path : option string)
  (path0 : option string) : option string :=
  match prefix_path with
  | None => path0
  | Some prefix =>
      match path0 with
      | None => None
      | Some p => Some (pathlib_join prefix p)
      end
  end.

(** [if file: if entity is not None: writer(entity, file) else: raise] *)
Definition save_entity {T} (file : option string) (entity : option T)
  (missing : save_error) (writer : T -> string -> outcome unit)
  (call : T -> string -> writer_call) : Saving unit :=
  fun calls =>
    match file with
    | Some path =>
        if negb (String.eqb path "") then
          match entity with
          | Some t => (written (writer t path), calls ++ [call t path])
          | None => (Fail missing, calls)
          end
        else (Done tt, calls)
    | None => (Done tt, calls)
    end.

(** Statements one after the other; the first exception ends the run. *)
Fixpoint save_steps (steps : list (Saving unit)) : Saving unit :=
  fun calls =>
    match steps with
    | [] => (Done tt, calls)
    | step :: rest =>
        match step calls with
        | (Done _, calls') => save_steps rest calls'
        | (Fail e, calls') => (Fail e, calls')
        end
    end.

(** [Problem.to_files] *)
Definition to_files `{Writers} (self : Problem)
  (sbml_file condition_file measurement_file parameter_file
   visualization_file observable_file yaml_file prefix_path : option string)
  (relative_paths : bool) : Saving unit :=
  let sbml_file := add_prefix prefix_path sbml_file in
  let condition_file := add_prefix prefix_path condition_file in
  let measurement_file := add_prefix prefix_path measurement_file in
  let parameter_file := add_prefix prefix_path parameter_file in
  let observable_file := add_prefix prefix_path observable_file in
  let visualization_file := add_prefix prefix_path visualization_file in
  let yaml_file := add_prefix prefix_path yaml_file in
  save_steps
    [ save_entity sbml_file (sbml_document self) ValueError_no_sbml_doc
        sbml_write_sbml WriteSbml;
      save_entity condition_file (condition_df self)
        (ValueError_no_table "condition")
        conditions_write_condition_df (WriteTable ConditionTable);
      save_entity measurement_file (measurement_df self)
        (ValueError_no_table "measurement")
        measurements_write_measurement_df (WriteTable MeasurementTable);
      save_entity parameter_file (parameter_df self)
        (ValueError_no_table "parameter")
        parameters_write_parameter_df WriteParameters;
      save_entity observable_file (observable_df self)
        (ValueError_no_table "observable")
        observables_write_observable_df (WriteTable ObservableTable);
      save_entity visualization_file (visualization_df self)
        (ValueError_no_table "visualization")
        core_write_visualization_df (WriteTable VisualizationTable);
      (fun calls =>
         match yaml_file with
         | Some path =>
             if negb (String.eqb path "") then
               (written
                  (yaml_create_problem_yaml sbml_file condition_file
                     measurement_file parameter_file observable_file path
                     visualization_file relative_paths),
                calls ++ [CreateYaml sbml_file condition_file
                            measurement_file parameter_file observable_file
                            path visualization_file relative_paths])
             else (Done tt, calls)
         | None => (Done tt, calls)
         end) ].

(** The generic file name for an entity the problem holds. *)
Definition generic_name {T} (entity : option T) (name : string)
  : option string :=
  match entity with
  | Some _ => Some name
  | None => None
  end.

(** [Problem.to_files_generic]; [prefix_path] has been made a [Path], so
    the [prefix_path is None] return is never taken. *)
Definition to_files_generic `{Writers} (self : Problem)
  (prefix_path : string) : Saving string :=
  fun calls =>
    match
      to_files self
        (generic_name (sbml_document self) "model.xml")
        (generic_name (condition_df self) "conditions.tsv")
        (generic_name (measurement_df self) "measurements.tsv")
        (generic_name (parameter_df self) "parameters.tsv")
        (generic_name (visualization_df self) "visualizations.tsv")
        (generic_name (observable_df self) "observables.tsv")
        (Some "problem.yaml"%string)
        (Some prefix_path) true calls
    with
    | (Done _, calls') =>
        (Done (pathlib_join prefix_path "problem.yaml"), calls')
    | (Fail e, calls') => (Fail e, calls')
    end.

(** The writer call a destination and an entity lead to, if any. *)
Definition planned_write {T} (file : option string) (entity : option T)
  (call : T -> string -> writer_call) : list writer_call :=
  match file, entity with
  | Some path, Some t =>
      if negb (String.eqb path "") then [call t path] else []
  | _, _ => []
  end.

(** The writer call made for an entity the problem holds. *)
Definition written_if_present {T} (entity : option T)
  (call : T -> writer_call) : list writer_call :=
  match entity with
  | Some t => [call t]
  | None => []
  end.

(** The generic destination of an entity under a prefix. *)
Definition generic_path `{Writers} {T} (prefix_path : string)
  (entity : option T) (name : string) : option string :=
  match entity with
  | Some _ => Some (pathlib_join prefix_path name)
  | None => None
  end.

(** Writers that always succeed, with paths joined by a slash. *)
Definition sample_writers : Writers :=
  {| pathlib_join := fun prefix p => (prefix ++ "/" ++ p)%string;
     sbml_write_sbml := fun _ _ => Returned tt;
     conditions_write_condition_df := fun _ _ => Returned tt;
     measurements_write_measurement_df := fun _ _ => Returned tt;
     parameters_write_parameter_df := fun _ _ => Returned tt;
     observables_write_observable_df := fun _ _ => Returned tt;
     core_write_visualization_df := fun _ _ => Returned tt;
     yaml_create_problem_yaml := fun _ _ _ _ _ _ _ _ => Returned tt |}.

(* ================================================================== *)
(** ** Pickling: [__getstate__] and [__setstate__] *)

(** The values an attribute of a problem, or an entry of its pickled
    state, can hold. *)
Inductive pyvalue :=
| PNone
| PTable (t : Table)
| PParameters (t : ParameterTable)
| PSbml (o : SbmlRef)
| PString (s : string).

(** An instance dictionary ([__dict__]) or a pickled state: its items in
    insertion order. *)
Definition ObjDict := list (string * pyvalue).

Inductive pickle_error :=
| AttributeError (name : string)
| KeyError_pop (key : string)
| ValueError_truth
    (* 'The truth value of a DataFrame is ambiguous.' *)
| TypeError_not_a_string
| SbmlError (msg : string).

Inductive pickled (A : Type) :=
| Pickled (a : A)
| PickleFail (e : pickle_error).
Arguments Pickled {A} a.
Arguments PickleFail {A} e.

Definition pickle_bind {A B} (r : pickled A) (k : A -> pickled B)
  : pickled B :=
  match r with
  | Pickled a => k a
  | PickleFail e => PickleFail e
  end.

Notation "x <== r ;; k" := (pickle_bind r (fun x => k))
  (at level 61, r at next level, right associativity).

(** [libsbml] and [sbml.load_sbml_from_string], which are not part of this
    file's source. *)
Class Libsbml := {
  (** [model.getSBMLDocument()] *)
  getSBMLDocument : SbmlRef -> SbmlRef;
  (** [libsbml.SBMLWriter().writeSBMLToString(document)] *)
  writeSBMLToString : SbmlRef -> string;
  (** [sbml.load_sbml_from_string] *)
  sbml_load_sbml_from_string :
    string -> outcome (SbmlRef * SbmlRef * SbmlRef)
}.

(** [d.get(key)] *)
Fixpoint objdict_get (d : ObjDict) (key : string) : option pyvalue :=
  match d with
  | [] => None
  | (k, v) :: d' => if String.eqb k key then Some v else objdict_get d' key
  end.

(** [d[key] = v] *)
Fixpoint objdict_set (d : ObjDict) (key : string) (v : pyvalue) : ObjDict :=
  match d with
  | [] => [(key, v)]
  | (k, v') :: d' =>
      if String.eqb k key then (key, v) :: d'
      else (k, v') :: objdict_set d' key v
  end.

(** [d] without [key] *)
Fixpoint objdict_remove (d : ObjDict) (key : string) : ObjDict :=
  match d with
  | [] => []
  | (k, v) :: d' =>
      if String.eqb k key then d' else (k, v) :: objdict_remove d' key
  end.

(** [d.pop(key)], as the dictionary left behind. *)
Definition objdict_pop (d : ObjDict) (key : string) : pickled ObjDict :=
  match objdict_get d key with
  | Some _ => Pickled (objdict_remove d key)
  | None => PickleFail (KeyError_pop key)
  end.

(** [d.update(other)] *)
Fixpoint objdict_update (d other : ObjDict) : ObjDict :=
  match other with
  | [] => d
  | (k, v) :: other' => objdict_update (objdict_set d k v) other'
  end.

(** [self.name] *)
Definition getattr (self : ObjDict) (name : string) : pickled pyvalue :=
  match objdict_get self name with
  | Some v => Pickled v
  | None => PickleFail (AttributeError name)
  end.

(** [bool(v)]: [None] and the empty string are false, a libsbml object is
    true, a data frame refuses to be tested. *)
Definition truth (v : pyvalue) : pickled bool :=
  match v with
  | PNone => Pickled false
  | PString s => Pickled (negb (String.eqb s ""))
  | PSbml _ => Pickled true
  | PTable _ | PParameters _ => PickleFail ValueError_truth
  end.

Definition of_option {A} (wrap : A -> pyvalue) (o : option A) : pyvalue :=
  match o with
  | Some a => wrap a
  | None => PNone
  end.

(** The instance dictionary [Problem.__init__] builds. *)
Definition instance_dict (p : Problem) : ObjDict :=
  [ ("condition_df"%string, of_option PTable (condition_df p));
    ("measurement_df"%string, of_option PTable (measurement_df p));
    ("parameter_df"%string, of_option PParameters (parameter_df p));
    ("visualization_df"%string, of_option PTable (visualization_df p));
    ("observable_df"%string, of_option PTable (observable_df p));
    ("sbml_reader"%string, of_option PSbml (sbml_reader p));
    ("sbml_document"%string, of_option PSbml (sbml_document p));
    ("sbml_model"%string, of_option PSbml (sbml_model p)) ].

(** [Problem.__getstate__], on the instance dictionary of [self]. *)
Definition __getstate__ `{Libsbml} (self : ObjDict) : pickled ObjDict :=
  let state := self in
  sbml_model <== getattr self "sbml_model" ;;
  has_model <== truth sbml_model ;;
  state <== (if has_model : bool then
               match sbml_model with
               | PSbml model =>
                   let sbml_document := getSBMLDocument model in
                   Pickled (objdict_set state "sbml_string"
                              (PString (writeSBMLToString sbml_document)))
               | _ => PickleFail (AttributeError "getSBMLDocument")
               end
             else Pickled state) ;;
  state <== objdict_pop state "sbml_reader" ;;
  state <== objdict_pop state "sbml_document" ;;
  state <== objdict_pop state "sbml_model" ;;
  Pickled state.

(** [Problem.__setstate__]: the instance dictionary of [self] afterwards,
    and the state dictionary, which the call changes too. *)
Definition __setstate__ `{Libsbml} (self state : ObjDict)
  : pickled (ObjDict * ObjDict) :=
  let sbml_string :=
    match objdict_get state "sbml_string" with
    | Some v => v
    | None => PNone
    end in
  let state := objdict_remove state "sbml_string" in
  has_string <== truth sbml_string ;;
  self <== (if has_string : bool then
              match sbml_string with
              | PString s =>
                  match sbml_load_sbml_from_string s with
                  | Returned (reader, document, model) =>
                      Pickled
                        (objdict_set
                           (objdict_set
                              (objdict_set self "sbml_reader" (PSbml reader))
                              "sbml_document" (PSbml document))
                           "sbml_model" (PSbml model))
                  | Failed msg => PickleFail (SbmlError msg)
                  end
              | _ => PickleFail TypeError_not_a_string
              end
            else Pickled self) ;;
  Pickled (objdict_update self state, state).

(** The five table attributes as they are pickled. *)
Definition table_items (p : Problem) : ObjDict :=
  [ ("condition_df"%string, of_option PTable (condition_df p));
    ("measurement_df"%string, of_option PTable (measurement_df p));
    ("parameter_df"%string, of_option PParameters (parameter_df p));
    ("visualization_df"%string, of_option PTable (visualization_df p));
    ("observable_df"%string, of_option PTable (observable_df p)) ].

(** A [libsbml] that writes a model as its name in brackets and reads any
    string as one document. *)
Definition sample_libsbml : Libsbml :=
  {| getSBMLDocument := fun model => ("doc of " ++ model)%string;
     writeSBMLToString := fun document => ("<" ++ document ++ ">")%string;
     sbml_load_sbml_from_string :=
       fun s => Returned ("reader", ("parsed " ++ s), "model")%string |}.

(** The scenario problem with an SBML model attached. *)
Definition scenario_with_model : Problem :=
  {| condition_df := None; measurement_df := Some [];
     parameter_df := Some scenario_table;
     visualization_df := None; observable_df := None;
     sbml_reader := Some "r0"%string; sbml_document := Some "d0"%string;
     sbml_model := Some "m0"%string |}.

(** The message a reader's outcome fails with, if it fails. *)
Definition failure_of {A} (o : outcome A) : option string :=
  match o with
  | Failed msg => Some msg
  | Returned _ => None
  end.

(** The message with which the reader that [from_files] uses for a
    planned load fails on it, if it does. *)
Definition reader_failure `{External} (load : table_kind * file_arg)
  : option string :=
  match fst load with
  | ConditionTable => failure_of (conditions_get_condition_df (snd load))
  | MeasurementTable =>
      failure_of (core_concat_tables MeasurementTable (snd load))
  | ParameterTableFile =>
      failure_of (parameters_get_parameter_df (snd load))
  | SbmlModelFile => failure_of (sbml_get_sbml_model (snd load))
  | VisualizationTable =>
      failure_of (core_concat_tables VisualizationTable (snd load))
  | ObservableTable =>
      failure_of (core_concat_tables ObservableTable (snd load))
  end.

(** A computation over [plan] that stops at the first load whose reader
    fails: when it raises, the exception is the failure of the reader of
    some planned load, the readers of all planned loads before that one
    returned, and the loads on record are the planned ones up to that one,
    which is the last. *)
Definition stops_at_failure `{External} {A}
  (plan : list (table_kind * file_arg)) (c : M World A) : Prop :=
  forall w e,
    fst (c w) = Raise e ->
    exists n load msg,
      nth_error plan n = Some load /\
      reader_failure load = Some msg /\
      e = ExternalError msg /\
      (forall load', In load' (firstn n plan) ->
                     reader_failure load' = None) /\
      loads (snd (c w)) = loads w ++ firstn n plan ++ [load].

(* ================================================================== *)
(** ** Double precision, for the round trip of scale and unscale *)

(** A finite IEEE 754 binary64 number: [m * 2^(e - 1074)] with
    [|m| < 2^53] and [0 <= e <= 2045]. *)
Definition is_double (x : R) : Prop :=
  exists m e : Z,
    (Z.abs m < 2 ^ 53)%Z /\ (0 <= e <= 2045)%Z /\
    (x * IZR (2 ^ 1074) = IZR (m * 2 ^ e))%R.

(** The round trip of C5 as the claim has it, for the transforms
    [scale] and [unscale] that the two methods call: on every dictionary
    whose keys are ids of the table and whose values are positive doubles,
    [unscale_parameters(scale_parameters(x_dict))] returns a dictionary
    equal to [x_dict]. *)
Definition exact_round_trip (scale unscale : R -> scale_kind -> result R)
  : Prop :=
  forall (st : Store) (tbl : ParameterTable) (x_dict : dict_ref)
         (d : PyDict),
    parameter_df (self_obj st) = Some tbl ->
    NoDup (map parameterId tbl) ->
    nth_error (dicts st) x_dict = Some d ->
    is_dict d -> keys_known tbl d ->
    Forall (fun kv => is_double (snd kv) /\ (0 < snd kv)%R) d ->
    exists scaled st1 back st2,
      scale_parameters_with scale x_dict st = (Ok scaled, st1) /\
      unscale_parameters_with unscale scaled st1 = (Ok back, st2) /\
      nth_error (dicts st2) back = Some d.

(** A base-10 logarithm computed in double precision: on the doubles from
    8 up to 10, whose logarithms lie between 0.903 and 1, what it returns
    is a double between 0.9 and 1. *)
Definition log10_in_doubles (scale : R -> scale_kind -> result R) : Prop :=
  forall v y,
    is_double v -> (8 <= v < 10)%R -> scale v LOG10 = Ok y ->
    is_double y /\ (9 / 10 <= y <= 1)%R.

(** The transforms return on [v] at scale [s] with relative error at most
    [u]: linear is the identity; log returns the natural logarithm and
    its inverse the exponential, log10 the base-10 logarithm and its
    inverse the power of ten, each within [u] of the exact value. *)
Definition accurate_on (u : R) (scale unscale : R -> scale_kind -> result R)
  (s : scale_kind) (v : R) : Prop :=
  match s with
  | LIN => scale v LIN = Ok v /\ unscale v LIN = Ok v
  | LOG =>
      exists y z,
        scale v LOG = Ok y /\
        (Rabs (y - ln v) <= u * Rabs (ln v))%R /\
        unscale y LOG = Ok z /\
        (Rabs (z - exp y) <= u * exp y)%R
  | LOG10 =>
      exists y z,
        scale v LOG10 = Ok y /\
        (Rabs (y - ln v / ln 10) <= u * Rabs (ln v / ln 10))%R /\
        unscale y LOG10 = Ok z /\
        (Rabs (z - Rpower 10 y) <= u * Rpower 10 y)%R
  | OtherScale _ => False
  end.

(** A [scale] that is off by a thousandth of the exact value on the
    logarithmic scales: a sample of an inexact transform. *)
Definition inexact_scale (parameter : R) (scale_str : scale_kind)
  : result R :=
  match scale_str with
  | LIN => Ok parameter
  | _ => y <- parameters.scale parameter scale_str ;;
         Ok (y * (1 + 1 / 1000))%R
  end.

(* ================================================================== *)
(** * Theorems *)

(** ** Lists: comprehensions, enumeration, sorting *)

Lemma list_comp_ok_map {A B} (f : A -> result B) (g : A -> B) l :
  (forall x, In x l -> f x = Ok (g x)) ->
  list_comp f l = Ok (map g l).
Proof.
  induction l as [|x l IH]; intros Hf; simpl.
  - reflexivity.
  - rewrite (Hf x (or_introl eq_refl)). simpl.
    rewrite IH by (intros y Hy; apply Hf; now right).
    reflexivity.
Qed.

(** Masking by the indices that [enumerate] picks is filtering the rows:
    the inner statement carries the rows already passed as [pre]. *)
Lemma mask_positions {A} (f : ParameterRow -> A) (P : Z -> bool) :
  forall tbl pre,
    list_comp (getitem (map f (pre ++ tbl)))
      (map fst
         (filter (fun jv : nat * Z => P (snd jv))
            (combine (seq (List.length pre) (List.length tbl))
               (map estimate tbl))))
    = Ok (map f (filter (fun r => P (estimate r)) tbl)).
Proof.
  induction tbl as [|r tbl IH]; intros pre.
  - reflexivity.
  - specialize (IH (pre ++ [r])).
    rewrite <- app_assoc, length_app in IH. simpl in IH.
    rewrite Nat.add_1_r in IH.
    simpl. destruct (P (estimate r)) eqn:HP; simpl.
    + unfold getitem at 1.
      rewrite map_app, nth_error_app2 by (rewrite length_map; lia).
      rewrite length_map, Nat.sub_diag. simpl.
      change (f r :: map f tbl) with (map f (r :: tbl)).
      rewrite <- (map_app f pre (r :: tbl)). rewrite IH. reflexivity.
    + apply IH.
Qed.

Lemma mask_enumerate {A} (f : ParameterRow -> A) (P : Z -> bool) tbl :
  list_comp (getitem (map f tbl))
    (map fst (filter (fun jv : nat * Z => P (snd jv))
                (enumerate (map estimate tbl))))
  = Ok (map f (filter (fun r => P (estimate r)) tbl)).
Proof.
  unfold enumerate. rewrite length_map.
  exact (mask_positions f P tbl []).
Qed.

Lemma filter_selected_all tbl : filter (selected true true) tbl = tbl.
Proof.
  induction tbl as [|r tbl IH]; simpl; [reflexivity|].
  unfold selected at 1. destruct (Z.eqb (estimate r) 0); now rewrite IH.
Qed.

Lemma filter_selected_none tbl : filter (selected false false) tbl = [].
Proof.
  induction tbl as [|r tbl IH]; simpl; [reflexivity|].
  unfold selected at 1. destruct (Z.eqb (estimate r) 0); exact IH.
Qed.

(** What [_apply_mask] does to a vector that has one entry per row. *)
Lemma apply_mask_rows {A} (self : Problem) tbl (f : ParameterRow -> A)
  (free fixed : bool) :
  parameter_df self = Some tbl ->
  _apply_mask self (map f tbl) free fixed
  = Ok (map f (filter (selected free fixed) tbl)).
Proof.
  intros Hdf. unfold _apply_mask, x_fixed_indices, x_free_indices, column.
  rewrite Hdf.
  destruct free, fixed; simpl.
  - now rewrite filter_selected_all.
  - rewrite (mask_enumerate f (fun z => negb (Z.eqb z 0))).
    do 2 f_equal; apply filter_ext; intros r; unfold selected;
      now destruct (Z.eqb (estimate r) 0).
  - rewrite (mask_enumerate f (fun z => Z.eqb z 0)).
    do 2 f_equal; apply filter_ext; intros r; unfold selected;
      now destruct (Z.eqb (estimate r) 0).
  - now rewrite filter_selected_none.
Qed.

Lemma get_x_ids_rows (self : Problem) tbl (free fixed : bool) :
  parameter_df self = Some tbl ->
  get_x_ids self free fixed
  = Ok (map parameterId (filter (selected free fixed) tbl)).
Proof.
  intros Hdf. unfold get_x_ids, column. rewrite Hdf. simpl.
  now apply apply_mask_rows.
Qed.

Lemma filter_selected_free tbl :
  filter (selected true false) tbl = filter is_free tbl.
Proof.
  apply filter_ext. intros r. unfold selected, is_free.
  now destruct (Z.eqb (estimate r) 0).
Qed.

Lemma filter_selected_fixed tbl :
  filter (selected false true) tbl = filter is_fixed tbl.
Proof.
  apply filter_ext. intros r. unfold selected, is_fixed.
  now destruct (Z.eqb (estimate r) 0).
Qed.

(** ** The id accessor *)

(** C1: on every parameter table, [get_x_ids(free=True, fixed=True)] is all
    ids in table order, [get_x_ids(free=False, fixed=False)] is empty,
    [get_x_ids(free=True, fixed=False)] is the ids of the rows with
    [estimate != 0] and [get_x_ids(free=False, fixed=True)] the ids of the
    rows with [estimate == 0], each in table order. *)
Theorem get_x_ids_by_flags (self : Problem) (tbl : ParameterTable) :
  parameter_df self = Some tbl ->
  get_x_ids self true true = Ok (map parameterId tbl) /\
  get_x_ids self false false = Ok [] /\
  get_x_ids self true false = Ok (map parameterId (filter is_free tbl)) /\
  get_x_ids self false true = Ok (map parameterId (filter is_fixed tbl)).
Proof.
  intros Hdf.
  rewrite !(fun a b => get_x_ids_rows self tbl a b Hdf).
  rewrite filter_selected_all, filter_selected_none,
    filter_selected_free, filter_selected_fixed.
  repeat split.
Qed.

Lemma get_x_ids_by_flags_witness :
  get_x_ids scenario true true = Ok ["k1"; "k2"]%string /\
  get_x_ids scenario false false = Ok [] /\
  get_x_ids scenario true false = Ok ["k1"]%string /\
  get_x_ids scenario false true = Ok ["k2"]%string.
Proof.
  exact (get_x_ids_by_flags scenario scenario_table eq_refl).
Defined.

(** C6, as stated, fails: with the other flag left at its default [True],
    [get_x_ids(free=True)] and [get_x_ids(fixed=True)] are both the full id
    list, so on the two-row scenario table the two lengths add up to 4. *)
Lemma get_x_ids_default_counts_counterexample :
  ~ (exists free_ids fixed_ids ids,
        get_x_ids scenario (kwarg (Some true)) (kwarg None) = Ok free_ids /\
        get_x_ids scenario (kwarg None) (kwarg (Some true)) = Ok fixed_ids /\
        get_x_ids scenario (kwarg None) (kwarg None) = Ok ids /\
        List.length free_ids + List.length fixed_ids = List.length ids).
Proof.
  intros (a & b & c & Ha & Hb & Hc & Hlen).
  vm_compute in Ha, Hb, Hc.
  injection Ha as <-. injection Hb as <-. injection Hc as <-.
  discriminate Hlen.
Qed.

Lemma length_filter_partition tbl :
  List.length (filter is_free tbl) + List.length (filter is_fixed tbl)
  = List.length tbl.
Proof.
  induction tbl as [|r tbl IH]; simpl; [reflexivity|].
  unfold is_free at 1, is_fixed at 1.
  destruct (Z.eqb (estimate r) 0); simpl; lia.
Qed.

(** C6, amended: the counts add up when each call switches the other flag
    off, [len(get_x_ids(fixed=False)) + len(get_x_ids(free=False)) ==
    len(get_x_ids())]; a call that only passes [free=True] or only
    [fixed=True] returns the full id list; and
    [get_x_ids(free=False, fixed=False) == []]. *)
Theorem get_x_ids_counts (self : Problem) (tbl : ParameterTable) :
  parameter_df self = Some tbl ->
  exists free_ids fixed_ids ids,
    get_x_ids self (kwarg None) (kwarg (Some false)) = Ok free_ids /\
    get_x_ids self (kwarg (Some false)) (kwarg None) = Ok fixed_ids /\
    get_x_ids self (kwarg None) (kwarg None) = Ok ids /\
    List.length free_ids + List.length fixed_ids = List.length ids /\
    get_x_ids self (kwarg (Some true)) (kwarg None) = Ok ids /\
    get_x_ids self (kwarg None) (kwarg (Some true)) = Ok ids /\
    get_x_ids self (kwarg (Some false)) (kwarg (Some false)) = Ok [].
Proof.
  intros Hdf.
  exists (map parameterId (filter is_free tbl)),
    (map parameterId (filter is_fixed tbl)), (map parameterId tbl).
  simpl kwarg.
  rewrite !(fun a b => get_x_ids_rows self tbl a b Hdf).
  rewrite filter_selected_all, filter_selected_none,
    filter_selected_free, filter_selected_fixed.
  repeat split.
  rewrite !length_map. apply length_filter_partition.
Qed.

Lemma get_x_ids_counts_witness :
  exists free_ids fixed_ids ids,
    get_x_ids scenario (kwarg None) (kwarg (Some false)) = Ok free_ids /\
    get_x_ids scenario (kwarg (Some false)) (kwarg None) = Ok fixed_ids /\
    get_x_ids scenario (kwarg None) (kwarg None) = Ok ids /\
    List.length free_ids + List.length fixed_ids = List.length ids /\
    get_x_ids scenario (kwarg (Some true)) (kwarg None) = Ok ids /\
    get_x_ids scenario (kwarg None) (kwarg (Some true)) = Ok ids /\
    get_x_ids scenario (kwarg (Some false)) (kwarg (Some false)) = Ok [].
Proof.
  exact (get_x_ids_counts scenario scenario_table eq_refl).
Defined.

(** ** The free/fixed index partition *)

Lemma map_fst_enumerate_from {A} (l : list A) a :
  map fst (combine (seq a (List.length l)) l) = seq a (List.length l).
Proof.
  revert a. induction l as [|x l IH]; intros a; simpl.
  - reflexivity.
  - now rewrite IH.
Qed.

Lemma in_enumerate_from {A} (l : list A) a j v :
  In (j, v) (combine (seq a (List.length l)) l) ->
  a <= j /\ nth_error l (j - a) = Some v.
Proof.
  revert a. induction l as [|x l IH]; intros a; simpl.
  - intros [].
  - intros [Heq | Hin].
    + injection Heq as <- <-. rewrite Nat.sub_diag. now split.
    + destruct (IH (S a) Hin) as [Hle Hnth]. split; [lia|].
      replace (j - a) with (S (j - S a)) by lia. exact Hnth.
Qed.

Lemma enumerate_from_in {A} (l : list A) a j v :
  nth_error l j = Some v ->
  In (a + j, v) (combine (seq a (List.length l)) l).
Proof.
  revert a j. induction l as [|x l IH]; intros a j; simpl.
  - destruct j; discriminate.
  - destruct j as [|j]; simpl.
    + intros [= <-]. left. now rewrite Nat.add_0_r.
    + intros Hnth. right. replace (a + S j) with (S a + j) by lia.
      now apply IH.
Qed.

Lemma in_enumerate {A} (l : list A) j v :
  In (j, v) (enumerate l) <-> nth_error l j = Some v.
Proof.
  unfold enumerate. split.
  - intros Hin. apply in_enumerate_from in Hin.
    now rewrite Nat.sub_0_r in Hin.
  - intros Hnth. exact (enumerate_from_in l 0 j v Hnth).
Qed.

(** The indices [enumerate] picks by a test on the value. *)
Lemma in_picked {A} (P : A -> bool) (l : list A) j :
  In j (map fst (filter (fun jv : nat * A => P (snd jv)) (enumerate l))) <->
  exists v, nth_error l j = Some v /\ P v = true.
Proof.
  rewrite in_map_iff. split.
  - intros ([j' v] & Hj & Hin). simpl in Hj. subst j'.
    apply filter_In in Hin. destruct Hin as [Hin HP].
    exists v. split; [now apply in_enumerate | exact HP].
  - intros (v & Hnth & HP). exists (j, v). split; [reflexivity|].
    apply filter_In. split; [now apply in_enumerate | exact HP].
Qed.

Lemma picked_partition {A} (P : A -> bool) (l : list (nat * A)) :
  Permutation
    (map fst (filter (fun jv => negb (P (snd jv))) l)
       ++ map fst (filter (fun jv => P (snd jv)) l))
    (map fst l).
Proof.
  induction l as [|[j v] l IH]; simpl.
  - constructor.
  - destruct (P v); simpl.
    + apply Permutation_sym, Permutation_cons_app, Permutation_sym, IH.
    + now constructor.
Qed.

Lemma NatOrder_leb_le x y : is_true (NatOrder.leb x y) <-> x <= y.
Proof.
  unfold is_true. revert y.
  induction x as [|x IH]; intros [|y]; simpl;
    try (split; [lia | reflexivity]);
    try (split; [discriminate | lia]).
  rewrite IH. lia.
Qed.

Lemma StronglySorted_sorted l : StronglySorted le (sorted l).
Proof.
  unfold sorted.
  assert (Htrans : Relations_1.Transitive
                     (fun x y => is_true (NatOrder.leb x y))).
  { intros x y z Hxy Hyz. apply NatOrder_leb_le.
    apply NatOrder_leb_le in Hxy. apply NatOrder_leb_le in Hyz. lia. }
  pose proof (NatSort.StronglySorted_sort l Htrans) as Hs.
  induction Hs as [|x l' Hs IH Hall]; constructor.
  - exact IH.
  - eapply Forall_impl; [|exact Hall].
    intros y Hy. now apply NatOrder_leb_le.
Qed.

Lemma StronglySorted_seq a n : StronglySorted le (seq a n).
Proof.
  revert a. induction n as [|n IH]; intros a; simpl; constructor.
  - apply IH.
  - apply Forall_forall. intros y Hy. apply in_seq in Hy. lia.
Qed.

(** A sorted list is determined by its elements. *)
Lemma StronglySorted_perm_eq l1 :
  forall l2, StronglySorted le l1 -> StronglySorted le l2 ->
             Permutation l1 l2 -> l1 = l2.
Proof.
  induction l1 as [|a l1 IH]; intros l2 H1 H2 Hp.
  - apply Permutation_nil in Hp. now subst.
  - destruct l2 as [|b l2].
    + apply Permutation_sym, Permutation_nil in Hp. discriminate.
    + inversion H1 as [|? ? H1' Ha]; subst.
      inversion H2 as [|? ? H2' Hb]; subst.
      assert (Hab : a = b).
      { assert (Hina : In a (b :: l2))
          by (eapply Permutation_in; [exact Hp | now left]).
        assert (Hinb : In b (a :: l1))
          by (eapply Permutation_in;
              [apply Permutation_sym; exact Hp | now left]).
        rewrite Forall_forall in Ha, Hb.
        destruct Hina as [-> | Hina]; [reflexivity|].
        destruct Hinb as [-> | Hinb]; [reflexivity|].
        specialize (Ha _ Hinb). specialize (Hb _ Hina). lia. }
      subst b. f_equal. apply IH; try assumption.
      eapply Permutation_cons_inv; exact Hp.
Qed.

Lemma sorted_of_perm_seq l n :
  Permutation l (seq 0 n) -> sorted l = seq 0 n.
Proof.
  intros Hp. apply StronglySorted_perm_eq.
  - apply StronglySorted_sorted.
  - apply StronglySorted_seq.
  - eapply Permutation_trans; [|exact Hp].
    apply Permutation_sym. apply NatSort.Permuted_sort.
Qed.

(** C2: on every parameter table, [x_free_indices] and [x_fixed_indices]
    are disjoint and duplicate-free sets of positions, their union, sorted,
    is the full index range [0..n-1], and a position lies in the free part
    exactly when its row has [estimate != 0], in the fixed part exactly when
    its row has [estimate == 0]. *)
Theorem free_fixed_indices_partition (self : Problem) (tbl : ParameterTable) :
  parameter_df self = Some tbl ->
  exists free fixed,
    x_free_indices self = Ok free /\
    x_fixed_indices self = Ok fixed /\
    (forall j, In j free -> ~ In j fixed) /\
    NoDup free /\ NoDup fixed /\
    sorted (free ++ fixed) = seq 0 (List.length tbl) /\
    (forall j r, nth_error tbl j = Some r ->
                 (In j free <-> estimate r <> 0%Z) /\
                 (In j fixed <-> estimate r = 0%Z)).
Proof.
  intros Hdf. unfold x_free_indices, x_fixed_indices, column.
  rewrite Hdf. simpl.
  set (est := map estimate tbl).
  set (free := map fst (filter (fun jv : nat * Z => negb (Z.eqb (snd jv) 0))
                          (enumerate est))).
  set (fixed := map fst (filter (fun jv : nat * Z => Z.eqb (snd jv) 0)
                           (enumerate est))).
  exists free, fixed.
  assert (Hperm : Permutation (free ++ fixed) (seq 0 (List.length tbl))).
  { unfold free, fixed.
    eapply Permutation_trans;
      [exact (picked_partition (fun z => Z.eqb z 0) (enumerate est))|].
    unfold enumerate. rewrite map_fst_enumerate_from.
    unfold est. now rewrite length_map. }
  assert (Hnd : NoDup (free ++ fixed)).
  { eapply Permutation_NoDup; [apply Permutation_sym; exact Hperm|].
    apply seq_NoDup. }
  assert (Hfree : forall j, In j free <->
                   exists v, nth_error est j = Some v /\
                             negb (Z.eqb v 0) = true)
    by (intros j; exact (in_picked (fun z => negb (Z.eqb z 0)) est j)).
  assert (Hfixed : forall j, In j fixed <->
                    exists v, nth_error est j = Some v /\ Z.eqb v 0 = true)
    by (intros j; exact (in_picked (fun z => Z.eqb z 0) est j)).
  repeat split.
  - intros j Hj1 Hj2.
    apply Hfree in Hj1. apply Hfixed in Hj2.
    destruct Hj1 as (v & Hv & Hne). destruct Hj2 as (v' & Hv' & He).
    rewrite Hv in Hv'. injection Hv' as <-.
    rewrite He in Hne. discriminate.
  - now apply NoDup_app_remove_r in Hnd.
  - now apply NoDup_app_remove_l in Hnd.
  - now apply sorted_of_perm_seq.
  - intros Hin. apply Hfree in Hin. destruct Hin as (v & Hv & Hne).
    unfold est in Hv. rewrite nth_error_map, H in Hv. simpl in Hv.
    injection Hv as <-. intros Hz. rewrite Hz in Hne. discriminate.
  - intros Hne. apply Hfree. exists (estimate r). split.
    + unfold est. now rewrite nth_error_map, H.
    + apply negb_true_iff. now apply Z.eqb_neq.
  - intros Hin. apply Hfixed in Hin. destruct Hin as (v & Hv & He).
    unfold est in Hv. rewrite nth_error_map, H in Hv. simpl in Hv.
    injection Hv as <-. now apply Z.eqb_eq.
  - intros He. apply Hfixed. exists (estimate r). split.
    + unfold est. now rewrite nth_error_map, H.
    + now apply Z.eqb_eq.
Qed.

Lemma free_fixed_indices_partition_witness :
  exists free fixed,
    x_free_indices scenario = Ok free /\
    x_fixed_indices scenario = Ok fixed /\
    (forall j, In j free -> ~ In j fixed) /\
    NoDup free /\ NoDup fixed /\
    sorted (free ++ fixed) = seq 0 (List.length scenario_table) /\
    (forall j r, nth_error scenario_table j = Some r ->
                 (In j free <-> estimate r <> 0%Z) /\
                 (In j fixed <-> estimate r = 0%Z)).
Proof.
  exact (free_fixed_indices_partition scenario scenario_table eq_refl).
Defined.

(** ** Scaled values and bounds *)

Lemma map_scale_rows (field : ParameterRow -> R) tbl :
  valid_scales tbl ->
  parameters.map_scale (map field tbl) (map parameterScale tbl)
  = Ok (map (on_own_scale field) tbl).
Proof.
  induction 1 as [|r tbl Hr _ IH]; simpl.
  - reflexivity.
  - rewrite IH. unfold on_own_scale.
    destruct (parameterScale r); simpl in *; try reflexivity.
    discriminate Hr.
Qed.

(** C3: on every parameter table with scales among linear, log and log10,
    [get_x_nominal], [get_lb] and [get_ub] with [scaled=True] return, for
    the rows the flags select and in table order, each row's value on that
    row's own scale.  The rows are chosen by their [estimate] flag alone,
    never by comparing values. *)
Theorem scaled_accessors_by_row (self : Problem) (tbl : ParameterTable)
  (free fixed : bool) :
  parameter_df self = Some tbl ->
  valid_scales tbl ->
  get_x_nominal self free fixed true
  = Ok (map (on_own_scale nominalValue) (filter (selected free fixed) tbl)) /\
  get_lb self free fixed true
  = Ok (map (on_own_scale lowerBound) (filter (selected free fixed) tbl)) /\
  get_ub self free fixed true
  = Ok (map (on_own_scale upperBound) (filter (selected free fixed) tbl)).
Proof.
  intros Hdf Hvalid.
  unfold get_x_nominal, get_lb, get_ub, column. rewrite Hdf. simpl.
  rewrite !map_scale_rows by assumption. simpl.
  rewrite !apply_mask_rows by assumption.
  repeat split.
Qed.

Lemma repeated_table_valid : valid_scales repeated_table.
Proof. repeat constructor. Qed.

Lemma scaled_accessors_by_row_witness :
  get_x_nominal (problem_of repeated_table) true false true
  = Ok [1; ln 1 / ln 10]%R /\
  get_lb (problem_of repeated_table) true false true
  = Ok [1; ln 1 / ln 10]%R /\
  get_ub (problem_of repeated_table) true false true
  = Ok [1; ln 1 / ln 10]%R.
Proof.
  exact (scaled_accessors_by_row (problem_of repeated_table) repeated_table
           true false eq_refl repeated_table_valid).
Defined.

Lemma ln_10_nonzero : ln 10 <> 0%R.
Proof.
  assert (H : (0 < ln 10)%R).
  { rewrite <- ln_1. apply ln_increasing; lra. }
  lra.
Qed.

Lemma Rpower_10_log10 (v : R) : (0 < v)%R -> Rpower 10 (ln v / ln 10) = v.
Proof.
  intros Hv. unfold Rpower.
  replace (ln v / ln 10 * ln 10)%R with (ln v).
  - now apply exp_ln.
  - field. apply ln_10_nonzero.
Qed.

(** C4: on the table with ids [k1, k2], bounds [(0,10), (0,5)], nominal
    values [2, 1], scales [linear, log10] and estimate flags [1, 0],
    [x_free_ids] is [["k1"]], [x_fixed_ids] is [["k2"]] and
    [get_ub(scaled=True)] is [[10, log10(5)]], where [log10(5)] is
    [ln 5 / ln 10], the exponent that takes 10 to 5. *)
Theorem scenario_k1_k2 :
  x_free_ids scenario = Ok ["k1"%string] /\
  x_fixed_ids scenario = Ok ["k2"%string] /\
  get_ub scenario (kwarg None) (kwarg None) true = Ok [10; ln 5 / ln 10]%R /\
  Rpower 10 (ln 5 / ln 10) = 5%R.
Proof.
  split; [reflexivity|]. split; [reflexivity|]. split; [reflexivity|].
  apply Rpower_10_log10. lra.
Qed.

(** ** Dictionaries of parameter values *)

Lemma dict_setitem_fresh acc k y :
  ~ In k (map fst acc) -> dict_setitem acc k y = acc ++ [(k, y)].
Proof.
  induction acc as [|[k' v'] acc IH]; simpl; intros Hnin.
  - reflexivity.
  - destruct (String.eqb_spec k' k) as [-> | Hne].
    + exfalso. apply Hnin. now left.
    + rewrite IH; [reflexivity|]. intros Hin. apply Hnin. now right.
Qed.

Lemma NoDup_app_cons_shift (acc : list string) k ks :
  NoDup (acc ++ k :: ks) -> ~ In k acc /\ NoDup ((acc ++ [k]) ++ ks).
Proof.
  intros Hnd. split.
  - apply NoDup_remove_2 in Hnd. intros Hin. apply Hnd.
    apply in_or_app. now left.
  - now rewrite <- app_assoc.
Qed.

(** On a dictionary, the comprehension keeps the keys and their order and
    pairs each with the body's value. *)
Lemma dict_comp_pure_inv (f : string -> R -> result R) items :
  forall acc d,
    NoDup (map fst acc ++ map fst items) ->
    dict_comp_pure f items acc = Ok d ->
    exists d', d = acc ++ d' /\
               map fst d' = map fst items /\
               Forall2 (fun kv kv' => f (fst kv) (snd kv) = Ok (snd kv'))
                 items d'.
Proof.
  induction items as [|[k v] items IH]; intros acc d Hnd; simpl.
  - intros [= <-]. exists []. rewrite app_nil_r. repeat split. constructor.
  - simpl in Hnd. destruct (NoDup_app_cons_shift _ _ _ Hnd) as [Hfresh Hnd'].
    destruct (f k v) as [y|e] eqn:Hf; simpl; [|discriminate].
    rewrite dict_setitem_fresh by assumption.
    intros Hd. apply IH in Hd.
    + destruct Hd as (d' & -> & Hkeys & Hall).
      exists ((k, y) :: d'). rewrite <- app_assoc. simpl.
      repeat split; [now rewrite Hkeys|]. constructor; assumption.
    + rewrite map_app. exact Hnd'.
Qed.

Lemma dict_comp_pure_ok (f : string -> R -> result R) (g : string -> R -> R)
  items :
  forall acc,
    NoDup (map fst acc ++ map fst items) ->
    (forall k v, In (k, v) items -> f k v = Ok (g k v)) ->
    dict_comp_pure f items acc
    = Ok (acc ++ map (fun kv => (fst kv, g (fst kv) (snd kv))) items).
Proof.
  induction items as [|[k v] items IH]; intros acc Hnd Hf; simpl.
  - now rewrite app_nil_r.
  - simpl in Hnd. destruct (NoDup_app_cons_shift _ _ _ Hnd) as [Hfresh Hnd'].
    rewrite (Hf k v) by now left. simpl.
    rewrite dict_setitem_fresh by assumption.
    rewrite IH.
    + now rewrite <- app_assoc.
    + rewrite map_app. exact Hnd'.
    + intros k' v' Hin. apply Hf. now right.
Qed.

(** The body of either comprehension reads the receiver and leaves the
    store as it is. *)
Lemma dict_comp_run (op : R -> scale_kind -> result R) items :
  forall acc st,
    dict_comp
      (fun parameter_id parameter_value =>
         self <~ get_self ;;
         scale_str <~ lift (series_getitem self parameterScale
                              parameter_id) ;;
         lift (op parameter_value scale_str))
      items acc st
    = (dict_comp_pure (entry_result (self_obj st) op) items acc, st).
Proof.
  induction items as [|[k v] items IH]; intros acc st; simpl.
  - reflexivity.
  - unfold bind at 1. unfold bind at 1. unfold get_self at 1.
    unfold bind at 1. unfold lift at 1 2. unfold entry_result at 1.
    destruct (series_getitem (self_obj st) parameterScale k) as [s|e]; simpl;
      [|reflexivity].
    destruct (op v s) as [y|e]; simpl; [|reflexivity].
    apply IH.
Qed.

(** Either method, as one step on the store. *)
Lemma transform_run (op : R -> scale_kind -> result R) x_dict st d :
  nth_error (dicts st) x_dict = Some d ->
  (items <~ deref x_dict ;;
   d <~ dict_comp
          (fun parameter_id parameter_value =>
             self <~ get_self ;;
             scale_str <~ lift (series_getitem self parameterScale
                                  parameter_id) ;;
             lift (op parameter_value scale_str))
          items [] ;;
   new_dict d) st
  = match dict_comp_pure (entry_result (self_obj st) op) d [] with
    | Ok d' => (Ok (List.length (dicts st)),
                {| self_obj := self_obj st; dicts := dicts st ++ [d'] |})
    | Raise e => (Raise e, st)
    end.
Proof.
  intros Hd. unfold bind at 1. unfold deref. rewrite Hd.
  unfold bind at 1. rewrite dict_comp_run.
  destruct (dict_comp_pure _ d []); reflexivity.
Qed.

Lemma filter_label_absent tbl k :
  ~ In k (map parameterId tbl) ->
  filter (fun r => String.eqb (parameterId r) k) tbl = [].
Proof.
  induction tbl as [|r tbl IH]; simpl; intros Hnin; [reflexivity|].
  destruct (String.eqb_spec (parameterId r) k) as [Heq | Hne].
  - exfalso. apply Hnin. now left.
  - apply IH. intros Hin. apply Hnin. now right.
Qed.

Lemma filter_label_unique tbl k :
  NoDup (map parameterId tbl) -> In k (map parameterId tbl) ->
  exists r, In r tbl /\ parameterId r = k /\
            filter (fun r => String.eqb (parameterId r) k) tbl = [r].
Proof.
  induction tbl as [|r tbl IH]; simpl; intros Hnd Hin; [contradiction|].
  inversion Hnd as [|? ? Hfresh Hnd']; subst.
  destruct (String.eqb_spec (parameterId r) k) as [Heq | Hne].
  - exists r. subst k. rewrite filter_label_absent by assumption.
    repeat split. now left.
  - destruct Hin as [Heq | Hin]; [contradiction|].
    destruct (IH Hnd' Hin) as (r' & Hr' & Hid & Hfil).
    exists r'. repeat split; [now right | assumption | assumption].
Qed.

(** With unique row labels, a label of the table selects one scale. *)
Lemma series_getitem_scale self tbl k :
  parameter_df self = Some tbl ->
  NoDup (map parameterId tbl) -> In k (map parameterId tbl) ->
  series_getitem self parameterScale k = Ok (scale_of tbl k) /\
  exists r, In r tbl /\ parameterId r = k /\ parameterScale r = scale_of tbl k.
Proof.
  intros Hdf Hnd Hin. unfold series_getitem, scale_of. rewrite Hdf.
  destruct (filter_label_unique tbl k Hnd Hin) as (r & Hr & Hid & ->).
  split; [reflexivity|]. exists r. now repeat split.
Qed.

Lemma nth_error_snoc {A} (l : list A) x :
  nth_error (l ++ [x]) (List.length l) = Some x.
Proof.
  rewrite nth_error_app2 by lia. now rewrite Nat.sub_diag.
Qed.

(** ** Scale and unscale of a dictionary *)

Lemma exp_near_one (t : R) :
  (Rabs t <= 1 / 2 -> Rabs (exp t - 1) <= 2 * Rabs t)%R.
Proof.
  intros Ht.
  pose proof (exp_ineq1_le t) as Hlow.
  pose proof (exp_ineq1_le (- t)) as Hneg.
  assert (Hinv : (exp t * exp (- t) = 1)%R).
  { rewrite <- exp_plus. replace (t + - t)%R with 0%R by ring.
    apply exp_0. }
  pose proof (exp_pos t) as Hpos.
  destruct (Rle_dec 0 t) as [Hge | Hlt].
  - rewrite (Rabs_pos_eq t) in * by assumption.
    rewrite Rabs_pos_eq by lra.
    assert (Hupper : (exp t * (1 - t) <= 1)%R).
    { rewrite <- Hinv. apply Rmult_le_compat_l; lra. }
    nra.
  - assert (Htneg : (t < 0)%R) by lra.
    rewrite (Rabs_left t) in * by assumption.
    assert (Hle1 : (exp t <= 1)%R).
    { rewrite <- exp_0. left. now apply exp_increasing. }
    rewrite Rabs_left1 by lra. lra.
Qed.

(** A value taken through a logarithm and an exponential that are each
    accurate to relative error [u] comes back within
    [(2 |ln v| + 2) u v] of itself. *)
Lemma round_trip_error (v y z u : R) :
  (0 < v -> 0 <= u -> u * Rabs (ln v) <= 1 / 2 ->
   Rabs (y - ln v) <= u * Rabs (ln v) ->
   Rabs (z - exp y) <= u * exp y ->
   Rabs (z - v) <= (2 * Rabs (ln v) + 2) * u * v)%R.
Proof.
  intros Hv Hu Hsmall Hy Hz.
  set (t := (y - ln v)%R) in *.
  assert (Hexp : exp y = (v * exp t)%R).
  { unfold t. replace y with (ln v + (y - ln v))%R at 1 by ring.
    rewrite exp_plus, exp_ln by assumption. reflexivity. }
  assert (Ht : (Rabs t <= 1 / 2)%R) by lra.
  pose proof (exp_near_one t Ht) as Hnear.
  pose proof (exp_pos t) as Hpos.
  pose proof (Rabs_pos (ln v)) as HL.
  pose proof (Rabs_pos t) as Hta.
  assert (Het : (exp t <= 2)%R).
  { pose proof (Rle_abs (exp t - 1)). lra. }
  replace (z - v)%R with ((z - exp y) + v * (exp t - 1))%R
    by (rewrite Hexp; ring).
  eapply Rle_trans; [apply Rabs_triang|].
  rewrite Rabs_mult, (Rabs_pos_eq v) by lra.
  rewrite Hexp in Hz |- *.
  assert (Huv : (0 <= u * v)%R) by (apply Rmult_le_pos; lra).
  assert (H1 : (u * (v * exp t) <= 2 * u * v)%R).
  { replace (u * (v * exp t))%R with (u * v * exp t)%R by ring.
    replace (2 * u * v)%R with (u * v * 2)%R by ring.
    apply Rmult_le_compat_l; assumption. }
  assert (H2 : (v * Rabs (exp t - 1) <= 2 * Rabs (ln v) * u * v)%R).
  { replace (2 * Rabs (ln v) * u * v)%R
      with (v * (2 * (u * Rabs (ln v))))%R by ring.
    apply Rmult_le_compat_l; lra. }
  lra.
Qed.

Lemma ln_10_pos : (0 < ln 10)%R.
Proof. rewrite <- ln_1. apply ln_increasing; lra. Qed.

Lemma round_trip_error_log10 (v y z u : R) :
  (0 < v -> 0 <= u -> u * Rabs (ln v) <= 1 / 2 ->
   Rabs (y - ln v / ln 10) <= u * Rabs (ln v / ln 10) ->
   Rabs (z - Rpower 10 y) <= u * Rpower 10 y ->
   Rabs (z - v) <= (2 * Rabs (ln v) + 2) * u * v)%R.
Proof.
  intros Hv Hu Hsmall Hy Hz.
  pose proof ln_10_pos as H10.
  apply (round_trip_error v (y * ln 10) z u); try assumption.
  replace (y * ln 10 - ln v)%R with ((y - ln v / ln 10) * ln 10)%R
    by (field; lra).
  rewrite Rabs_mult, (Rabs_pos_eq (ln 10)) by lra.
  replace (Rabs (ln v)) with (Rabs (ln v / ln 10) * ln 10)%R.
  - nra.
  - rewrite <- (Rabs_pos_eq (ln 10)) at 2 by lra.
    rewrite <- Rabs_mult. f_equal. field. lra.
Qed.

Lemma Forall2_map_self {A B} (P : A -> B -> Prop) (f : A -> B) l :
  (forall x, In x l -> P x (f x)) -> Forall2 P l (map f l).
Proof.
  induction l as [|x l IH]; simpl; intros H; constructor.
  - apply H. now left.
  - apply IH. intros y Hy. apply H. now right.
Qed.

(** One value through transforms that are accurate on it. *)
Lemma accurate_round_trip (u : R)
  (scale unscale : R -> scale_kind -> result R) (s : scale_kind) (v : R) :
  (0 < v)%R -> (0 <= u)%R -> (u * Rabs (ln v) <= 1 / 2)%R ->
  accurate_on u scale unscale s v ->
  exists y z,
    scale v s = Ok y /\ unscale y s = Ok z /\
    (Rabs (z - v) <= (2 * Rabs (ln v) + 2) * u * v)%R /\
    (s = LIN -> z = v).
Proof.
  intros Hv Hu Hsmall Hacc. destruct s as [| | |tag]; simpl in Hacc.
  - destruct Hacc as [Hs Hu']. exists v, v. repeat split; try assumption.
    replace (v - v)%R with 0%R by ring. rewrite Rabs_R0.
    pose proof (Rabs_pos (ln v)).
    apply Rmult_le_pos; [apply Rmult_le_pos|]; lra.
  - destruct Hacc as (y & z & Hs & Hy & Hu' & Hz). exists y, z.
    repeat split; try assumption; [|discriminate].
    now apply (round_trip_error v y z u).
  - destruct Hacc as (y & z & Hs & Hy & Hu' & Hz). exists y, z.
    repeat split; try assumption; [|discriminate].
    now apply (round_trip_error_log10 v y z u).
  - contradiction.
Qed.

(** Either method with the transform it calls passed in, on a dictionary
    whose keys the table knows and on whose entries the transform returns:
    the new dictionary pairs each key with what the transform returned at
    the scale of that key. *)
Lemma transform_entries (op : R -> scale_kind -> result R) st tbl x_dict d :
  parameter_df (self_obj st) = Some tbl ->
  NoDup (map parameterId tbl) ->
  nth_error (dicts st) x_dict = Some d ->
  is_dict d -> keys_known tbl d ->
  (forall k v, In (k, v) d -> exists y, op v (scale_of tbl k) = Ok y) ->
  dict_comp_pure (entry_result (self_obj st) op) d []
  = Ok (map (fun kv => (fst kv,
                        match op (snd kv) (scale_of tbl (fst kv)) with
                        | Ok y => y
                        | Raise _ => 0%R
                        end)) d).
Proof.
  intros Hdf Hnd Hd Hdict Hkeys Hret.
  rewrite (dict_comp_pure_ok (entry_result (self_obj st) op)
             (fun k v => match op v (scale_of tbl k) with
                         | Ok y => y
                         | Raise _ => 0%R
                         end)).
  - reflexivity.
  - exact Hdict.
  - intros k v Hin. unfold entry_result.
    assert (Hk : In k (map parameterId tbl)).
    { apply Hkeys. apply in_map_iff. now exists (k, v). }
    destruct (series_getitem_scale (self_obj st) tbl k Hdf Hnd Hk) as [-> _].
    simpl. destruct (Hret k v Hin) as [y ->]. reflexivity.
Qed.

(** C5, amended: let the receiver hold a table with unique ids, and let
    [scale] and [unscale] be the transforms the two methods call.  For a
    dictionary whose keys are ids of the table and whose values [v] are
    positive, if on each entry the transforms at the scale of its key are
    accurate to relative error [u] (linear the identity, log and log10 the
    logarithm and its inverse, each within [u] of the exact value) and
    [u * |ln v| <= 1/2], then [scale_parameters] returns a new dictionary
    that pairs each key with [scale] of its value at that key's own scale,
    and [unscale_parameters] of it returns a dictionary with the same keys
    in the same order whose values are within [(2 |ln v| + 2) * u * v] of
    the input's, and equal to them where the scale is linear; with [u = 0]
    it is the input.  For a dictionary whose keys all have scale linear,
    [scale_parameters] returns a dictionary equal to the input, whatever
    the values, as soon as linear [scale] is the identity on them. *)
Theorem round_trip_within_tolerance
  (scale unscale : R -> scale_kind -> result R) (u : R)
  (st : Store) (tbl : ParameterTable) :
  parameter_df (self_obj st) = Some tbl ->
  NoDup (map parameterId tbl) ->
  (0 <= u)%R ->
  (forall x_dict d,
      nth_error (dicts st) x_dict = Some d ->
      is_dict d -> keys_known tbl d ->
      Forall (fun kv =>
                (0 < snd kv)%R /\
                (u * Rabs (ln (snd kv)) <= 1 / 2)%R /\
                accurate_on u scale unscale (scale_of tbl (fst kv)) (snd kv))
        d ->
      exists scaled st1 d1 back st2 d2,
        scale_parameters_with scale x_dict st = (Ok scaled, st1) /\
        nth_error (dicts st1) scaled = Some d1 /\
        Forall2 (fun kv kv1 =>
                   fst kv1 = fst kv /\
                   scale (snd kv) (scale_of tbl (fst kv)) = Ok (snd kv1))
          d d1 /\
        unscale_parameters_with unscale scaled st1 = (Ok back, st2) /\
        nth_error (dicts st2) back = Some d2 /\
        Forall2 (fun kv kv2 =>
                   fst kv2 = fst kv /\
                   (Rabs (snd kv2 - snd kv)
                    <= (2 * Rabs (ln (snd kv)) + 2) * u * snd kv)%R /\
                   (scale_of tbl (fst kv) = LIN -> snd kv2 = snd kv))
          d d2 /\
        (u = 0%R -> d2 = d)) /\
  (forall x_dict d,
      nth_error (dicts st) x_dict = Some d ->
      is_dict d -> keys_known tbl d ->
      (forall k v, In (k, v) d ->
                   scale_of tbl k = LIN /\ scale v LIN = Ok v) ->
      exists scaled st1,
        scale_parameters_with scale x_dict st = (Ok scaled, st1) /\
        nth_error (dicts st1) scaled = Some d).
Proof.
  intros Hdf Hnd Hu. split.
  - intros x_dict d Hd Hdict Hkeys Hall.
    rewrite Forall_forall in Hall.
    assert (Hentry : forall k v, In (k, v) d ->
              exists y z,
                scale v (scale_of tbl k) = Ok y /\
                unscale y (scale_of tbl k) = Ok z /\
                (Rabs (z - v) <= (2 * Rabs (ln v) + 2) * u * v)%R /\
                (scale_of tbl k = LIN -> z = v)).
    { intros k v Hin. destruct (Hall _ Hin) as (Hv & Hsmall & Hacc).
      simpl in *. now apply (accurate_round_trip u). }
    set (g := fun kv : string * R =>
                (fst kv,
                 match scale (snd kv) (scale_of tbl (fst kv)) with
                 | Ok y => y
                 | Raise _ => 0%R
                 end)).
    set (h := fun kv : string * R =>
                (fst kv,
                 match unscale (snd kv) (scale_of tbl (fst kv)) with
                 | Ok y => y
                 | Raise _ => 0%R
                 end)).
    set (d1 := map g d).
    set (st1 := {| self_obj := self_obj st; dicts := dicts st ++ [d1] |}).
    set (d2 := map h d1).
    assert (Hkeys1 : map fst d1 = map fst d).
    { unfold d1. rewrite map_map. reflexivity. }
    assert (Hbound : Forall2 (fun kv kv2 : string * R =>
                   fst kv2 = fst kv /\
                   (Rabs (snd kv2 - snd kv)
                    <= (2 * Rabs (ln (snd kv)) + 2) * u * snd kv)%R /\
                   (scale_of tbl (fst kv) = LIN -> snd kv2 = snd kv))
                 d d2).
    { unfold d2, d1. rewrite map_map. apply Forall2_map_self.
      intros [k v] Hin. unfold h, g. simpl.
      destruct (Hentry k v Hin) as (y & z & -> & -> & Hb & Hlin).
      repeat split; assumption. }
    exists (List.length (dicts st)), st1, d1,
      (List.length (dicts st1)),
      {| self_obj := self_obj st1; dicts := dicts st1 ++ [d2] |}, d2.
    split; [|split; [|split; [|split; [|split; [|split]]]]].
    + unfold scale_parameters_with.
      rewrite (transform_run scale x_dict st d Hd).
      rewrite (transform_entries scale st tbl x_dict d); try assumption.
      * reflexivity.
      * intros k v Hin. destruct (Hentry k v Hin) as (y & _ & Hy & _).
        now exists y.
    + apply nth_error_snoc.
    + unfold d1. apply Forall2_map_self. intros [k v] Hin. unfold g. simpl.
      destruct (Hentry k v Hin) as (y & _ & -> & _). now split.
    + unfold unscale_parameters_with.
      rewrite (transform_run unscale (List.length (dicts st)) st1 d1)
        by apply nth_error_snoc.
      rewrite (transform_entries unscale st1 tbl (List.length (dicts st)) d1);
        try assumption.
      * reflexivity.
      * apply nth_error_snoc.
      * unfold is_dict. now rewrite Hkeys1.
      * unfold keys_known. now rewrite Hkeys1.
      * intros k y Hin. unfold d1 in Hin. apply in_map_iff in Hin.
        destruct Hin as ([k' v] & Heq & Hin). unfold g in Heq. simpl in Heq.
        destruct (Hentry k' v Hin) as (y' & z & Hy & Hz & _).
        rewrite Hy in Heq. injection Heq as <- <-. now exists z.
    + apply nth_error_snoc.
    + exact Hbound.
    + intros ->. clear - Hbound. induction Hbound as [|[k v] [k2 v2] d d2 H _ IH].
      * reflexivity.
      * simpl in H. destruct H as (-> & Hb & _). f_equal; [|exact IH].
        f_equal. replace ((2 * Rabs (ln v) + 2) * 0 * v)%R with 0%R in Hb
          by ring.
        pose proof (Rabs_pos (v2 - v)) as Hp.
        assert (Hz : Rabs (v2 - v) = 0%R) by lra.
        destruct (Req_dec (v2 - v) 0) as [H0 | Hn0]; [lra|].
        apply Rabs_no_R0 in Hn0. contradiction.
  - intros x_dict d Hd Hdict Hkeys Hlin.
    exists (List.length (dicts st)),
      {| self_obj := self_obj st; dicts := dicts st ++ [d] |}.
    split; [|apply nth_error_snoc].
    unfold scale_parameters_with.
    rewrite (transform_run scale x_dict st d Hd).
    rewrite (transform_entries scale st tbl x_dict d); try assumption.
    + replace (map (fun kv : string * R =>
                      (fst kv,
                       match scale (snd kv) (scale_of tbl (fst kv)) with
                       | Ok y => y
                       | Raise _ => 0%R
                       end)) d)
        with d; [reflexivity|].
      rewrite <- (map_id d) at 1. apply map_ext_in.
      intros [k v] Hin. simpl. destruct (Hlin k v Hin) as [-> ->].
      reflexivity.
    + intros k v Hin. destruct (Hlin k v Hin) as [-> Hv]. now exists v.
Qed.

(** The transforms of section 4.1 over the real numbers are accurate with
    no error at all. *)
Lemma parameters_accurate (s : scale_kind) (v : R) :
  valid_scale s = true ->
  accurate_on 0 parameters.scale parameters.unscale s v.
Proof.
  assert (Hz : forall z : R, (Rabs (z - z) <= 0 * Rabs z)%R).
  { intros z. replace (z - z)%R with 0%R by ring. rewrite Rabs_R0. lra. }
  assert (Hz' : forall z : R, (Rabs (z - z) <= 0 * z)%R).
  { intros z. replace (z - z)%R with 0%R by ring. rewrite Rabs_R0. lra. }
  destruct s as [| | |tag]; simpl; intros Hs; try discriminate.
  - split; reflexivity.
  - exists (ln v), (exp (ln v)).
    split; [reflexivity|]. split; [apply Hz|]. split; [reflexivity|apply Hz'].
  - exists (ln v / ln 10)%R, (Rpower 10 (ln v / ln 10)).
    split; [reflexivity|]. split; [apply Hz|]. split; [reflexivity|apply Hz'].
Qed.

Lemma scenario_ids_unique : NoDup (map parameterId scenario_table).
Proof.
  simpl. repeat constructor; simpl; intuition discriminate.
Qed.

Lemma scenario_dict0 :
  is_dict [("k1"%string, 2%R); ("k2"%string, 5%R)] /\
  keys_known scenario_table [("k1"%string, 2%R); ("k2"%string, 5%R)] /\
  Forall (fun kv : string * R => (0 < snd kv)%R)
    [("k1"%string, 2%R); ("k2"%string, 5%R)].
Proof.
  split; [|split].
  - unfold is_dict. simpl. repeat constructor; simpl; intuition discriminate.
  - intros k Hk. exact Hk.
  - repeat constructor; simpl; lra.
Qed.

Lemma scenario_dict1 :
  is_dict [("k1"%string, (-3)%R)] /\
  keys_known scenario_table [("k1"%string, (-3)%R)] /\
  (forall k, In k (map fst [("k1"%string, (-3)%R)]) ->
             scale_of scenario_table k = LIN).
Proof.
  split; [|split].
  - unfold is_dict. simpl. repeat constructor; simpl; intuition.
  - intros k [<- | []]. now left.
  - intros k [<- | []]. reflexivity.
Qed.

Lemma ln_below (v : R) : (1 <= v -> Rabs (ln v) <= v)%R.
Proof.
  intros Hv.
  assert (Hge : (0 <= ln v)%R).
  { rewrite <- ln_1. destruct Hv as [Hlt | <-]; [|lra].
    left. apply ln_increasing; lra. }
  rewrite Rabs_pos_eq by assumption.
  pose proof (exp_ineq1_le (ln v)) as H.
  rewrite exp_ln in H by lra. lra.
Qed.

Lemma scenario_dict0_accurate :
  Forall (fun kv : string * R =>
            (0 < snd kv)%R /\
            (1 / 1000 * Rabs (ln (snd kv)) <= 1 / 2)%R /\
            accurate_on (1 / 1000) inexact_scale parameters.unscale
              (scale_of scenario_table (fst kv)) (snd kv))
    [("k1"%string, 2%R); ("k2"%string, 5%R)].
Proof.
  constructor; [|constructor; [|constructor]]; simpl.
  - split; [lra|]. split; [|split; reflexivity].
    pose proof (ln_below 2). lra.
  - split; [lra|]. split; [pose proof (ln_below 5); lra|].
    exists (ln 5 / ln 10 * (1 + 1 / 1000))%R,
      (Rpower 10 (ln 5 / ln 10 * (1 + 1 / 1000))).
    split; [reflexivity|]. split; [|split; [reflexivity|]].
    + replace (ln 5 / ln 10 * (1 + 1 / 1000) - ln 5 / ln 10)%R
        with (1 / 1000 * (ln 5 / ln 10))%R by ring.
      rewrite Rabs_mult, (Rabs_pos_eq (1 / 1000)) by lra. lra.
    + match goal with |- (Rabs (?z - ?z) <= _)%R =>
        replace (z - z)%R with 0%R by ring; rewrite Rabs_R0;
        pose proof (exp_pos (ln 5 / ln 10 * (1 + 1 / 1000) * ln 10)) as Hp
      end.
      unfold Rpower. lra.
Qed.

Lemma scenario_dict1_linear :
  forall k v, In (k, v) [("k1"%string, (-3)%R)] ->
              scale_of scenario_table k = LIN /\ inexact_scale v LIN = Ok v.
Proof. intros k v [[= <- <-] | []]. split; reflexivity. Qed.

Lemma round_trip_within_tolerance_witness :
  (exists scaled st1 d1 back st2 d2,
      scale_parameters_with inexact_scale 0 scenario_store
      = (Ok scaled, st1) /\
      nth_error (dicts st1) scaled = Some d1 /\
      Forall2 (fun kv kv1 : string * R =>
                 fst kv1 = fst kv /\
                 inexact_scale (snd kv) (scale_of scenario_table (fst kv))
                 = Ok (snd kv1))
        [("k1"%string, 2%R); ("k2"%string, 5%R)] d1 /\
      unscale_parameters_with parameters.unscale scaled st1
      = (Ok back, st2) /\
      nth_error (dicts st2) back = Some d2 /\
      Forall2 (fun kv kv2 : string * R =>
                 fst kv2 = fst kv /\
                 (Rabs (snd kv2 - snd kv)
                  <= (2 * Rabs (ln (snd kv)) + 2) * (1 / 1000) * snd kv)%R /\
                 (scale_of scenario_table (fst kv) = LIN ->
                  snd kv2 = snd kv))
        [("k1"%string, 2%R); ("k2"%string, 5%R)] d2 /\
      ((1 / 1000)%R = 0%R ->
       d2 = [("k1"%string, 2%R); ("k2"%string, 5%R)])) /\
  (exists scaled st1,
      scale_parameters_with inexact_scale 1 scenario_store
      = (Ok scaled, st1) /\
      nth_error (dicts st1) scaled = Some [("k1"%string, (-3)%R)]).
Proof.
  assert (Hu : (0 <= 1 / 1000)%R) by lra.
  destruct (round_trip_within_tolerance inexact_scale parameters.unscale
              (1 / 1000) scenario_store scenario_table eq_refl
              scenario_ids_unique Hu) as [Hround Hlin].
  split.
  - exact (Hround 0%nat _ eq_refl (proj1 scenario_dict0)
             (proj1 (proj2 scenario_dict0)) scenario_dict0_accurate).
  - exact (Hlin 1%nat _ eq_refl (proj1 scenario_dict1)
             (proj1 (proj2 scenario_dict1)) scenario_dict1_linear).
Defined.

(** The exact base-10 logarithm of a value from 8 up to 10 lies between
    0.9 and 1, both of them bounds that rounding to a double keeps. *)
Lemma log10_between (v : R) :
  (8 <= v < 10 -> 9 / 10 <= ln v / ln 10 <= 1)%R.
Proof.
  intros [Hlo Hhi].
  pose proof ln_10_pos as H10.
  assert (H8 : (ln 8 <= ln v)%R).
  { destruct Hlo as [Hlt | <-]; [|lra]. left. apply ln_increasing; lra. }
  assert (Hv : (ln v < ln 10)%R) by (apply ln_increasing; lra).
  assert (Hpow : (9 * ln 10 <= 10 * ln 8)%R).
  { replace (9 * ln 10)%R with (ln (10 ^ 9))
      by (rewrite ln_pow by lra; f_equal; simpl; lra).
    replace (10 * ln 8)%R with (ln (8 ^ 10))
      by (rewrite ln_pow by lra; f_equal; simpl; lra).
    assert (Hc : (10 ^ 9 <= 8 ^ 10)%R) by lra.
    destruct Hc as [Hlt | ->]; [|lra]. left. apply ln_increasing; lra. }
  split.
  - apply Rmult_le_reg_r with (ln 10); [assumption|].
    replace (ln v / ln 10 * ln 10)%R with (ln v) by (field; lra). lra.
  - apply Rmult_le_reg_r with (ln 10); [assumption|].
    replace (ln v / ln 10 * ln 10)%R with (ln v) by (field; lra). lra.
Qed.

(** ** The exact round trip fails in double precision *)

(** More values than places: a map from [0, n) into [0, m) with [m < n]
    takes two arguments to one value. *)
Lemma pigeonhole_Z (m : Z) :
  (0 <= m)%Z ->
  forall (n : Z) (f : Z -> Z),
    (m < n)%Z ->
    (forall i, (0 <= i < n)%Z -> (0 <= f i < m)%Z) ->
    exists i j, (0 <= i < j)%Z /\ (j < n)%Z /\ f i = f j.
Proof.
  intros Hm. pattern m. apply natlike_ind; [| |exact Hm]; clear m Hm.
  - intros n f Hn Hf. specialize (Hf 0%Z). lia.
  - intros m Hm IH n f Hn Hf.
    destruct (classic (exists i, (0 <= i < n - 1)%Z /\ f i = f (n - 1)%Z))
      as [(i & Hi & Heq) | Hnone].
    + exists i, (n - 1)%Z. split; [lia|]. split; [lia | exact Heq].
    + set (c := f (n - 1)%Z) in *.
      set (g := fun k => if (f k <? c)%Z then f k else (f k - 1)%Z).
      assert (Hg : forall i, (0 <= i < n - 1)%Z -> (0 <= g i < m)%Z).
      { intros i Hi. unfold g.
        assert (Hne : f i <> c).
        { intros Heq. apply Hnone. now exists i. }
        pose proof (Hf i ltac:(lia)) as Hfi.
        pose proof (Hf (n - 1)%Z ltac:(lia)) as Hc. fold c in Hc.
        destruct (Z.ltb_spec (f i) c); lia. }
      destruct (IH (n - 1)%Z g ltac:(lia) Hg) as (i & j & Hij & Hj & Heq).
      exists i, j. split; [lia|]. split; [lia|].
      assert (Hni : f i <> c).
      { intros H. apply Hnone. exists i. split; [lia | exact H]. }
      assert (Hnj : f j <> c).
      { intros H. apply Hnone. exists j. split; [lia | exact H]. }
      unfold g in Heq.
      destruct (Z.ltb_spec (f i) c), (Z.ltb_spec (f j) c); lia.
Qed.

Lemma IZR_pow2_pos (e : Z) : (0 <= e)%Z -> (0 < IZR (2 ^ e))%R.
Proof. intros He. apply IZR_lt. apply Z.pow_pos_nonneg; lia. Qed.

(** The doubles [8 + k / 2^49] for [0 <= k < 2^50]: every double from 8 up
    to 10. *)
Lemma grid_is_double (k : Z) :
  (0 <= k < 2 ^ 50)%Z ->
  is_double (IZR (2 ^ 52 + k) / IZR (2 ^ 49)) /\
  (8 <= IZR (2 ^ 52 + k) / IZR (2 ^ 49) < 10)%R.
Proof.
  intros Hk.
  pose proof (IZR_pow2_pos 49 ltac:(lia)) as H49.
  split.
  - exists (2 ^ 52 + k)%Z, 1025%Z. split; [|split].
    + replace (2 ^ 50)%Z with 1125899906842624%Z in Hk by reflexivity.
      replace (2 ^ 52)%Z with 4503599627370496%Z by reflexivity.
      replace (2 ^ 53)%Z with 9007199254740992%Z by reflexivity.
      lia.
    + lia.
    + replace (2 ^ 1074)%Z with (2 ^ 49 * 2 ^ 1025)%Z
        by (rewrite <- Z.pow_add_r by lia; reflexivity).
      rewrite !mult_IZR. field. lra.
  - assert (H8 : IZR (2 ^ 52 + k) = (8 * IZR (2 ^ 49) + IZR k)%R).
    { rewrite plus_IZR. f_equal.
      replace (2 ^ 52)%Z with (8 * 2 ^ 49)%Z by reflexivity.
      now rewrite mult_IZR. }
    assert (Hk0 : (0 <= IZR k)%R) by (apply IZR_le; lia).
    assert (Hk1 : (IZR k < 2 * IZR (2 ^ 49))%R).
    { rewrite <- mult_IZR. apply IZR_lt.
      replace (2 * 2 ^ 49)%Z with (2 ^ 50)%Z by reflexivity. lia. }
    rewrite H8. split.
    + apply Rmult_le_reg_r with (IZR (2 ^ 49)); [assumption|].
      unfold Rdiv. rewrite Rmult_assoc, Rinv_l by lra. lra.
    + apply Rmult_lt_reg_r with (IZR (2 ^ 49)); [assumption|].
      unfold Rdiv. rewrite Rmult_assoc, Rinv_l by lra. lra.
Qed.

(** A double between 0.9 and 1 is a multiple of [2^-53]: there are fewer
    than [2^50] of them. *)
Lemma double_near_one (y : R) :
  is_double y -> (9 / 10 <= y <= 1)%R ->
  exists n : Z,
    (8106479329266893 <= n <= 9007199254740992)%Z /\
    (y * IZR (2 ^ 53))%R = IZR n.
Proof.
  intros (m & e & Hm & He & Heq) [Hlo Hhi].
  pose proof (IZR_pow2_pos 1074 ltac:(lia)) as Hbig.
  assert (H1 : (9 * 2 ^ 1074 <= 10 * (m * 2 ^ e))%Z).
  { apply le_IZR. rewrite (mult_IZR 9), (mult_IZR 10), <- Heq.
    clear Heq. set (B := IZR (2 ^ 1074)) in *. clearbody B. nra. }
  assert (H2 : (m * 2 ^ e <= 2 ^ 1074)%Z).
  { apply le_IZR. rewrite <- Heq.
    clear Heq H1. set (B := IZR (2 ^ 1074)) in *. clearbody B. nra. }
  assert (Hpe : (0 < 2 ^ e)%Z) by (apply Z.pow_pos_nonneg; lia).
  assert (He' : (1021 <= e)%Z).
  { destruct (Z.le_gt_cases 1021 e) as [Hge | Hlt]; [exact Hge|exfalso].
    assert (Hq : (2 ^ e <= 2 ^ 1020)%Z) by (apply Z.pow_le_mono_r; lia).
    replace (2 ^ 1074)%Z with (2 ^ 54 * 2 ^ 1020)%Z in H1
      by (rewrite <- Z.pow_add_r by lia; reflexivity).
    assert (Hq0 : (0 < 2 ^ 1020)%Z) by (apply Z.pow_pos_nonneg; lia).
    replace (2 ^ 54)%Z with 18014398509481984%Z in H1 by reflexivity.
    replace (2 ^ 53)%Z with 9007199254740992%Z in Hm by reflexivity.
    clear Heq H2 Hbig.
    set (q := (2 ^ 1020)%Z) in *. set (a := (2 ^ e)%Z) in *.
    clearbody q a.
    assert (Hmq : (m * a <= 9007199254740992 * q)%Z).
    { destruct (Z.le_gt_cases m 0) as [Hneg | Hpos]; [nia|].
      transitivity (m * q)%Z; [apply Z.mul_le_mono_nonneg_l; lia|].
      apply Z.mul_le_mono_nonneg_r; lia. }
    lia. }
  exists (m * 2 ^ (e - 1021))%Z.
  assert (Hsplit : (2 ^ e = 2 ^ (e - 1021) * 2 ^ 1021)%Z).
  { rewrite <- Z.pow_add_r by lia. f_equal. lia. }
  assert (Hp0 : (0 < 2 ^ 1021)%Z) by (apply Z.pow_pos_nonneg; lia).
  assert (Hbig' : (2 ^ 1074 = 2 ^ 53 * 2 ^ 1021)%Z).
  { rewrite <- Z.pow_add_r by lia. reflexivity. }
  rewrite Hsplit, Hbig' in H1, H2, Heq.
  pose proof (IZR_lt _ _ Hp0) as Hp0R.
  replace (2 ^ 53)%Z with 9007199254740992%Z in * by reflexivity.
  clear Hsplit Hbig' Hbig Hpe.
  set (q := (2 ^ 1021)%Z) in *. set (a := (2 ^ (e - 1021))%Z) in *.
  clearbody q a. rename Hp0 into Hq0.
  split; [split|].
  - assert (H : (9 * 9007199254740992 <= 10 * (m * a))%Z).
    { apply Z.mul_le_mono_pos_r with q; [exact Hq0|]. lia. }
    lia.
  - apply Z.mul_le_mono_pos_r with q; [exact Hq0|]. lia.
  - apply Rmult_eq_reg_r with (IZR q); [|lra].
    rewrite !mult_IZR in Heq. rewrite mult_IZR, Rmult_assoc, Heq. ring.
Qed.

(** The exact round trip on the one-entry dictionary [{"k2": v}] of the
    scenario, whose [k2] has scale log10: [unscale] takes what [scale]
    returned for [v] back to [v]. *)
Lemma exact_round_trip_log10
  (scale unscale : R -> scale_kind -> result R) (v : R) :
  exact_round_trip scale unscale ->
  is_double v -> (0 < v)%R ->
  exists y, scale v LOG10 = Ok y /\ unscale y LOG10 = Ok v.
Proof.
  intros Hrt Hdbl Hpos.
  set (st := {| self_obj := scenario; dicts := [[("k2"%string, v)]] |}).
  destruct (Hrt st scenario_table 0%nat [("k2"%string, v)] eq_refl
              scenario_ids_unique eq_refl)
    as (scaled & st1 & back & st2 & Hs & Hu & Hback).
  - unfold is_dict. simpl. repeat constructor. simpl. intuition.
  - intros k [<- | []]. simpl. auto.
  - repeat constructor; assumption.
  - unfold scale_parameters_with in Hs.
    rewrite (transform_run scale 0%nat st [("k2"%string, v)] eq_refl) in Hs.
    change (dict_comp_pure (entry_result (self_obj st) scale)
              [("k2"%string, v)] [])
      with (y <- scale v LOG10 ;; Ok [("k2"%string, y)]) in Hs.
    destruct (scale v LOG10) as [y|e]; simpl in Hs; [|discriminate].
    injection Hs as <- <-. exists y. split; [reflexivity|].
    unfold unscale_parameters_with in Hu.
    match type of Hu with
    | _ ?s = _ =>
        rewrite (transform_run unscale 1%nat s [("k2"%string, y)] eq_refl)
          in Hu
    end.
    change (dict_comp_pure (entry_result _ unscale) [("k2"%string, y)] [])
      with (z <- unscale y LOG10 ;; Ok [("k2"%string, z)]) in Hu.
    destruct (unscale y LOG10) as [z|e]; simpl in Hu; [|discriminate].
    injection Hu as <- <-. simpl in Hback.
    injection Hback as ->. reflexivity.
Qed.

(** C5 as stated fails: with values that are doubles, no pair of
    transforms whose base-10 logarithm returns doubles makes
    [unscale_parameters(scale_parameters(x_dict))] equal to [x_dict] on
    every dictionary of positive values.  There are [2^50] doubles from 8
    up to 10 and fewer doubles from 0.9 to 1, so the logarithm takes two of
    them to one double, and [unscale] cannot return both. *)
Lemma exact_round_trip_fails_in_doubles :
  ~ exists scale unscale : R -> scale_kind -> result R,
      log10_in_doubles scale /\ exact_round_trip scale unscale.
Proof.
  intros (scale & unscale & Hlog & Hrt).
  set (v := fun k : Z => (IZR (2 ^ 52 + k) / IZR (2 ^ 49))%R).
  set (y := fun k : Z => match scale (v k) LOG10 with
                          | Ok y => y
                          | Raise _ => 0%R
                          end).
  set (f := fun k : Z =>
              (Int_part (y k * IZR (2 ^ 53)) - 8106479329266893)%Z).
  pose proof (IZR_pow2_pos 53 ltac:(lia)) as H53.
  pose proof (IZR_pow2_pos 49 ltac:(lia)) as H49.
  assert (Hgrid : forall k, (0 <= k < 1125899906842624)%Z ->
            unscale (y k) LOG10 = Ok (v k) /\
            exists n, (8106479329266893 <= n <= 9007199254740992)%Z /\
                      (y k * IZR (2 ^ 53))%R = IZR n).
  { intros k Hk.
    destruct (grid_is_double k Hk) as [Hdbl Hrange]. fold (v k) in Hdbl, Hrange.
    destruct (exact_round_trip_log10 scale unscale (v k) Hrt Hdbl
                ltac:(lra)) as (y0 & Hs & Hu).
    assert (Hy : y k = y0) by (unfold y; now rewrite Hs).
    rewrite Hy. split; [exact Hu|].
    destruct (Hlog (v k) y0 Hdbl Hrange Hs) as [Hdy Hry].
    now apply double_near_one. }
  destruct (pigeonhole_Z 900719925474100 ltac:(lia) 1125899906842624 f
              ltac:(lia)) as (i & j & Hij & Hj & Heq).
  { intros k Hk. destruct (Hgrid k Hk) as [_ (n & Hn & Hyn)].
    unfold f. rewrite Hyn.
    rewrite <- (Int_part_spec (IZR n) n) by lra. lia. }
  destruct (Hgrid i ltac:(lia)) as [Hui (ni & Hni & Hyi)].
  destruct (Hgrid j ltac:(lia)) as [Huj (nj & Hnj & Hyj)].
  unfold f in Heq. rewrite Hyi, Hyj in Heq.
  rewrite <- (Int_part_spec (IZR ni) ni) in Heq by lra.
  rewrite <- (Int_part_spec (IZR nj) nj) in Heq by lra.
  assert (Hn : ni = nj) by lia. subst nj.
  assert (Hy : y i = y j).
  { apply Rmult_eq_reg_r with (IZR (2 ^ 53)); [|lra]. now rewrite Hyi, Hyj. }
  rewrite Hy, Huj in Hui. injection Hui as Hv. unfold v in Hv.
  assert (Hz : IZR (2 ^ 52 + j) = IZR (2 ^ 52 + i)).
  { apply Rmult_eq_reg_r with (/ IZR (2 ^ 49))%R; [exact Hv|].
    apply Rinv_neq_0_compat. lra. }
  apply eq_IZR in Hz. lia.
Qed.

(** ** The stored records are never rewritten *)

(** The comprehension returns when every entry's transform does. *)
Lemma dict_comp_pure_returns (op : R -> scale_kind -> result R) self tbl d :
  parameter_df self = Some tbl ->
  NoDup (map parameterId tbl) ->
  is_dict d -> keys_known tbl d ->
  (forall k v, In (k, v) d -> exists y, op v (scale_of tbl k) = Ok y) ->
  exists d', dict_comp_pure (entry_result self op) d [] = Ok d'.
Proof.
  intros Hdf Hnd Hdict Hkeys Hret.
  rewrite (dict_comp_pure_ok (entry_result self op)
             (fun k v => match op v (scale_of tbl k) with
                         | Ok y => y
                         | Raise _ => 0%R
                         end)).
  - now eexists.
  - exact Hdict.
  - intros k v Hin. unfold entry_result.
    assert (Hk : In k (map parameterId tbl)).
    { apply Hkeys. apply in_map_iff. now exists (k, v). }
    destruct (series_getitem_scale self tbl k Hdf Hnd Hk) as [-> _].
    simpl. destruct (Hret k v Hin) as [y ->]. reflexivity.
Qed.

Lemma transform_leaves_records_alone (op : R -> scale_kind -> result R)
  (method : dict_ref -> M Store dict_ref) st x_dict d :
  method x_dict st
  = match dict_comp_pure (entry_result (self_obj st) op) d [] with
    | Ok d' => (Ok (List.length (dicts st)),
                {| self_obj := self_obj st; dicts := dicts st ++ [d'] |})
    | Raise e => (Raise e, st)
    end ->
  nth_error (dicts st) x_dict = Some d ->
  is_dict d ->
  leaves_records_alone method op st x_dict d.
Proof.
  intros Hrun Hd Hdict. unfold leaves_records_alone. rewrite Hrun.
  destruct (dict_comp_pure (entry_result (self_obj st) op) d []) as [d'|e]
    eqn:Hcomp; simpl.
  - split; [reflexivity|]. split; [|split].
    + intros r old Hold. rewrite nth_error_app1; [exact Hold|].
      apply nth_error_Some. rewrite Hold. discriminate.
    + intros out [= <-]. split.
      * now apply nth_error_None.
      * exists d'. split; [apply nth_error_snoc|].
        destruct (dict_comp_pure_inv _ d [] d' Hdict Hcomp)
          as (d'' & -> & Hkeys & _).
        exact Hkeys.
    + intros. now eexists.
  - split; [reflexivity|]. split; [|split].
    + intros r old Hold. exact Hold.
    + intros out Hout. discriminate Hout.
    + intros tbl Hdf Hnd Hkeys Hret. exfalso.
      destruct (dict_comp_pure_returns op (self_obj st) tbl d Hdf Hnd Hdict
                  Hkeys Hret) as [d' Hd'].
      rewrite Hd' in Hcomp. discriminate Hcomp.
Qed.

(** C7: for every dictionary in the store, [scale_parameters] and
    [unscale_parameters] leave the problem with all its tables as it was
    and every existing dictionary, the input included, unchanged, also when
    they raise; what they return is a reference to a dictionary that did
    not exist before, with exactly the input's keys; and they do return
    whenever the input's keys are parameter ids of a table with unique ids
    and the transform returns on every entry.  This holds whatever
    [parameters.scale] and [parameters.unscale] compute, and so for the
    two methods as modelled. *)
Theorem transforms_never_rewrite_records (st : Store) (x_dict : dict_ref)
  (d : PyDict) (scale unscale : R -> scale_kind -> result R) :
  nth_error (dicts st) x_dict = Some d ->
  is_dict d ->
  leaves_records_alone (scale_parameters_with scale) scale st x_dict d /\
  leaves_records_alone (unscale_parameters_with unscale) unscale st x_dict d
  /\
  leaves_records_alone scale_parameters parameters.scale st x_dict d /\
  leaves_records_alone unscale_parameters parameters.unscale st x_dict d.
Proof.
  intros Hd Hdict. split; [|split; [|split]].
  - apply (transform_leaves_records_alone scale); try assumption.
    unfold scale_parameters_with. now apply transform_run.
  - apply (transform_leaves_records_alone unscale); try assumption.
    unfold unscale_parameters_with. now apply transform_run.
  - apply (transform_leaves_records_alone parameters.scale); try assumption.
    unfold scale_parameters. now apply transform_run.
  - apply (transform_leaves_records_alone parameters.unscale);
      try assumption.
    unfold unscale_parameters. now apply transform_run.
Qed.

Lemma transforms_never_rewrite_records_witness :
  leaves_records_alone (scale_parameters_with (fun v _ => Ok v))
    (fun v _ => Ok v) scenario_store 0
    [("k1"%string, 2%R); ("k2"%string, 5%R)] /\
  leaves_records_alone
    (unscale_parameters_with (fun _ _ => Raise ShapeMismatch))
    (fun _ _ => Raise ShapeMismatch) scenario_store 0
    [("k1"%string, 2%R); ("k2"%string, 5%R)] /\
  leaves_records_alone scale_parameters parameters.scale scenario_store 0
    [("k1"%string, 2%R); ("k2"%string, 5%R)] /\
  leaves_records_alone unscale_parameters parameters.unscale scenario_store 0
    [("k1"%string, 2%R); ("k2"%string, 5%R)].
Proof.
  exact (transforms_never_rewrite_records scenario_store 0 _
           (fun v _ => Ok v) (fun _ _ => Raise ShapeMismatch) eq_refl
           (proj1 scenario_dict0)).
Defined.

(** ** Loading from a YAML configuration *)

Section Loading.

Context {E : External}.

(** [from_yaml] up to the two checks: the argument is turned into a
    dictionary, then the composite test and the version test are made. *)
Lemma from_yaml_checks (yaml_config : yaml_input) (w : World) config :
  config_of yaml_config = Ok config ->
  from_yaml yaml_config w
  = match external (yaml_is_composite_problem config) with
    | Raise e => (Raise e, after_config yaml_config w)
    | Ok true => (Raise ValueError_composite, after_config yaml_config w)
    | Ok false =>
        match format_version config with
        | None => (Raise (KeyError_yaml FORMAT_VERSION),
                   after_config yaml_config w)
        | Some version =>
            if PyVal_eqb version supported_format_version
            then from_yaml_files config (get_path_of yaml_config)
                   (after_config yaml_config w)
            else (Raise (ValueError_unsupported_version version
                           supported_format_version),
                  after_config yaml_config w)
        end
    end.
Proof.
  intros Hcfg. unfold from_yaml.
  destruct yaml_config as [c | path]; simpl in Hcfg.
  - injection Hcfg as ->. unfold bind at 1. unfold ret at 1.
    cbn [fst snd after_config get_path_of].
    unfold bind at 1. unfold lift at 1.
    destruct (external (yaml_is_composite_problem config)) as [[|]|e];
      try reflexivity.
    unfold bind at 1. unfold lift at 1.
    destruct (format_version config) as [version|]; simpl;
      [|reflexivity].
    destruct (PyVal_eqb version supported_format_version); reflexivity.
  - unfold bind at 1. unfold bind at 1. unfold read_yaml at 1.
    rewrite Hcfg. unfold ret at 1.
    cbn [fst snd after_config get_path_of].
    unfold bind at 1. unfold lift at 1.
    destruct (external (yaml_is_composite_problem config)) as [[|]|e];
      try reflexivity.
    unfold bind at 1. unfold lift at 1.
    destruct (format_version config) as [version|]; simpl;
      [|reflexivity].
    destruct (PyVal_eqb version supported_format_version); reflexivity.
Qed.

Lemma no_version_error_bind {A B} (c : M World A) (k : A -> M World B) :
  no_version_error c -> (forall a, no_version_error (k a)) ->
  no_version_error (bind c k).
Proof.
  intros Hc Hk w e. unfold bind.
  destruct (c w) as [[a | e'] w'] eqn:Hcw.
  - apply Hk.
  - simpl. intros [= <-]. apply (Hc w). now rewrite Hcw.
Qed.

Lemma no_version_error_ret {A} (a : A) : no_version_error (ret a).
Proof. intros w e. discriminate. Qed.

Lemma no_version_error_external {A} (o : outcome A) :
  no_version_error (lift (external o)).
Proof. intros w e. destruct o; simpl; [discriminate|]. now intros [= <-]. Qed.

Lemma no_version_error_yaml_getitem {A} key (entry : option A) :
  no_version_error (lift (yaml_getitem key entry)).
Proof.
  intros w e. destruct entry; simpl; [discriminate|]. now intros [= <-].
Qed.

Lemma no_version_error_getitem {A} (l : list A) ix :
  no_version_error (lift (getitem l ix)).
Proof.
  intros w e. unfold getitem. simpl.
  destruct (nth_error l ix); [discriminate|]. now intros [= <-].
Qed.

Lemma no_version_error_load_if {A} kind (reader : file_arg -> outcome A)
  file :
  no_version_error (load_if kind reader file).
Proof.
  unfold load_if. destruct (truthy file).
  - apply no_version_error_bind.
    + intros w e. unfold load. simpl.
      destruct (reader file); simpl; [discriminate|]. now intros [= <-].
    + intros a. apply no_version_error_ret.
  - apply no_version_error_ret.
Qed.

Lemma no_version_error_from_files f1 f2 f3 f4 f5 f6 :
  no_version_error (from_files f1 f2 f3 f4 f5 f6).
Proof.
  unfold from_files.
  repeat (apply no_version_error_bind;
          [apply no_version_error_load_if | intros ?]).
  apply no_version_error_ret.
Qed.

Lemma no_version_error_from_yaml_files config get_path :
  no_version_error (from_yaml_files config get_path).
Proof.
  unfold from_yaml_files.
  repeat (apply no_version_error_bind;
          [first [ apply no_version_error_yaml_getitem
                 | apply no_version_error_getitem
                 | apply no_version_error_external ]
          | intros ?]).
  apply no_version_error_from_files.
Qed.

(** C8: for a configuration whose format version differs from the
    supported one, [from_yaml] fails, and in the world it leaves behind
    no table or model has been loaded (at most the YAML file itself was
    parsed); when the configuration is not composite the failure is the
    unsupported-version error.  For a configuration with the supported
    version, whatever [from_yaml] raises is not that error. *)
Theorem version_mismatch_detected (yaml_config : yaml_input) (w : World)
  (config : YamlConfig) (version : PyVal) :
  config_of yaml_config = Ok config ->
  format_version config = Some version ->
  (PyVal_eqb version supported_format_version = false ->
   (exists e, from_yaml yaml_config w
              = (Raise e, after_config yaml_config w)) /\
   loads (snd (from_yaml yaml_config w)) = loads w /\
   (external (yaml_is_composite_problem config) = Ok false ->
    from_yaml yaml_config w
    = (Raise (ValueError_unsupported_version version
                supported_format_version),
       after_config yaml_config w))) /\
  (PyVal_eqb version supported_format_version = true ->
   forall e, fst (from_yaml yaml_config w) = Raise e ->
             is_version_error e = false).
Proof.
  intros Hcfg Hversion.
  rewrite (from_yaml_checks yaml_config w config Hcfg), Hversion.
  assert (Hloads : loads (after_config yaml_config w) = loads w)
    by (destruct yaml_config; reflexivity).
  split.
  - intros ->.
    destruct (external (yaml_is_composite_problem config)) as [[|]|e];
      (split; [eexists; reflexivity | split; [exact Hloads|]]);
      try discriminate.
    reflexivity.
  - intros -> e.
    destruct (external (yaml_is_composite_problem config)) as [[|]|e']
      eqn:Hcomposite; simpl.
    + now intros [= <-].
    + apply no_version_error_from_yaml_files.
    + intros [= <-].
      destruct (yaml_is_composite_problem config); simpl in Hcomposite;
        [discriminate|]. now injection Hcomposite as <-.
Qed.

Lemma from_yaml_files_first_entry c1 c2 p0 rest1 rest2 get_path w :
  parameter_file c1 = parameter_file c2 ->
  problems c1 = Some (p0 :: rest1) ->
  problems c2 = Some (p0 :: rest2) ->
  from_yaml_files c1 get_path w = from_yaml_files c2 get_path w.
Proof.
  intros Hpf H1 H2. unfold from_yaml_files.
  rewrite H1, H2, Hpf. reflexivity.
Qed.

(** C10: [from_yaml] answers a composite configuration with the
    [ValueError] of line 193 and leaves a world in which no table or
    model has been loaded; and two configurations that pass the composite
    test and differ only behind the first entry of their ['problems']
    lists are treated alike. *)
Theorem composite_rejected (yaml_config : yaml_input) (w : World)
  (config c1 c2 : YamlConfig) (p0 : ProblemEntry)
  (rest1 rest2 : list ProblemEntry) :
  config_of yaml_config = Ok config ->
  external (yaml_is_composite_problem config) = Ok true ->
  format_version c1 = format_version c2 ->
  parameter_file c1 = parameter_file c2 ->
  problems c1 = Some (p0 :: rest1) ->
  problems c2 = Some (p0 :: rest2) ->
  external (yaml_is_composite_problem c1) = Ok false ->
  external (yaml_is_composite_problem c2) = Ok false ->
  (from_yaml yaml_config w
   = (Raise ValueError_composite, after_config yaml_config w) /\
   loads (snd (from_yaml yaml_config w)) = loads w) /\
  from_yaml (YamlDict c1) w = from_yaml (YamlDict c2) w.
Proof.
  intros Hcfg Hcomposite Hversion Hpf H1 H2 Hc1 Hc2. split.
  - rewrite (from_yaml_checks yaml_config w config Hcfg), Hcomposite.
    split; [reflexivity|]. destruct yaml_config; reflexivity.
  - rewrite (from_yaml_checks (YamlDict c1) w c1 eq_refl), Hc1.
    rewrite (from_yaml_checks (YamlDict c2) w c2 eq_refl), Hc2.
    rewrite Hversion.
    destruct (format_version c2) as [version|]; [|reflexivity].
    destruct (PyVal_eqb version supported_format_version);
      [|reflexivity].
    now apply (from_yaml_files_first_entry c1 c2 p0 rest1 rest2).
Qed.

(** ** Deprecated entry points *)

Lemma silent_bind {A B} (c : M World A) (k : A -> M World B) :
  silent c -> (forall a, silent (k a)) -> silent (bind c k).
Proof.
  intros Hc Hk w. unfold bind. specialize (Hc w).
  destruct (c w) as [[a | e] w']; simpl in *.
  - now rewrite Hk.
  - exact Hc.
Qed.

Lemma silent_ret {A} (a : A) : silent (@ret World A a).
Proof. intros w. reflexivity. Qed.

Lemma silent_load_if {A} kind (reader : file_arg -> outcome A) file :
  silent (load_if kind reader file).
Proof.
  unfold load_if. destruct (truthy file).
  - apply silent_bind; [intros w; reflexivity | intros a; apply silent_ret].
  - apply silent_ret.
Qed.

Lemma silent_from_files f1 f2 f3 f4 f5 f6 :
  silent (from_files f1 f2 f3 f4 f5 f6).
Proof.
  unfold from_files.
  repeat (apply silent_bind; [apply silent_load_if | intros ?]).
  apply silent_ret.
Qed.

(** C9: each deprecated entry point records one [DeprecationWarning] per
    deprecated function it passes through and then does its work: the
    warning call itself returns, [from_folder] is [from_files] on the
    four default file names run after five recorded warnings (its own and
    one per file-name helper) which are all the warnings it leaves,
    [get_observables] and [get_sigmas] hand back what the SBML module
    returns, and each file-name helper returns its joined path. *)
Theorem deprecated_entry_points (folder : string)
  (model_name : option string) (self : Problem) (remove : bool)
  (model dir message : string) (w : World) :
  warn message DeprecationWarning w
  = (Ok tt, warned w [(DeprecationWarning, message)]) /\
  from_folder folder model_name w
  = from_files
      (OneFile (folder_file E folder model_name "model_" ".xml"))
      (OneFile (folder_file E folder model_name
                  "experimentalCondition_" ".tsv"))
      (OneFile (folder_file E folder model_name "measurementData_" ".tsv"))
      (OneFile (folder_file E folder model_name "parameters_" ".tsv"))
      NoFile NoFile
      (warned w
         [(DeprecationWarning,
           ("This function will be removed in future releases. " ++
            "Consider using a PEtab YAML file for grouping files")%string);
          (DeprecationWarning, deprecation_note);
          (DeprecationWarning, deprecation_note);
          (DeprecationWarning, deprecation_note);
          (DeprecationWarning, deprecation_note)]) /\
  List.length (warnings (snd (from_folder folder model_name w)))
  = List.length (warnings w) + 5 /\
  get_observables self remove w
  = (external (sbml_get_observables (sbml_model self) remove),
     warned w [(DeprecationWarning,
                "This function will be removed in future releases."%string)])
  /\
  get_sigmas self remove w
  = (external (sbml_get_sigmas (sbml_model self) remove),
     warned w [(DeprecationWarning,
                "This function will be removed in future releases."%string)])
  /\
  get_default_condition_file_name model dir w
  = (Ok (os_path_join dir ("experimentalCondition_" ++ model ++ ".tsv")),
     warned w [(DeprecationWarning, deprecation_note)]) /\
  get_default_measurement_file_name model dir w
  = (Ok (os_path_join dir ("measurementData_" ++ model ++ ".tsv")),
     warned w [(DeprecationWarning, deprecation_note)]) /\
  get_default_parameter_file_name model dir w
  = (Ok (os_path_join dir ("parameters_" ++ model ++ ".tsv")),
     warned w [(DeprecationWarning, deprecation_note)]) /\
  get_default_sbml_file_name model dir w
  = (Ok (os_path_join dir ("model_" ++ model ++ ".xml")),
     warned w [(DeprecationWarning, deprecation_note)]).
Proof.
  assert (Hfolder :
    from_folder folder model_name w
    = from_files
        (OneFile (folder_file E folder model_name "model_" ".xml"))
        (OneFile (folder_file E folder model_name
                    "experimentalCondition_" ".tsv"))
        (OneFile (folder_file E folder model_name
                    "measurementData_" ".tsv"))
        (OneFile (folder_file E folder model_name "parameters_" ".tsv"))
        NoFile NoFile
        (warned w
           [(DeprecationWarning,
             ("This function will be removed in future releases. " ++
              "Consider using a PEtab YAML file for grouping files")%string);
            (DeprecationWarning, deprecation_note);
            (DeprecationWarning, deprecation_note);
            (DeprecationWarning, deprecation_note);
            (DeprecationWarning, deprecation_note)])).
  { unfold from_folder, get_default_condition_file_name,
      get_default_measurement_file_name, get_default_parameter_file_name,
      get_default_sbml_file_name, bind, warn, ret, warned, folder_file,
      folder_model.
    cbn [yaml_reads loads warnings]. rewrite <- !app_assoc.
    reflexivity. }
  split; [reflexivity|]. split; [exact Hfolder|]. split.
  - rewrite Hfolder. rewrite silent_from_files. unfold warned. simpl.
    now rewrite length_app.
  - repeat split.
Qed.

End Loading.

Lemma version_mismatch_detected_witness :
  ((exists e,
       @from_yaml (sample_external 1)
         (YamlDict (sample_config (PyInt 2) [sample_entry])) empty_world
       = (Raise e, empty_world)) /\
   loads (snd (@from_yaml (sample_external 1)
                 (YamlDict (sample_config (PyInt 2) [sample_entry]))
                 empty_world)) = [] /\
   @from_yaml (sample_external 1)
     (YamlDict (sample_config (PyInt 2) [sample_entry])) empty_world
   = (Raise (ValueError_unsupported_version (PyInt 2) (PyInt 1)),
      empty_world)) /\
  (forall e,
      fst (@from_yaml (sample_external 1)
             (YamlDict (sample_config (PyInt 1) [sample_entry]))
             empty_world) = Raise e ->
      is_version_error e = false).
Proof.
  split.
  - destruct (@version_mismatch_detected (sample_external 1)
                (YamlDict (sample_config (PyInt 2) [sample_entry]))
                empty_world (sample_config (PyInt 2) [sample_entry])
                (PyInt 2) eq_refl eq_refl) as [Hdiffers _].
    destruct (Hdiffers eq_refl) as (Hfails & Hloads & Hversion).
    split; [exact Hfails|]. split; [exact Hloads|].
    exact (Hversion eq_refl).
  - destruct (@version_mismatch_detected (sample_external 1)
                (YamlDict (sample_config (PyInt 1) [sample_entry]))
                empty_world (sample_config (PyInt 1) [sample_entry])
                (PyInt 1) eq_refl eq_refl) as [_ Hsupported].
    exact (Hsupported eq_refl).
Defined.

Lemma composite_rejected_witness :
  (@from_yaml (sample_external 2)
     (YamlDict (sample_config (PyInt 1)
                  [sample_entry; sample_entry; sample_entry]))
     empty_world
   = (Raise ValueError_composite, empty_world) /\
   loads (snd (@from_yaml (sample_external 2)
                 (YamlDict (sample_config (PyInt 1)
                              [sample_entry; sample_entry; sample_entry]))
                 empty_world)) = []) /\
  @from_yaml (sample_external 2)
    (YamlDict (sample_config (PyInt 1) [sample_entry])) empty_world
  = @from_yaml (sample_external 2)
      (YamlDict (sample_config (PyInt 1)
                   [sample_entry;
                    {| sbml_files := None; measurement_files := None;
                       condition_files := None;
                       visualization_files := None;
                       observable_files := None |}]))
      empty_world.
Proof.
  exact (@composite_rejected (sample_external 2)
           (YamlDict (sample_config (PyInt 1)
                        [sample_entry; sample_entry; sample_entry]))
           empty_world
           (sample_config (PyInt 1)
              [sample_entry; sample_entry; sample_entry])
           (sample_config (PyInt 1) [sample_entry])
           (sample_config (PyInt 1)
              [sample_entry;
               {| sbml_files := None; measurement_files := None;
                  condition_files := None; visualization_files := None;
                  observable_files := None |}])
           sample_entry [] _
           eq_refl eq_refl eq_refl eq_refl eq_refl eq_refl eq_refl eq_refl).
Defined.

(** In the sample environment the deprecated loader still delivers a
    problem, after its five warnings. *)
Example from_folder_sample :
  exists problem w',
    @from_folder (sample_external 1) "models/m1" (Some "m1"%string)
      empty_world = (Ok problem, w') /\
    parameter_df problem = Some scenario_table /\
    List.length (warnings w') = 5 /\
    map snd (loads w')
    = [OneFile "models/m1/experimentalCondition_m1.tsv";
       OneFile "models/m1/measurementData_m1.tsv";
       OneFile "models/m1/parameters_m1.tsv";
       OneFile "models/m1/model_m1.xml"].
Proof.
  eexists. eexists. split; [vm_compute; reflexivity|].
  repeat split.
Qed.

(** A supported, single-problem configuration is loaded, table by table. *)
Example from_yaml_sample :
  exists problem w',
    @from_yaml (sample_external 1)
      (YamlDict (sample_config (PyInt 1) [sample_entry])) empty_world
    = (Ok problem, w') /\
    map fst (loads w')
    = [ConditionTable; MeasurementTable; ParameterTableFile; SbmlModelFile;
       ObservableTable].
Proof.
  eexists. eexists. split; [vm_compute; reflexivity|]. reflexivity.
Qed.

(* ================================================================== *)
(** * Further properties of the accessors *)

(** Masking a vector that has one entry per row keeps the entries at the
    positions of the chosen rows; [pre] is the part of the vector already
    passed. *)
Lemma mask_positions_vector {A} (P : Z -> bool) :
  forall (tbl : ParameterTable) (v pre : list A),
    List.length v = List.length tbl ->
    list_comp (getitem (pre ++ v))
      (map fst
         (filter (fun jv : nat * Z => P (snd jv))
            (combine (seq (List.length pre) (List.length tbl))
               (map estimate tbl))))
    = Ok (map snd
            (filter (fun rv : ParameterRow * A => P (estimate (fst rv)))
               (combine tbl v))).
Proof.
  induction tbl as [|r tbl IH]; intros v pre Hlen.
  - reflexivity.
  - destruct v as [|x v]; [discriminate|].
    injection Hlen as Hlen.
    specialize (IH v (pre ++ [x]) Hlen).
    rewrite <- app_assoc, length_app in IH. simpl in IH.
    rewrite Nat.add_1_r in IH.
    simpl. destruct (P (estimate r)) eqn:HP; simpl.
    + unfold getitem at 1.
      rewrite nth_error_app2 by lia. rewrite Nat.sub_diag. simpl.
      rewrite IH. reflexivity.
    + exact IH.
Qed.

Lemma filter_selected_all_pairs {A} (l : list (ParameterRow * A)) :
  filter (fun rv => selected true true (fst rv)) l = l.
Proof.
  induction l as [|rv l IH]; simpl; [reflexivity|].
  unfold selected at 1. destruct (Z.eqb (estimate (fst rv)) 0); now rewrite IH.
Qed.

Lemma filter_selected_none_pairs {A} (l : list (ParameterRow * A)) :
  filter (fun rv => selected false false (fst rv)) l = [].
Proof.
  induction l as [|rv l IH]; simpl; [reflexivity|].
  unfold selected at 1. destruct (Z.eqb (estimate (fst rv)) 0); exact IH.
Qed.

Lemma map_snd_combine_rows {A} (tbl : ParameterTable) :
  forall v : list A,
    List.length v = List.length tbl -> map snd (combine tbl v) = v.
Proof.
  induction tbl as [|r tbl IH]; intros [|x v] Hlen; try discriminate;
    simpl; [reflexivity|].
  f_equal. apply IH. now injection Hlen.
Qed.

(** X1: [_apply_mask] on any vector with one entry per table row returns
    the entries that sit at the positions of the rows the flags select, in
    order; the entries themselves are never looked at. *)
Theorem apply_mask_by_position {A} (self : Problem) (tbl : ParameterTable)
  (v : list A) (free fixed : bool) :
  parameter_df self = Some tbl ->
  List.length v = List.length tbl ->
  _apply_mask self v free fixed
  = Ok (map snd
          (filter (fun rv : ParameterRow * A => selected free fixed (fst rv))
             (combine tbl v))).
Proof.
  intros Hdf Hlen.
  unfold _apply_mask, x_fixed_indices, x_free_indices, column, enumerate.
  rewrite Hdf.
  destruct free, fixed; simpl.
  - now rewrite filter_selected_all_pairs, map_snd_combine_rows.
  - rewrite length_map.
    pose proof (mask_positions_vector (fun z => negb (Z.eqb z 0)) tbl v []
                  Hlen) as Hmask.
    simpl in Hmask. rewrite Hmask.
    do 2 f_equal; apply filter_ext; intros rv; unfold selected;
      now destruct (Z.eqb (estimate (fst rv)) 0).
  - rewrite length_map.
    pose proof (mask_positions_vector (fun z => Z.eqb z 0) tbl v [] Hlen)
      as Hmask.
    simpl in Hmask. rewrite Hmask.
    do 2 f_equal; apply filter_ext; intros rv; unfold selected;
      now destruct (Z.eqb (estimate (fst rv)) 0).
  - now rewrite filter_selected_none_pairs.
Qed.

Lemma apply_mask_by_position_witness :
  _apply_mask scenario [true; false] false true = Ok [false] /\
  _apply_mask scenario [7; 7] true false = Ok [7].
Proof.
  split.
  - exact (apply_mask_by_position scenario scenario_table [true; false]
             false true eq_refl eq_refl).
  - exact (apply_mask_by_position scenario scenario_table [7; 7]
             true false eq_refl eq_refl).
Defined.

Lemma list_comp_getitem_beyond {A} (v : list A) (ixs : list nat) j :
  In j ixs -> List.length v <= j ->
  list_comp (getitem v) ixs = Raise IndexError.
Proof.
  intros Hin Hlen. induction ixs as [|x ixs IH]; [contradiction|].
  simpl. unfold getitem at 1.
  destruct (nth_error v x) as [y|] eqn:Hx; simpl; [|reflexivity].
  destruct Hin as [-> | Hin].
  - apply nth_error_None in Hlen. rewrite Hlen in Hx. discriminate.
  - now rewrite IH.
Qed.

(** X2: when exactly one flag is set and the vector is too short to have an
    entry at the position of some selected row, [_apply_mask] raises
    [IndexError]. *)
Theorem apply_mask_short_vector {A} (self : Problem) (tbl : ParameterTable)
  (v : list A) (free fixed : bool) (j : nat) (r : ParameterRow) :
  parameter_df self = Some tbl ->
  free <> fixed ->
  nth_error tbl j = Some r ->
  selected free fixed r = true ->
  List.length v <= j ->
  _apply_mask self v free fixed = Raise IndexError.
Proof.
  intros Hdf Hflags Hj Hsel Hlen.
  unfold _apply_mask, x_fixed_indices, x_free_indices, column.
  rewrite Hdf.
  assert (Hest : nth_error (map estimate tbl) j = Some (estimate r))
    by now rewrite nth_error_map, Hj.
  unfold selected in Hsel.
  destruct free, fixed; try (exfalso; now apply Hflags); simpl.
  - apply (list_comp_getitem_beyond v _ j); [|exact Hlen].
    apply (in_picked (fun z => negb (Z.eqb z 0))).
    exists (estimate r). split; [exact Hest|].
    now destruct (Z.eqb (estimate r) 0).
  - apply (list_comp_getitem_beyond v _ j); [|exact Hlen].
    apply (in_picked (fun z => Z.eqb z 0)).
    exists (estimate r). split; [exact Hest|].
    now destruct (Z.eqb (estimate r) 0).
Qed.

Lemma apply_mask_short_vector_witness :
  _apply_mask scenario ["only"%string] false true = Raise IndexError.
Proof.
  apply (apply_mask_short_vector scenario scenario_table ["only"%string]
           false true 1
           {| parameterId := "k2"; nominalValue := 1; lowerBound := 0;
              upperBound := 5; parameterScale := LOG10; estimate := 0 |}).
  - reflexivity.
  - discriminate.
  - reflexivity.
  - reflexivity.
  - simpl. lia.
Defined.

(** X3: on a problem that holds no parameter table every accessor raises,
    whatever the flags, also [get_x_ids(free=False, fixed=False)], which
    on a table would be the empty list. *)
Theorem accessors_need_parameter_table (self : Problem)
  (free fixed scaled : bool) :
  parameter_df self = None ->
  (exists e, get_x_ids self free fixed = Raise e) /\
  (exists e, get_x_nominal self free fixed scaled = Raise e) /\
  (exists e, get_lb self free fixed scaled = Raise e) /\
  (exists e, get_ub self free fixed scaled = Raise e) /\
  (exists e, x_free_indices self = Raise e) /\
  (exists e, x_fixed_indices self = Raise e).
Proof.
  intros Hdf.
  unfold get_x_ids, get_x_nominal, get_lb, get_ub, x_free_indices,
    x_fixed_indices, column.
  rewrite Hdf. simpl. repeat split; eexists; reflexivity.
Qed.

Lemma accessors_need_parameter_table_witness :
  (exists e, get_x_ids empty_problem false false = Raise e) /\
  (exists e, get_x_nominal empty_problem false false false = Raise e) /\
  (exists e, get_lb empty_problem false false false = Raise e) /\
  (exists e, get_ub empty_problem false false false = Raise e) /\
  (exists e, x_free_indices empty_problem = Raise e) /\
  (exists e, x_fixed_indices empty_problem = Raise e).
Proof.
  exact (accessors_need_parameter_table empty_problem false false false
           eq_refl).
Defined.

(** X4: the unscaled accessors line up entry by entry: for any flags,
    [get_x_ids], [get_x_nominal], [get_lb] and [get_ub] return the id,
    nominal value, lower bound and upper bound of the same rows, the ones
    the flags select, in table order. *)
Theorem unscaled_accessors_align (self : Problem) (tbl : ParameterTable)
  (free fixed : bool) :
  parameter_df self = Some tbl ->
  get_x_ids self free fixed
  = Ok (map parameterId (filter (selected free fixed) tbl)) /\
  get_x_nominal self free fixed false
  = Ok (map nominalValue (filter (selected free fixed) tbl)) /\
  get_lb self free fixed false
  = Ok (map lowerBound (filter (selected free fixed) tbl)) /\
  get_ub self free fixed false
  = Ok (map upperBound (filter (selected free fixed) tbl)).
Proof.
  intros Hdf.
  unfold get_x_ids, get_x_nominal, get_lb, get_ub, column.
  rewrite Hdf. simpl.
  rewrite !apply_mask_rows by assumption.
  repeat split.
Qed.

Lemma unscaled_accessors_align_witness :
  get_x_ids scenario false true = Ok ["k2"%string] /\
  get_x_nominal scenario false true false = Ok [1%R] /\
  get_lb scenario false true false = Ok [0%R] /\
  get_ub scenario false true false = Ok [5%R].
Proof.
  exact (unscaled_accessors_align scenario scenario_table false true
           eq_refl).
Defined.

Lemma picked_ascending {A} (q : nat * A -> bool) :
  forall (l : list A) a n,
    StronglySorted lt (map fst (filter q (combine (seq a n) l))) /\
    Forall (fun j => a <= j < a + n)
      (map fst (filter q (combine (seq a n) l))).
Proof.
  intros l a n. revert l a.
  induction n as [|n IH]; intros l a; simpl.
  - split; constructor.
  - destruct l as [|x l]; simpl; [split; constructor|].
    destruct (IH l (S a)) as [Hs Hr].
    assert (Hr' : Forall (fun j => a <= j < a + S n)
                    (map fst (filter q (combine (seq (S a) n) l)))).
    { eapply Forall_impl; [|exact Hr]. simpl. intros j Hj. lia. }
    destruct (q (a, x)); simpl.
    + split.
      * constructor; [exact Hs|].
        eapply Forall_impl; [|exact Hr]. simpl. intros j Hj. lia.
      * constructor; [lia | exact Hr'].
    + split; assumption.
Qed.

(** X5: [x_free_indices] and [x_fixed_indices] are strictly ascending
    lists of positions below the number of rows. *)
Theorem indices_ascending_in_range (self : Problem) (tbl : ParameterTable) :
  parameter_df self = Some tbl ->
  exists free fixed,
    x_free_indices self = Ok free /\
    x_fixed_indices self = Ok fixed /\
    StronglySorted lt free /\ StronglySorted lt fixed /\
    Forall (fun j => j < List.length tbl) free /\
    Forall (fun j => j < List.length tbl) fixed.
Proof.
  intros Hdf. unfold x_free_indices, x_fixed_indices, column, enumerate.
  rewrite Hdf. simpl. rewrite length_map.
  eexists. eexists. split; [reflexivity|]. split; [reflexivity|].
  destruct (picked_ascending
              (fun jv : nat * Z => negb (Z.eqb (snd jv) 0))
              (map estimate tbl) 0 (List.length tbl)) as [Hs1 Hr1].
  destruct (picked_ascending
              (fun jv : nat * Z => Z.eqb (snd jv) 0)
              (map estimate tbl) 0 (List.length tbl)) as [Hs2 Hr2].
  repeat split; try assumption.
  - eapply Forall_impl; [|exact Hr1]. simpl. intros j Hj. lia.
  - eapply Forall_impl; [|exact Hr2]. simpl. intros j Hj. lia.
Qed.

Lemma indices_ascending_in_range_witness :
  exists free fixed,
    x_free_indices scenario = Ok free /\
    x_fixed_indices scenario = Ok fixed /\
    StronglySorted lt free /\ StronglySorted lt fixed /\
    Forall (fun j => j < List.length scenario_table) free /\
    Forall (fun j => j < List.length scenario_table) fixed.
Proof.
  exact (indices_ascending_in_range scenario scenario_table eq_refl).
Defined.

Lemma rows_partition (tbl : ParameterTable) :
  Permutation (filter is_free tbl ++ filter is_fixed tbl) tbl.
Proof.
  induction tbl as [|r tbl IH]; simpl; [constructor|].
  unfold is_free at 1, is_fixed at 1.
  destruct (Z.eqb (estimate r) 0); simpl.
  - apply Permutation_sym, Permutation_cons_app, Permutation_sym, IH.
  - now constructor.
Qed.

Lemma NoDup_app_disjoint {A} (l1 l2 : list A) x :
  NoDup (l1 ++ l2) -> In x l1 -> ~ In x l2.
Proof.
  induction l1 as [|y l1 IH]; simpl; intros Hnd Hin; [contradiction|].
  inversion Hnd as [|? ? Hfresh Hnd']; subst.
  destruct Hin as [-> | Hin].
  - intros Hx. apply Hfresh. apply in_or_app. now right.
  - now apply IH.
Qed.

(** X6: [x_free_ids] and [x_fixed_ids] together hold the ids of [x_ids],
    each as often as it occurs there; when the ids of the table are
    unique, no id is both free and fixed, and every id is one of the
    two. *)
Theorem free_fixed_ids_partition (self : Problem) (tbl : ParameterTable) :
  parameter_df self = Some tbl ->
  exists free_ids fixed_ids ids,
    x_free_ids self = Ok free_ids /\
    x_fixed_ids self = Ok fixed_ids /\
    x_ids self = Ok ids /\
    Permutation (free_ids ++ fixed_ids) ids /\
    (NoDup ids ->
     forall k, In k ids -> (In k free_ids <-> ~ In k fixed_ids)).
Proof.
  intros Hdf. unfold x_free_ids, x_fixed_ids, x_ids. simpl kwarg.
  rewrite !(fun a b => get_x_ids_rows self tbl a b Hdf).
  rewrite filter_selected_all, filter_selected_free, filter_selected_fixed.
  eexists. eexists. eexists.
  split; [reflexivity|]. split; [reflexivity|]. split; [reflexivity|].
  assert (Hperm : Permutation
                    (map parameterId (filter is_free tbl)
                       ++ map parameterId (filter is_fixed tbl))
                    (map parameterId tbl)).
  { rewrite <- map_app. apply Permutation_map. apply rows_partition. }
  split; [exact Hperm|].
  intros Hnd k Hk.
  assert (Hnd' : NoDup (map parameterId (filter is_free tbl)
                          ++ map parameterId (filter is_fixed tbl))).
  { eapply Permutation_NoDup; [apply Permutation_sym; exact Hperm|].
    exact Hnd. }
  split.
  - intros Hfree. now apply (NoDup_app_disjoint _ _ k Hnd').
  - intros Hnot.
    apply (Permutation_in k (Permutation_sym Hperm)) in Hk.
    apply in_app_or in Hk. destruct Hk as [Hk | Hk];
      [exact Hk | contradiction].
Qed.

Lemma free_fixed_ids_partition_witness :
  exists free_ids fixed_ids ids,
    x_free_ids scenario = Ok free_ids /\
    x_fixed_ids scenario = Ok fixed_ids /\
    x_ids scenario = Ok ids /\
    Permutation (free_ids ++ fixed_ids) ids /\
    (NoDup ids ->
     forall k, In k ids -> (In k free_ids <-> ~ In k fixed_ids)).
Proof.
  exact (free_fixed_ids_partition scenario scenario_table eq_refl).
Defined.

Lemma list_comp_getitem_nth {A} (v : list A) :
  forall ixs part,
    list_comp (getitem v) ixs = Ok part ->
    List.length part = List.length ixs /\
    forall j i, nth_error ixs j = Some i ->
                nth_error part j = nth_error v i /\ i < List.length v.
Proof.
  induction ixs as [|x ixs IH]; intros part; simpl.
  - intros [= <-]. split; [reflexivity|]. intros [|j] i; discriminate.
  - unfold getitem at 1.
    destruct (nth_error v x) as [y|] eqn:Hx; simpl; [|discriminate].
    destruct (list_comp (getitem v) ixs) as [rest|e]; simpl; [|discriminate].
    intros [= <-]. destruct (IH rest eq_refl) as [Hlen Hnth].
    split; [simpl; now rewrite Hlen|].
    intros [|j] i; simpl.
    + intros [= <-]. split; [now rewrite Hx|].
      apply nth_error_Some. rewrite Hx. discriminate.
    + apply Hnth.
Qed.

(** X7: the masked nominal values are the full vector read at the index
    lists, with or without scaling: whenever the calls return,
    [x_nominal_free[j] == x_nominal[x_free_indices[j]]] and
    [x_nominal_fixed[j] == x_nominal[x_fixed_indices[j]]], entry for entry,
    and likewise for the scaled vectors. *)
Theorem nominal_parts_index_full (self : Problem) (scaled : bool)
  (full free_part fixed_part : list R) (free fixed : list nat) :
  get_x_nominal self (kwarg None) (kwarg None) scaled = Ok full ->
  get_x_nominal self (kwarg None) (kwarg (Some false)) scaled
  = Ok free_part ->
  get_x_nominal self (kwarg (Some false)) (kwarg None) scaled
  = Ok fixed_part ->
  x_free_indices self = Ok free ->
  x_fixed_indices self = Ok fixed ->
  List.length free_part = List.length free /\
  List.length fixed_part = List.length fixed /\
  (forall j i, nth_error free j = Some i ->
               nth_error free_part j = nth_error full i /\
               i < List.length full) /\
  (forall j i, nth_error fixed j = Some i ->
               nth_error fixed_part j = nth_error full i /\
               i < List.length full).
Proof.
  unfold get_x_nominal. simpl kwarg.
  destruct (column self nominalValue) as [v0|e]; simpl; [|discriminate].
  destruct (if scaled
            then scales <- column self parameterScale ;;
                 parameters.map_scale v0 scales
            else Ok v0) as [v|e]; simpl; [|discriminate].
  unfold _apply_mask. simpl.
  intros [= <-] Hfree_part Hfixed_part Hfree Hfixed.
  rewrite Hfree in Hfree_part. rewrite Hfixed in Hfixed_part.
  simpl in Hfree_part, Hfixed_part.
  destruct (list_comp_getitem_nth v free free_part Hfree_part) as [Hl1 Hn1].
  destruct (list_comp_getitem_nth v fixed fixed_part Hfixed_part)
    as [Hl2 Hn2].
  split; [exact Hl1|]. split; [exact Hl2|]. split; assumption.
Qed.

Lemma nominal_parts_index_full_witness :
  List.length [2%R] = List.length [0] /\
  List.length [1%R] = List.length [1] /\
  (forall j i, nth_error [0] j = Some i ->
               nth_error [2%R] j = nth_error [2%R; 1%R] i /\
               i < List.length [2%R; 1%R]) /\
  (forall j i, nth_error [1] j = Some i ->
               nth_error [1%R] j = nth_error [2%R; 1%R] i /\
               i < List.length [2%R; 1%R]).
Proof.
  exact (nominal_parts_index_full scenario false [2%R; 1%R] [2%R] [1%R]
           [0] [1] eq_refl eq_refl eq_refl eq_refl eq_refl).
Defined.

(* ================================================================== *)
(** * Further properties of the dictionary transforms *)

Lemma dict_comp_pure_rejects (f : string -> R -> result R) items :
  forall acc k v e,
    In (k, v) items -> f k v = Raise e ->
    exists e', dict_comp_pure f items acc = Raise e'.
Proof.
  induction items as [|[k0 v0] items IH]; intros acc k v e Hin Hf;
    [contradiction|].
  simpl. destruct (f k0 v0) as [y|e0] eqn:Hf0; simpl.
  - destruct Hin as [[= -> ->] | Hin].
    + rewrite Hf in Hf0. discriminate.
    + now apply (IH _ k v e).
  - now exists e0.
Qed.

Lemma entry_result_unknown self tbl (op : R -> scale_kind -> result R) k v :
  parameter_df self = Some tbl ->
  ~ In k (map parameterId tbl) ->
  entry_result self op k v = Raise (KeyError k).
Proof.
  intros Hdf Hk. unfold entry_result, series_getitem.
  rewrite Hdf, filter_label_absent by assumption. reflexivity.
Qed.

(** X8: a dictionary with a key that is no parameter id of the table is
    rejected by [scale_parameters] and by [unscale_parameters]: the call
    raises, no dictionary is created and nothing in the store changes; when
    the offending key is the first one, the exception is its [KeyError]. *)
Theorem unknown_key_rejected (st : Store) (tbl : ParameterTable)
  (x_dict : dict_ref) (d : PyDict) (k : string) :
  parameter_df (self_obj st) = Some tbl ->
  nth_error (dicts st) x_dict = Some d ->
  In k (map fst d) ->
  ~ In k (map parameterId tbl) ->
  (exists e, scale_parameters x_dict st = (Raise e, st)) /\
  (exists e, unscale_parameters x_dict st = (Raise e, st)) /\
  (forall v rest, d = (k, v) :: rest ->
                  scale_parameters x_dict st = (Raise (KeyError k), st) /\
                  unscale_parameters x_dict st = (Raise (KeyError k), st)).
Proof.
  intros Hdf Hd Hin Hk.
  apply in_map_iff in Hin. destruct Hin as ([k' v] & Hk' & Hin).
  simpl in Hk'. subst k'.
  unfold scale_parameters, unscale_parameters.
  rewrite (transform_run parameters.scale x_dict st d Hd).
  rewrite (transform_run parameters.unscale x_dict st d Hd).
  split; [|split].
  - destruct (dict_comp_pure_rejects
                (entry_result (self_obj st) parameters.scale) d [] k v
                (KeyError k) Hin
                (entry_result_unknown _ tbl _ k v Hdf Hk)) as [e ->].
    now exists e.
  - destruct (dict_comp_pure_rejects
                (entry_result (self_obj st) parameters.unscale) d [] k v
                (KeyError k) Hin
                (entry_result_unknown _ tbl _ k v Hdf Hk)) as [e ->].
    now exists e.
  - intros v' rest ->. simpl.
    rewrite !(entry_result_unknown _ tbl _ k v' Hdf Hk). now split.
Qed.

Lemma unknown_key_rejected_witness :
  (exists e,
      scale_parameters 0
        {| self_obj := scenario;
           dicts := [[("k1"%string, 2%R); ("k9"%string, 1%R)]] |}
      = (Raise e,
         {| self_obj := scenario;
            dicts := [[("k1"%string, 2%R); ("k9"%string, 1%R)]] |})) /\
  (exists e,
      unscale_parameters 0
        {| self_obj := scenario;
           dicts := [[("k1"%string, 2%R); ("k9"%string, 1%R)]] |}
      = (Raise e,
         {| self_obj := scenario;
            dicts := [[("k1"%string, 2%R); ("k9"%string, 1%R)]] |})).
Proof.
  assert (Hk : ~ In "k9"%string (map parameterId scenario_table)).
  { simpl. intros [H | [H | []]]; discriminate H. }
  destruct (unknown_key_rejected
              {| self_obj := scenario;
                 dicts := [[("k1"%string, 2%R); ("k9"%string, 1%R)]] |}
              scenario_table 0 [("k1"%string, 2%R); ("k9"%string, 1%R)]
              "k9" eq_refl eq_refl (or_intror (or_introl eq_refl)) Hk)
    as (Hs & Hu & _).
  split; assumption.
Defined.

(** X9: on an empty dictionary [scale_parameters] and
    [unscale_parameters] return a new empty dictionary without consulting
    the parameter table, so also on a problem that has none; on a
    non-empty dictionary a problem without parameter table makes both
    raise and leaves the store as it is. *)
Theorem transforms_without_lookup (st : Store) (x_dict : dict_ref)
  (d : PyDict) :
  nth_error (dicts st) x_dict = Some d ->
  (d = [] ->
   scale_parameters x_dict st
   = (Ok (List.length (dicts st)),
      {| self_obj := self_obj st; dicts := dicts st ++ [[]] |}) /\
   unscale_parameters x_dict st
   = (Ok (List.length (dicts st)),
      {| self_obj := self_obj st; dicts := dicts st ++ [[]] |})) /\
  (d <> [] -> parameter_df (self_obj st) = None ->
   scale_parameters x_dict st = (Raise TypeError_NoneType, st) /\
   unscale_parameters x_dict st = (Raise TypeError_NoneType, st)).
Proof.
  intros Hd.
  unfold scale_parameters, unscale_parameters.
  rewrite (transform_run parameters.scale x_dict st d Hd).
  rewrite (transform_run parameters.unscale x_dict st d Hd).
  split.
  - intros ->. now split.
  - intros Hne Hdf. destruct d as [|[k v] d]; [contradiction|].
    simpl. unfold entry_result, series_getitem. rewrite Hdf. now split.
Qed.

Lemma transforms_without_lookup_witness :
  scale_parameters 0 {| self_obj := empty_problem; dicts := [[]] |}
  = (Ok 1, {| self_obj := empty_problem; dicts := [[]; []] |}) /\
  unscale_parameters 0 {| self_obj := empty_problem; dicts := [[]] |}
  = (Ok 1, {| self_obj := empty_problem; dicts := [[]; []] |}).
Proof.
  exact (proj1 (transforms_without_lookup
                  {| self_obj := empty_problem; dicts := [[]] |} 0 []
                  eq_refl) eq_refl).
Defined.

(* ================================================================== *)
(** * Further properties of the loaders *)

Lemma bind_ok_inv {S A B} (c : M S A) (k : A -> M S B) s b s'' :
  bind c k s = (Ok b, s'') ->
  exists a s', c s = (Ok a, s') /\ k a s' = (Ok b, s'').
Proof.
  unfold bind. destruct (c s) as [[a | e] s']; [|discriminate].
  intros Hk. now exists a, s'.
Qed.

Lemma follows_plan_ret {A} (a : A) : follows_plan [] (@ret World A a).
Proof.
  intros w. simpl. rewrite app_nil_r. now repeat split.
Qed.

Lemma follows_plan_load_if {A B} kind (reader : file_arg -> outcome A) file
  (k : option A -> M World B) raw :
  (forall o, follows_plan (filter (fun l => truthy (snd l)) raw) (k o)) ->
  follows_plan (filter (fun l => truthy (snd l)) ((kind, file) :: raw))
    (bind (load_if kind reader file) k).
Proof.
  intros Hk w. unfold bind, load_if. simpl filter.
  destruct (truthy file) eqn:Htruthy.
  - unfold bind, load, ret. destruct (reader file) as [a | msg]; simpl.
    + destruct (Hk (Some a)
                  {| yaml_reads := yaml_reads w;
                     loads := loads w ++ [(kind, file)];
                     warnings := warnings w |}) as (Hy & Hw & Hl).
      simpl in Hy, Hw, Hl. split; [exact Hy|]. split; [exact Hw|].
      destruct (fst (k (Some a) _)) as [b | e].
      * rewrite Hl. now rewrite <- app_assoc.
      * destruct Hl as (Hext & n & Hn & Hl). split; [exact Hext|].
        exists (S n). split; [simpl; lia|].
        rewrite Hl. now rewrite <- app_assoc.
    + split; [reflexivity|]. split; [reflexivity|].
      split; [now exists msg|]. exists 0. split; [simpl; lia|].
      reflexivity.
  - exact (Hk None w).
Qed.

Lemma from_files_follows_plan `{External} f1 f2 f3 f4 f5 f6 :
  follows_plan (planned_loads f1 f2 f3 f4 f5 f6)
    (from_files f1 f2 f3 f4 f5 f6).
Proof.
  unfold from_files, planned_loads.
  repeat (apply follows_plan_load_if; intros ?).
  apply follows_plan_ret.
Qed.

Lemma load_if_ok_inv {A} kind (reader : file_arg -> outcome A) file w o w' :
  load_if kind reader file w = (Ok o, w') ->
  is_set o = truthy file /\
  (forall a, o = Some a -> reader file = Returned a).
Proof.
  unfold load_if. destruct (truthy file).
  - unfold bind, load, ret. destruct (reader file) as [a | msg]; simpl;
      [|discriminate].
    intros [= <- _]. split; [reflexivity|]. now intros a' [= <-].
  - unfold ret. intros [= <- _]. split; [reflexivity|]. discriminate.
Qed.

(** What a returning [from_files] has done. *)
Lemma from_files_ok_inv `{External}
  (sbml_file condition_file measurement_file parameter_file
   visualization_files observable_files : file_arg)
  (w w' : World) (problem : Problem) :
  from_files sbml_file condition_file measurement_file parameter_file
    visualization_files observable_files w = (Ok problem, w') ->
  loads w' = loads w ++ planned_loads sbml_file condition_file
                          measurement_file parameter_file
                          visualization_files observable_files /\
  yaml_reads w' = yaml_reads w /\ warnings w' = warnings w /\
  is_set (condition_df problem) = truthy condition_file /\
  is_set (measurement_df problem) = truthy measurement_file /\
  is_set (parameter_df problem) = truthy parameter_file /\
  is_set (sbml_model problem) = truthy sbml_file /\
  is_set (sbml_document problem) = truthy sbml_file /\
  is_set (sbml_reader problem) = truthy sbml_file /\
  is_set (visualization_df problem) = truthy visualization_files /\
  is_set (observable_df problem) = truthy observable_files /\
  (forall t, parameter_df problem = Some t ->
             parameters_get_parameter_df parameter_file = Returned t) /\
  (forall t, condition_df problem = Some t ->
             conditions_get_condition_df condition_file = Returned t) /\
  (forall t, measurement_df problem = Some t ->
             core_concat_tables MeasurementTable measurement_file
             = Returned t) /\
  (forall t, visualization_df problem = Some t ->
             core_concat_tables VisualizationTable visualization_files
             = Returned t) /\
  (forall t, observable_df problem = Some t ->
             core_concat_tables ObservableTable observable_files
             = Returned t) /\
  (truthy sbml_file = true ->
   exists reader document model,
     sbml_get_sbml_model sbml_file = Returned (reader, document, model) /\
     sbml_reader problem = Some reader /\
     sbml_document problem = Some document /\
     sbml_model problem = Some model).
Proof.
  intros Hrun.
  pose proof (from_files_follows_plan sbml_file condition_file
                measurement_file parameter_file visualization_files
                observable_files w) as (Hy & Hw & Hl).
  rewrite Hrun in Hy, Hw, Hl. simpl in Hy, Hw, Hl.
  split; [exact Hl|]. split; [exact Hy|]. split; [exact Hw|].
  unfold from_files in Hrun.
  apply bind_ok_inv in Hrun. destruct Hrun as (c & w1 & Hc & Hrun).
  apply bind_ok_inv in Hrun. destruct Hrun as (m & w2 & Hm & Hrun).
  apply bind_ok_inv in Hrun. destruct Hrun as (p & w3 & Hp & Hrun).
  apply bind_ok_inv in Hrun. destruct Hrun as (s & w4 & Hs & Hrun).
  apply bind_ok_inv in Hrun. destruct Hrun as (v & w5 & Hv & Hrun).
  apply bind_ok_inv in Hrun. destruct Hrun as (o & w6 & Ho & Hrun).
  unfold ret in Hrun. injection Hrun as <- _. simpl.
  apply load_if_ok_inv in Hc, Hm, Hp, Hs, Hv, Ho.
  destruct Hc as [Hc Hc'], Hm as [Hm Hm'], Hp as [Hp Hp'], Hs as [Hs Hs'],
    Hv as [Hv Hv'], Ho as [Ho Ho'].
  repeat split; try assumption;
    try (destruct s; simpl in *; assumption).
  intros Htruthy. rewrite Htruthy in Hs.
  destruct s as [[[reader document] model]|]; [|discriminate Hs].
  exists reader, document, model. split; [now apply Hs'|]. now repeat split.
Qed.

(** X10: when [from_files] returns, it has loaded exactly the files given
    by non-empty arguments, in the order condition, measurement, parameter,
    SBML, visualization, observable; it has parsed no YAML file and issued
    no warning; and every attribute of the problem is set exactly when
    its argument was non-empty, to what its reader returned for that
    argument: the five tables each to their reader's table, the three SBML
    attributes to the reader, document and model of [get_sbml_model]. *)
Theorem from_files_success `{External}
  (sbml_file condition_file measurement_file parameter_file
   visualization_files observable_files : file_arg)
  (w w' : World) (problem : Problem) :
  from_files sbml_file condition_file measurement_file parameter_file
    visualization_files observable_files w = (Ok problem, w') ->
  loads w' = loads w ++ planned_loads sbml_file condition_file
                          measurement_file parameter_file
                          visualization_files observable_files /\
  yaml_reads w' = yaml_reads w /\ warnings w' = warnings w /\
  is_set (condition_df problem) = truthy condition_file /\
  is_set (measurement_df problem) = truthy measurement_file /\
  is_set (parameter_df problem) = truthy parameter_file /\
  is_set (sbml_model problem) = truthy sbml_file /\
  is_set (sbml_document problem) = truthy sbml_file /\
  is_set (sbml_reader problem) = truthy sbml_file /\
  is_set (visualization_df problem) = truthy visualization_files /\
  is_set (observable_df problem) = truthy observable_files /\
  (forall t, parameter_df problem = Some t ->
             parameters_get_parameter_df parameter_file = Returned t) /\
  (forall t, condition_df problem = Some t ->
             conditions_get_condition_df condition_file = Returned t) /\
  (forall t, measurement_df problem = Some t ->
             core_concat_tables MeasurementTable measurement_file
             = Returned t) /\
  (forall t, visualization_df problem = Some t ->
             core_concat_tables VisualizationTable visualization_files
             = Returned t) /\
  (forall t, observable_df problem = Some t ->
             core_concat_tables ObservableTable observable_files
             = Returned t) /\
  (truthy sbml_file = true ->
   exists reader document model,
     sbml_get_sbml_model sbml_file = Returned (reader, document, model) /\
     sbml_reader problem = Some reader /\
     sbml_document problem = Some document /\
     sbml_model problem = Some model).
Proof.
  intros Hrun.
  exact (from_files_ok_inv sbml_file condition_file measurement_file
           parameter_file visualization_files observable_files w w' problem
           Hrun).
Qed.

Lemma from_files_success_witness :
  exists problem w',
    @from_files (sample_external 1) (OneFile "model.xml") NoFile
      (ManyFiles []) (OneFile "parameters.tsv") NoFile (OneFile "")
      empty_world = (Ok problem, w') /\
    loads w' = [(ParameterTableFile, OneFile "parameters.tsv");
                (SbmlModelFile, OneFile "model.xml")] /\
    is_set (condition_df problem) = false /\
    is_set (parameter_df problem) = true /\
    is_set (observable_df problem) = false.
Proof.
  eexists. eexists. split; [vm_compute; reflexivity|].
  pose proof (@from_files_success (sample_external 1) (OneFile "model.xml")
                NoFile (ManyFiles []) (OneFile "parameters.tsv") NoFile
                (OneFile "") empty_world _ _ eq_refl) as Hfacts.
  destruct Hfacts
    as (Hl & _ & _ & Hc & _ & Hp & _ & _ & _ & _ & Ho & _).
  split; [exact Hl|]. split; [exact Hc|]. split; [exact Hp | exact Ho].
Defined.

Lemma stops_at_failure_ret `{External} {A} (a : A) :
  stops_at_failure [] (@ret World A a).
Proof. intros w e. discriminate. Qed.

Lemma stops_at_failure_load_if `{External} {A B} kind
  (reader : file_arg -> outcome A) file (k : option A -> M World B) raw :
  reader_failure (kind, file) = failure_of (reader file) ->
  (forall o, stops_at_failure (filter (fun l => truthy (snd l)) raw) (k o)) ->
  stops_at_failure (filter (fun l => truthy (snd l)) ((kind, file) :: raw))
    (bind (load_if kind reader file) k).
Proof.
  intros Hreader Hk w e. unfold bind, load_if. simpl filter.
  destruct (truthy file) eqn:Htruthy.
  - unfold bind, load, ret.
    destruct (reader file) as [a | msg] eqn:Hread; simpl.
    + intros Hraise.
      destruct (Hk (Some a) _ e Hraise)
        as (n & load & msg & Hnth & Hfail & He & Hbefore & Hl).
      exists (S n), load, msg. simpl in Hl.
      split; [exact Hnth|]. split; [exact Hfail|]. split; [exact He|].
      split.
      * intros load' [<- | Hin]; [now rewrite Hreader | now apply Hbefore].
      * rewrite Hl. simpl. now rewrite <- app_assoc.
    + intros [= <-]. exists 0, (kind, file), msg.
      split; [reflexivity|]. split; [now rewrite Hreader|].
      split; [reflexivity|]. split; [intros load' []|]. reflexivity.
  - apply Hk.
Qed.

Lemma from_files_stops_at_failure `{External} f1 f2 f3 f4 f5 f6 :
  stops_at_failure (planned_loads f1 f2 f3 f4 f5 f6)
    (from_files f1 f2 f3 f4 f5 f6).
Proof.
  unfold from_files, planned_loads.
  repeat (apply stops_at_failure_load_if; [reflexivity | intros ?]).
  apply stops_at_failure_ret.
Qed.

(** X11: when [from_files] raises, the exception is the failure of the
    reader of one of the planned loads; the readers of all planned loads
    before that one returned; the loads on record are the planned ones up
    to that one, which is the last recorded, so nothing was loaded after
    the failure; and no YAML file was parsed and no warning issued. *)
Theorem from_files_failure `{External}
  (sbml_file condition_file measurement_file parameter_file
   visualization_files observable_files : file_arg)
  (w w' : World) (e : exn) :
  from_files sbml_file condition_file measurement_file parameter_file
    visualization_files observable_files w = (Raise e, w') ->
  (exists n load msg,
      nth_error (planned_loads sbml_file condition_file measurement_file
                   parameter_file visualization_files observable_files) n
      = Some load /\
      reader_failure load = Some msg /\
      e = ExternalError msg /\
      (forall load',
          In load' (firstn n (planned_loads sbml_file condition_file
                                measurement_file parameter_file
                                visualization_files observable_files)) ->
          reader_failure load' = None) /\
      loads w'
      = loads w
          ++ firstn n (planned_loads sbml_file condition_file
                         measurement_file parameter_file
                         visualization_files observable_files)
          ++ [load]) /\
  yaml_reads w' = yaml_reads w /\ warnings w' = warnings w.
Proof.
  intros Hrun.
  pose proof (from_files_follows_plan sbml_file condition_file
                measurement_file parameter_file visualization_files
                observable_files w) as (Hy & Hw & _).
  pose proof (from_files_stops_at_failure sbml_file condition_file
                measurement_file parameter_file visualization_files
                observable_files w e) as Hstop.
  rewrite Hrun in Hy, Hw, Hstop. simpl in Hy, Hw, Hstop.
  split; [exact (Hstop eq_refl) | now split].
Qed.

Lemma from_files_failure_witness :
  (exists n load msg,
      nth_error [(ConditionTable, OneFile "conditions.tsv");
                 (MeasurementTable, OneFile "measurements.tsv");
                 (ParameterTableFile, OneFile "parameters.tsv");
                 (SbmlModelFile, OneFile "model.xml")] n = Some load /\
      @reader_failure unreadable_external load = Some msg /\
      ExternalError "unreadable" = ExternalError msg /\
      (forall load',
          In load' (firstn n [(ConditionTable, OneFile "conditions.tsv");
                              (MeasurementTable,
                               OneFile "measurements.tsv");
                              (ParameterTableFile,
                               OneFile "parameters.tsv");
                              (SbmlModelFile, OneFile "model.xml")]) ->
          @reader_failure unreadable_external load' = None) /\
      [(ConditionTable, OneFile "conditions.tsv");
       (MeasurementTable, OneFile "measurements.tsv")]
      = [] ++ firstn n [(ConditionTable, OneFile "conditions.tsv");
                        (MeasurementTable, OneFile "measurements.tsv");
                        (ParameterTableFile, OneFile "parameters.tsv");
                        (SbmlModelFile, OneFile "model.xml")]
           ++ [load]) /\
  @nil string = [] /\ @nil (warning_category * string) = [].
Proof.
  exact (@from_files_failure unreadable_external (OneFile "model.xml")
           (OneFile "conditions.tsv") (OneFile "measurements.tsv")
           (OneFile "parameters.tsv") NoFile NoFile empty_world
           {| yaml_reads := [];
              loads := [(ConditionTable, OneFile "conditions.tsv");
                        (MeasurementTable, OneFile "measurements.tsv")];
              warnings := [] |}
           (ExternalError "unreadable") eq_refl).
Defined.

(** X12: called with nothing to load (every argument [None], an empty
    string or an empty list), [from_files] returns a problem whose
    attributes are all [None] and touches nothing. *)
Theorem from_files_nothing_to_load `{External}
  (sbml_file condition_file measurement_file parameter_file
   visualization_files observable_files : file_arg) (w : World) :
  truthy sbml_file = false -> truthy condition_file = false ->
  truthy measurement_file = false -> truthy parameter_file = false ->
  truthy visualization_files = false -> truthy observable_files = false ->
  from_files sbml_file condition_file measurement_file parameter_file
    visualization_files observable_files w = (Ok empty_problem, w).
Proof.
  intros Hs Hc Hm Hp Hv Ho. unfold from_files, load_if.
  rewrite Hs, Hc, Hm, Hp, Hv, Ho. reflexivity.
Qed.

Lemma from_files_nothing_to_load_witness :
  @from_files (sample_external 1) NoFile (OneFile "") (ManyFiles []) NoFile
    NoFile NoFile empty_world = (Ok empty_problem, empty_world).
Proof.
  exact (@from_files_nothing_to_load (sample_external 1) NoFile (OneFile "")
           (ManyFiles []) NoFile NoFile NoFile empty_world
           eq_refl eq_refl eq_refl eq_refl eq_refl eq_refl).
Defined.

Section MoreLoading.

Context {E : External}.

(** [from_yaml_files] either stops at a defect of the configuration, with
    the world untouched, or hands over to [from_files]. *)
Lemma from_yaml_files_run (config : YamlConfig) (g : string -> string)
  (w : World) :
  from_yaml_files config g w
  = match problems config with
    | None => (Raise (KeyError_yaml PROBLEMS), w)
    | Some [] => (Raise IndexError, w)
    | Some (p0 :: _) =>
        match external (yaml_assert_single_condition_and_sbml_file p0) with
        | Raise e => (Raise e, w)
        | Ok _ =>
            match parameter_file config with
            | None => (Raise (KeyError_yaml PARAMETER_FILE), w)
            | Some pf =>
                match sbml_files p0 with
                | None => (Raise (KeyError_yaml SBML_FILES), w)
                | Some [] => (Raise IndexError, w)
                | Some (sbml0 :: _) =>
                    match measurement_files p0 with
                    | None => (Raise (KeyError_yaml MEASUREMENT_FILES), w)
                    | Some meas =>
                        match condition_files p0 with
                        | None => (Raise (KeyError_yaml CONDITION_FILES), w)
                        | Some [] => (Raise IndexError, w)
                        | Some (cond0 :: _) =>
                            from_files
                              (OneFile (g sbml0)) (OneFile (g cond0))
                              (ManyFiles (map g meas))
                              (parameter_file_arg g pf)
                              (ManyFiles
                                 (map g (yaml_get_list
                                           (visualization_files p0))))
                              (ManyFiles
                                 (map g (yaml_get_list
                                           (observable_files p0))))
                              w
                        end
                    end
                end
            end
        end
    end.
Proof.
  unfold from_yaml_files, bind, lift.
  destruct (problems config) as [[|p0 rest]|]; simpl; try reflexivity.
  destruct (external (yaml_assert_single_condition_and_sbml_file p0));
    simpl; try reflexivity.
  destruct (parameter_file config) as [pf|]; simpl; try reflexivity.
  destruct (sbml_files p0) as [[|sbml0 srest]|]; simpl; try reflexivity.
  destruct (measurement_files p0) as [meas|]; simpl; try reflexivity.
  destruct (condition_files p0) as [[|cond0 crest]|]; simpl; reflexivity.
Qed.

(** A defect found by [from_yaml_files] itself leaves the world alone; an
    exception with a changed world is a reader's. *)
Lemma from_yaml_files_raise (config : YamlConfig) (g : string -> string)
  (w w' : World) (e : exn) :
  from_yaml_files config g w = (Raise e, w') ->
  (forall msg, e <> ExternalError msg) ->
  w' = w.
Proof.
  rewrite from_yaml_files_run. intros Hrun Hnot.
  destruct (problems config) as [[|p0 rest]|];
    try (now injection Hrun as _ <-).
  destruct (external (yaml_assert_single_condition_and_sbml_file p0));
    try (now injection Hrun as _ <-).
  destruct (parameter_file config) as [pf|];
    try (now injection Hrun as _ <-).
  destruct (sbml_files p0) as [[|sbml0 srest]|];
    try (now injection Hrun as _ <-).
  destruct (measurement_files p0) as [meas|];
    try (now injection Hrun as _ <-).
  destruct (condition_files p0) as [[|cond0 crest]|];
    try (now injection Hrun as _ <-).
  exfalso.
  pose proof (from_files_follows_plan
                (OneFile (g sbml0)) (OneFile (g cond0))
                (ManyFiles (map g meas)) (parameter_file_arg g pf)
                (ManyFiles (map g (yaml_get_list (visualization_files p0))))
                (ManyFiles (map g (yaml_get_list (observable_files p0))))
                w) as (_ & _ & Hl).
  rewrite Hrun in Hl. simpl in Hl. destruct Hl as [[msg ->] _].
  now apply (Hnot msg).
Qed.

(** X13: a defect of the configuration is found before anything is
    loaded: whenever [from_yaml] raises an exception of its own (not one
    of a reader or of another module), no table and no model has been
    loaded; and [from_yaml] never issues a warning. *)
Theorem from_yaml_defects_before_loading (yaml_config : yaml_input)
  (w w' : World) (e : exn) :
  from_yaml yaml_config w = (Raise e, w') ->
  warnings w' = warnings w /\
  ((forall msg, e <> ExternalError msg) ->
   w' = after_config yaml_config w /\ loads w' = loads w).
Proof.
  intros Hrun.
  assert (Hloads : loads (after_config yaml_config w) = loads w)
    by (destruct yaml_config; reflexivity).
  assert (Hwarn : warnings (after_config yaml_config w) = warnings w)
    by (destruct yaml_config; reflexivity).
  destruct (config_of yaml_config) as [config | e0] eqn:Hcfg.
  - rewrite (from_yaml_checks yaml_config w config Hcfg) in Hrun.
    destruct (external (yaml_is_composite_problem config)) as [[|]|e1].
    + injection Hrun as <- <-. now split.
    + destruct (format_version config) as [version|].
      * destruct (PyVal_eqb version supported_format_version).
        -- split.
           ++ rewrite from_yaml_files_run in Hrun.
              destruct (problems config) as [[|p0 rest]|];
                try (now injection Hrun as _ <-).
              destruct (external
                          (yaml_assert_single_condition_and_sbml_file p0));
                try (now injection Hrun as _ <-).
              destruct (parameter_file config) as [pf|];
                try (now injection Hrun as _ <-).
              destruct (sbml_files p0) as [[|sbml0 srest]|];
                try (now injection Hrun as _ <-).
              destruct (measurement_files p0) as [meas|];
                try (now injection Hrun as _ <-).
              destruct (condition_files p0) as [[|cond0 crest]|];
                try (now injection Hrun as _ <-).
              match type of Hrun with
              | from_files ?a ?b ?c ?d ?f1 ?f2 ?w0 = _ =>
                  pose proof (silent_from_files a b c d f1 f2 w0) as Hsilent
              end.
              rewrite Hrun in Hsilent. simpl in Hsilent.
              now rewrite Hsilent.
           ++ intros Hnot.
              apply from_yaml_files_raise in Hrun; [|exact Hnot].
              subst w'. now split.
        -- injection Hrun as <- <-. now split.
      * injection Hrun as <- <-. now split.
    + injection Hrun as <- <-. now split.
  - destruct yaml_config as [c | path]; simpl in Hcfg; [discriminate|].
    unfold from_yaml, bind, read_yaml in Hrun. rewrite Hcfg in Hrun.
    injection Hrun as <- <-. now split.
Qed.

End MoreLoading.

Lemma from_yaml_defects_before_loading_witness :
  warnings empty_world = warnings empty_world /\
  ((forall msg, IndexError <> ExternalError msg) ->
   empty_world
   = after_config (YamlDict (sample_config (PyInt 1) [])) empty_world /\
   loads empty_world = loads empty_world).
Proof.
  exact (@from_yaml_defects_before_loading (sample_external 1)
           (YamlDict (sample_config (PyInt 1) [])) empty_world empty_world
           IndexError eq_refl).
Defined.

(** X14: a configuration that passes both checks but whose ['problems']
    list is empty, or whose first problem has an empty list of SBML files
    or of condition files, makes [from_yaml] raise [IndexError] with
    nothing loaded. *)
Theorem from_yaml_empty_lists {E : External} (yaml_config : yaml_input)
  (w : World) (config : YamlConfig) (version : PyVal) :
  config_of yaml_config = Ok config ->
  external (yaml_is_composite_problem config) = Ok false ->
  format_version config = Some version ->
  PyVal_eqb version supported_format_version = true ->
  (problems config = Some [] \/
   exists p0 rest pf,
     problems config = Some (p0 :: rest) /\
     yaml_assert_single_condition_and_sbml_file p0 = Returned tt /\
     parameter_file config = Some pf /\
     (sbml_files p0 = Some [] \/
      exists sbmls meas,
        sbml_files p0 = Some sbmls /\ sbmls <> [] /\
        measurement_files p0 = Some meas /\
        condition_files p0 = Some [])) ->
  from_yaml yaml_config w = (Raise IndexError, after_config yaml_config w).
Proof.
  intros Hcfg Hcomposite Hversion Hsupported Hempty.
  rewrite (from_yaml_checks yaml_config w config Hcfg).
  rewrite Hcomposite, Hversion, Hsupported, from_yaml_files_run.
  destruct Hempty as [-> | (p0 & rest & pf & -> & -> & -> & Hlists)];
    [reflexivity|].
  simpl.
  destruct Hlists as [-> | (sbmls & meas & -> & Hne & -> & ->)];
    [reflexivity|].
  destruct sbmls; [contradiction | reflexivity].
Qed.

Lemma from_yaml_empty_lists_witness :
  @from_yaml (sample_external 1)
    (YamlDict (sample_config (PyInt 1) [entry_without_conditions]))
    empty_world
  = (Raise IndexError, empty_world).
Proof.
  apply (@from_yaml_empty_lists (sample_external 1)
           (YamlDict (sample_config (PyInt 1) [entry_without_conditions]))
           empty_world
           (sample_config (PyInt 1) [entry_without_conditions])
           (PyInt 1) eq_refl eq_refl eq_refl eq_refl).
  right. exists entry_without_conditions, [], (YStr "parameters.tsv").
  split; [reflexivity|]. split; [reflexivity|]. split; [reflexivity|].
  right. exists ["model.xml"%string], [].
  split; [reflexivity|]. split; [discriminate|]. now split.
Defined.

(** X15: when [from_yaml] delivers a problem, the configuration was not
    composite, had the supported version, a parameter file entry and a
    first problem with at least one SBML file and one condition file; and
    what was loaded is, in [from_files] order, the first condition file,
    all measurement files, the parameter file(s), the first SBML file and
    the visualization and observable files (none when their key is
    absent) -- further SBML or condition files and further problems are
    not loaded.  No warning was issued. *)
Theorem from_yaml_success {E : External} (yaml_config : yaml_input)
  (w w' : World) (problem : Problem) :
  from_yaml yaml_config w = (Ok problem, w') ->
  exists config version p0 rest pf sbml0 srest meas cond0 crest,
    config_of yaml_config = Ok config /\
    external (yaml_is_composite_problem config) = Ok false /\
    format_version config = Some version /\
    PyVal_eqb version supported_format_version = true /\
    problems config = Some (p0 :: rest) /\
    parameter_file config = Some pf /\
    sbml_files p0 = Some (sbml0 :: srest) /\
    measurement_files p0 = Some meas /\
    condition_files p0 = Some (cond0 :: crest) /\
    loads w'
    = loads w
        ++ planned_loads
             (OneFile (get_path_of yaml_config sbml0))
             (OneFile (get_path_of yaml_config cond0))
             (ManyFiles (map (get_path_of yaml_config) meas))
             (parameter_file_arg (get_path_of yaml_config) pf)
             (ManyFiles (map (get_path_of yaml_config)
                           (yaml_get_list (visualization_files p0))))
             (ManyFiles (map (get_path_of yaml_config)
                           (yaml_get_list (observable_files p0)))) /\
    warnings w' = warnings w.
Proof.
  intros Hrun.
  destruct (config_of yaml_config) as [config | e0] eqn:Hcfg.
  - rewrite (from_yaml_checks yaml_config w config Hcfg) in Hrun.
    destruct (external (yaml_is_composite_problem config)) as [[|]|e1]
      eqn:Hcomposite; try discriminate.
    destruct (format_version config) as [version|] eqn:Hversion;
      try discriminate.
    destruct (PyVal_eqb version supported_format_version) eqn:Hsupported;
      try discriminate.
    rewrite from_yaml_files_run in Hrun.
    destruct (problems config) as [[|p0 rest]|] eqn:Hproblems;
      try discriminate.
    destruct (external (yaml_assert_single_condition_and_sbml_file p0));
      try discriminate.
    destruct (parameter_file config) as [pf|] eqn:Hpf; try discriminate.
    destruct (sbml_files p0) as [[|sbml0 srest]|] eqn:Hsbml;
      try discriminate.
    destruct (measurement_files p0) as [meas|] eqn:Hmeas; try discriminate.
    destruct (condition_files p0) as [[|cond0 crest]|] eqn:Hcond;
      try discriminate.
    exists config, version, p0, rest, pf, sbml0, srest, meas, cond0, crest.
    repeat (split; [reflexivity || assumption|]).
    match type of Hrun with
    | from_files ?a ?b ?c ?d ?f1 ?f2 ?w0 = _ =>
        pose proof (from_files_follows_plan a b c d f1 f2 w0)
          as (_ & Hw & Hl)
    end.
    rewrite Hrun in Hw, Hl. simpl in Hw, Hl.
    rewrite Hw, Hl. destruct yaml_config; now split.
  - exfalso. destruct yaml_config as [c | path]; simpl in Hcfg;
      [discriminate|].
    unfold from_yaml, bind, read_yaml in Hrun. rewrite Hcfg in Hrun.
    discriminate.
Qed.

Lemma from_yaml_success_witness :
  exists w',
    loads w'
    = [(ConditionTable, OneFile "conditions.tsv");
       (MeasurementTable, ManyFiles ["measurements.tsv"%string]);
       (ParameterTableFile, OneFile "parameters.tsv");
       (SbmlModelFile, OneFile "model.xml");
       (ObservableTable, ManyFiles ["observables.tsv"%string])] /\
    warnings w' = [].
Proof.
  eassert (Hrun : @from_yaml (sample_external 1)
                    (YamlDict (sample_config (PyInt 1) [entry_with_spares]))
                    empty_world = (Ok _, _))
    by (vm_compute; reflexivity).
  destruct (@from_yaml_success (sample_external 1) _ _ _ _ Hrun)
    as (config & version & p0 & rest & pf & sbml0 & srest & meas & cond0
        & crest & _ & _ & _ & _ & _ & _ & _ & _ & _ & _ & Hwarn).
  eexists. split; [|exact Hwarn]. reflexivity.
Defined.

Lemma string_app_nonempty (a b : string) :
  b <> ""%string -> (a ++ b)%string <> ""%string.
Proof.
  destruct a; simpl; [auto | discriminate].
Qed.

Lemma os_path_join_nonempty (a b : string) :
  b <> ""%string -> os_path_join a b <> ""%string.
Proof.
  intros Hb. unfold os_path_join.
  destruct (String.prefix "/" b); [exact Hb|].
  destruct (String.eqb a "" || ends_with_slash a).
  - now apply string_app_nonempty.
  - apply string_app_nonempty. discriminate.
Qed.

Lemma truthy_folder_file (E : External) folder model_name c stem ext :
  truthy (OneFile (folder_file E folder model_name (String c stem) ext))
  = true.
Proof.
  simpl. apply negb_true_iff. apply String.eqb_neq.
  unfold folder_file. apply os_path_join_nonempty. discriminate.
Qed.

Lemma planned_loads_four (s c m p : file_arg) :
  truthy s = true -> truthy c = true -> truthy m = true ->
  truthy p = true ->
  planned_loads s c m p NoFile NoFile
  = [(ConditionTable, c); (MeasurementTable, m); (ParameterTableFile, p);
     (SbmlModelFile, s)].
Proof.
  intros Hs Hc Hm Hp. unfold planned_loads. cbn [filter snd].
  rewrite Hs, Hc, Hm, Hp. reflexivity.
Qed.

Lemma from_folder_run {E : External} (folder : string)
  (model_name : option string) (w : World) :
  from_folder folder model_name w
  = from_files
      (OneFile (folder_file E folder model_name "model_" ".xml"))
      (OneFile (folder_file E folder model_name
                  "experimentalCondition_" ".tsv"))
      (OneFile (folder_file E folder model_name "measurementData_" ".tsv"))
      (OneFile (folder_file E folder model_name "parameters_" ".tsv"))
      NoFile NoFile
      (warned w
         [(DeprecationWarning,
           ("This function will be removed in future releases. " ++
            "Consider using a PEtab YAML file for grouping files")%string);
          (DeprecationWarning, deprecation_note);
          (DeprecationWarning, deprecation_note);
          (DeprecationWarning, deprecation_note);
          (DeprecationWarning, deprecation_note)]).
Proof.
  unfold from_folder, get_default_condition_file_name,
    get_default_measurement_file_name, get_default_parameter_file_name,
    get_default_sbml_file_name, bind, warn, ret, warned, folder_file,
    folder_model.
  cbn [yaml_reads loads warnings]. rewrite <- !app_assoc.
  reflexivity.
Qed.

(** X16: when [from_folder] delivers a problem, it has loaded exactly four
    files, in the order condition table, measurement table, parameter
    table, SBML model, each under its default name inside the folder; the
    problem has these four set and neither a visualization nor an
    observable table. *)
Theorem from_folder_success {E : External} (folder : string)
  (model_name : option string) (w w' : World) (problem : Problem) :
  from_folder folder model_name w = (Ok problem, w') ->
  loads w'
  = loads w
      ++ [(ConditionTable,
           OneFile (folder_file E folder model_name
                      "experimentalCondition_" ".tsv"));
          (MeasurementTable,
           OneFile (folder_file E folder model_name
                      "measurementData_" ".tsv"));
          (ParameterTableFile,
           OneFile (folder_file E folder model_name "parameters_" ".tsv"));
          (SbmlModelFile,
           OneFile (folder_file E folder model_name "model_" ".xml"))] /\
  is_set (condition_df problem) = true /\
  is_set (measurement_df problem) = true /\
  is_set (parameter_df problem) = true /\
  is_set (sbml_model problem) = true /\
  visualization_df problem = None /\
  observable_df problem = None.
Proof.
  intros Hrun. rewrite from_folder_run in Hrun.
  apply from_files_ok_inv in Hrun.
  destruct Hrun
    as (Hl & _ & _ & Hc & Hm & Hp & Hs & _ & _ & Hv & Ho & _).
  rewrite planned_loads_four in Hl by apply truthy_folder_file.
  rewrite truthy_folder_file in Hc, Hm, Hp, Hs.
  simpl in Hl, Hv, Ho.
  split; [exact Hl|]. split; [exact Hc|]. split; [exact Hm|].
  split; [exact Hp|]. split; [exact Hs|]. split.
  - destruct (visualization_df problem); [discriminate Hv | reflexivity].
  - destruct (observable_df problem); [discriminate Ho | reflexivity].
Qed.

Lemma from_folder_success_witness :
  exists problem w',
    @from_folder (sample_external 1) "models/m1" None empty_world
    = (Ok problem, w') /\
    List.length (loads w') = 4 /\
    is_set (parameter_df problem) = true /\
    observable_df problem = None.
Proof.
  eassert (Hrun : @from_folder (sample_external 1) "models/m1" None
                    empty_world = (Ok _, _))
    by (vm_compute; reflexivity).
  destruct (@from_folder_success (sample_external 1) _ _ _ _ _ Hrun)
    as (Hl & _ & _ & Hp & _ & _ & Ho).
  eexists. eexists. split; [exact Hrun|].
  split; [|split; [exact Hp | exact Ho]].
  rewrite Hl. reflexivity.
Defined.

(* ================================================================== *)
(** * Properties of the writers *)

Lemma save_steps_done_inv (step : Saving unit) rest calls calls'' :
  save_steps (step :: rest) calls = (Done tt, calls'') ->
  exists calls', step calls = (Done tt, calls') /\
                 save_steps rest calls' = (Done tt, calls'').
Proof.
  simpl. destruct (step calls) as [[[] | e] calls']; [|discriminate].
  intros Hrest. now exists calls'.
Qed.

Lemma save_steps_fail_inv steps :
  forall calls e calls',
    save_steps steps calls = (Fail e, calls') ->
    exists step calls0, In step steps /\ step calls0 = (Fail e, calls').
Proof.
  induction steps as [|step rest IH]; intros calls e calls'; simpl.
  - discriminate.
  - destruct (step calls) as [[[] | e0] calls0] eqn:Hstep.
    + intros Hrest. destruct (IH _ _ _ Hrest) as (s & c0 & Hin & Hs).
      exists s, c0. split; [now right | exact Hs].
    + intros [= <- <-]. exists step, calls. split; [now left | exact Hstep].
Qed.

Lemma save_entity_done {T} file (entity : option T) missing writer call
  calls calls' :
  save_entity file entity missing writer call calls = (Done tt, calls') ->
  calls' = calls ++ planned_write file entity call /\
  (destination file = true -> is_set entity = true).
Proof.
  unfold save_entity, planned_write, destination.
  destruct file as [path|].
  - destruct (negb (String.eqb path "")).
    + destruct entity as [t|]; [|discriminate].
      intros [= _ <-]. now split.
    + intros [= <-]. destruct entity; rewrite app_nil_r;
        (split; [reflexivity | discriminate]).
  - intros [= <-]. rewrite app_nil_r. split; [reflexivity | discriminate].
Qed.

Lemma save_entity_fail {T} file (entity : option T) missing writer call
  calls e calls' :
  save_entity file entity missing writer call calls = (Fail e, calls') ->
  (e = missing /\ destination file = true /\ entity = None) \/
  (exists msg, e = WriterError msg).
Proof.
  unfold save_entity, destination.
  destruct file as [path|]; [|discriminate].
  destruct (negb (String.eqb path "")); [|discriminate].
  destruct entity as [t|].
  - destruct (writer t path) as [[] | msg]; simpl; [discriminate|].
    intros [= <- _]. right. now exists msg.
  - intros [= <- _]. left. now repeat split.
Qed.

(** What a returning [to_files] has done. *)
Lemma to_files_done_inv {W : Writers} (self : Problem)
  (sbml_file condition_file measurement_file parameter_file
   visualization_file observable_file yaml_file prefix_path : option string)
  (relative_paths : bool) (calls calls' : list writer_call) :
  to_files self sbml_file condition_file measurement_file parameter_file
    visualization_file observable_file yaml_file prefix_path relative_paths
    calls = (Done tt, calls') ->
  calls'
  = calls
      ++ planned_write (add_prefix prefix_path sbml_file)
           (sbml_document self) WriteSbml
      ++ planned_write (add_prefix prefix_path condition_file)
           (condition_df self) (WriteTable ConditionTable)
      ++ planned_write (add_prefix prefix_path measurement_file)
           (measurement_df self) (WriteTable MeasurementTable)
      ++ planned_write (add_prefix prefix_path parameter_file)
           (parameter_df self) WriteParameters
      ++ planned_write (add_prefix prefix_path observable_file)
           (observable_df self) (WriteTable ObservableTable)
      ++ planned_write (add_prefix prefix_path visualization_file)
           (visualization_df self) (WriteTable VisualizationTable)
      ++ planned_write (add_prefix prefix_path yaml_file) (Some tt)
           (fun _ path =>
              CreateYaml (add_prefix prefix_path sbml_file)
                (add_prefix prefix_path condition_file)
                (add_prefix prefix_path measurement_file)
                (add_prefix prefix_path parameter_file)
                (add_prefix prefix_path observable_file) path
                (add_prefix prefix_path visualization_file)
                relative_paths) /\
  (destination (add_prefix prefix_path sbml_file) = true ->
   is_set (sbml_document self) = true) /\
  (destination (add_prefix prefix_path condition_file) = true ->
   is_set (condition_df self) = true) /\
  (destination (add_prefix prefix_path measurement_file) = true ->
   is_set (measurement_df self) = true) /\
  (destination (add_prefix prefix_path parameter_file) = true ->
   is_set (parameter_df self) = true) /\
  (destination (add_prefix prefix_path observable_file) = true ->
   is_set (observable_df self) = true) /\
  (destination (add_prefix prefix_path visualization_file) = true ->
   is_set (visualization_df self) = true).
Proof.
  unfold to_files. intros Hrun.
  apply save_steps_done_inv in Hrun. destruct Hrun as (c1 & H1 & Hrun).
  apply save_steps_done_inv in Hrun. destruct Hrun as (c2 & H2 & Hrun).
  apply save_steps_done_inv in Hrun. destruct Hrun as (c3 & H3 & Hrun).
  apply save_steps_done_inv in Hrun. destruct Hrun as (c4 & H4 & Hrun).
  apply save_steps_done_inv in Hrun. destruct Hrun as (c5 & H5 & Hrun).
  apply save_steps_done_inv in Hrun. destruct Hrun as (c6 & H6 & Hrun).
  apply save_steps_done_inv in Hrun. destruct Hrun as (c7 & H7 & Hrun).
  simpl in Hrun. injection Hrun as <-.
  apply save_entity_done in H1, H2, H3, H4, H5, H6.
  destruct H1 as [-> E1], H2 as [-> E2], H3 as [-> E3], H4 as [-> E4],
    H5 as [-> E5], H6 as [-> E6].
  repeat split; try assumption.
  rewrite <- ?app_assoc in H7.
  unfold planned_write at 7.
  destruct (add_prefix prefix_path yaml_file) as [path|].
  - destruct (negb (String.eqb path "")).
    + destruct (yaml_create_problem_yaml _ _ _ _ _ _ _ _) as [[] | msg];
        simpl in H7; [|discriminate].
      injection H7 as <-. now rewrite <- ?app_assoc.
    + injection H7 as <-. now rewrite ?app_nil_r, <- ?app_assoc.
  - injection H7 as <-. now rewrite ?app_nil_r, <- ?app_assoc.
Qed.

(** X17: when [to_files] returns, every non-empty destination had its
    entity in the problem, and the writers were called exactly for the
    non-empty destinations, in the order SBML, condition, measurement,
    parameter, observable, visualization, YAML, each with the prefixed
    path. *)
Theorem to_files_success {W : Writers} (self : Problem)
  (sbml_file condition_file measurement_file parameter_file
   visualization_file observable_file yaml_file prefix_path : option string)
  (relative_paths : bool) (calls calls' : list writer_call) :
  to_files self sbml_file condition_file measurement_file parameter_file
    visualization_file observable_file yaml_file prefix_path relative_paths
    calls = (Done tt, calls') ->
  calls'
  = calls
      ++ planned_write (add_prefix prefix_path sbml_file)
           (sbml_document self) WriteSbml
      ++ planned_write (add_prefix prefix_path condition_file)
           (condition_df self) (WriteTable ConditionTable)
      ++ planned_write (add_prefix prefix_path measurement_file)
           (measurement_df self) (WriteTable MeasurementTable)
      ++ planned_write (add_prefix prefix_path parameter_file)
           (parameter_df self) WriteParameters
      ++ planned_write (add_prefix prefix_path observable_file)
           (observable_df self) (WriteTable ObservableTable)
      ++ planned_write (add_prefix prefix_path visualization_file)
           (visualization_df self) (WriteTable VisualizationTable)
      ++ planned_write (add_prefix prefix_path yaml_file) (Some tt)
           (fun _ path =>
              CreateYaml (add_prefix prefix_path sbml_file)
                (add_prefix prefix_path condition_file)
                (add_prefix prefix_path measurement_file)
                (add_prefix prefix_path parameter_file)
                (add_prefix prefix_path observable_file) path
                (add_prefix prefix_path visualization_file)
                relative_paths) /\
  (destination (add_prefix prefix_path sbml_file) = true ->
   is_set (sbml_document self) = true) /\
  (destination (add_prefix prefix_path condition_file) = true ->
   is_set (condition_df self) = true) /\
  (destination (add_prefix prefix_path measurement_file) = true ->
   is_set (measurement_df self) = true) /\
  (destination (add_prefix prefix_path parameter_file) = true ->
   is_set (parameter_df self) = true) /\
  (destination (add_prefix prefix_path observable_file) = true ->
   is_set (observable_df self) = true) /\
  (destination (add_prefix prefix_path visualization_file) = true ->
   is_set (visualization_df self) = true).
Proof.
  exact (to_files_done_inv self sbml_file condition_file measurement_file
           parameter_file visualization_file observable_file yaml_file
           prefix_path relative_paths calls calls').
Qed.

Lemma to_files_success_witness :
  @to_files sample_writers scenario None None None (Some "p.tsv"%string)
    None None (Some "y.yaml"%string) (Some "out"%string) true []
  = (Done tt,
     [WriteParameters scenario_table "out/p.tsv";
      CreateYaml None None None (Some "out/p.tsv"%string) None "out/y.yaml"
        None true]) /\
  (destination (@add_prefix sample_writers (Some "out"%string)
                  (Some "p.tsv"%string)) = true ->
   is_set (parameter_df scenario) = true).
Proof.
  split; [reflexivity|].
  destruct (@to_files_success sample_writers scenario None None None
              (Some "p.tsv"%string) None None (Some "y.yaml"%string)
              (Some "out"%string) true []
              [WriteParameters scenario_table "out/p.tsv";
               CreateYaml None None None (Some "out/p.tsv"%string) None
                 "out/y.yaml" None true]
              eq_refl) as (_ & _ & _ & _ & Hp & _).
  exact Hp.
Defined.

(** Why a failing [to_files] failed. *)
Lemma to_files_fail_inv {W : Writers} (self : Problem)
  (sbml_file condition_file measurement_file parameter_file
   visualization_file observable_file yaml_file prefix_path : option string)
  (relative_paths : bool) (calls calls' : list writer_call)
  (e : save_error) :
  to_files self sbml_file condition_file measurement_file parameter_file
    visualization_file observable_file yaml_file prefix_path relative_paths
    calls = (Fail e, calls') ->
  (e = ValueError_no_sbml_doc /\
   destination (add_prefix prefix_path sbml_file) = true /\
   sbml_document self = None) \/
  (e = ValueError_no_table "condition" /\
   destination (add_prefix prefix_path condition_file) = true /\
   condition_df self = None) \/
  (e = ValueError_no_table "measurement" /\
   destination (add_prefix prefix_path measurement_file) = true /\
   measurement_df self = None) \/
  (e = ValueError_no_table "parameter" /\
   destination (add_prefix prefix_path parameter_file) = true /\
   parameter_df self = None) \/
  (e = ValueError_no_table "observable" /\
   destination (add_prefix prefix_path observable_file) = true /\
   observable_df self = None) \/
  (e = ValueError_no_table "visualization" /\
   destination (add_prefix prefix_path visualization_file) = true /\
   visualization_df self = None) \/
  (exists msg, e = WriterError msg).
Proof.
  unfold to_files. intros Hrun.
  apply save_steps_fail_inv in Hrun.
  destruct Hrun as (step & calls0 & Hin & Hstep).
  assert (Hw : forall msg, e = WriterError msg ->
                 (e = ValueError_no_sbml_doc /\
                  destination (add_prefix prefix_path sbml_file) = true /\
                  sbml_document self = None) \/
                 (e = ValueError_no_table "condition" /\
                  destination (add_prefix prefix_path condition_file) = true
                  /\ condition_df self = None) \/
                 (e = ValueError_no_table "measurement" /\
                  destination (add_prefix prefix_path measurement_file)
                  = true /\ measurement_df self = None) \/
                 (e = ValueError_no_table "parameter" /\
                  destination (add_prefix prefix_path parameter_file) = true
                  /\ parameter_df self = None) \/
                 (e = ValueError_no_table "observable" /\
                  destination (add_prefix prefix_path observable_file) = true
                  /\ observable_df self = None) \/
                 (e = ValueError_no_table "visualization" /\
                  destination (add_prefix prefix_path visualization_file)
                  = true /\ visualization_df self = None) \/
                 (exists msg, e = WriterError msg)).
  { intros msg ->. do 6 right. now exists msg. }
  simpl in Hin.
  destruct Hin as [<- | [<- | [<- | [<- | [<- | [<- | [<- | []]]]]]]].
  - apply save_entity_fail in Hstep.
    destruct Hstep as [H | [msg H]]; [now left | now apply (Hw msg)].
  - apply save_entity_fail in Hstep.
    destruct Hstep as [H | [msg H]]; [right; now left | now apply (Hw msg)].
  - apply save_entity_fail in Hstep.
    destruct Hstep as [H | [msg H]];
      [do 2 right; now left | now apply (Hw msg)].
  - apply save_entity_fail in Hstep.
    destruct Hstep as [H | [msg H]];
      [do 3 right; now left | now apply (Hw msg)].
  - apply save_entity_fail in Hstep.
    destruct Hstep as [H | [msg H]];
      [do 4 right; now left | now apply (Hw msg)].
  - apply save_entity_fail in Hstep.
    destruct Hstep as [H | [msg H]];
      [do 5 right; now left | now apply (Hw msg)].
  - destruct (add_prefix prefix_path yaml_file) as [path|]; [|discriminate].
    destruct (negb (String.eqb path "")); [|discriminate].
    destruct (yaml_create_problem_yaml _ _ _ _ _ _ _ _) as [[] | msg];
      simpl in Hstep; [discriminate|].
    injection Hstep as <- _. now apply (Hw msg).
Qed.

(** X18: when [to_files] raises, either a writer raised, or the exception
    is the [ValueError] for an entity that was given a non-empty
    destination and that the problem does not hold: 'no sbml_doc' for the
    SBML file, 'non-existent ... table' with the table's own name
    otherwise. *)
Theorem to_files_failure {W : Writers} (self : Problem)
  (sbml_file condition_file measurement_file parameter_file
   visualization_file observable_file yaml_file prefix_path : option string)
  (relative_paths : bool) (calls calls' : list writer_call)
  (e : save_error) :
  to_files self sbml_file condition_file measurement_file parameter_file
    visualization_file observable_file yaml_file prefix_path relative_paths
    calls = (Fail e, calls') ->
  (e = ValueError_no_sbml_doc /\
   destination (add_prefix prefix_path sbml_file) = true /\
   sbml_document self = None) \/
  (e = ValueError_no_table "condition" /\
   destination (add_prefix prefix_path condition_file) = true /\
   condition_df self = None) \/
  (e = ValueError_no_table "measurement" /\
   destination (add_prefix prefix_path measurement_file) = true /\
   measurement_df self = None) \/
  (e = ValueError_no_table "parameter" /\
   destination (add_prefix prefix_path parameter_file) = true /\
   parameter_df self = None) \/
  (e = ValueError_no_table "observable" /\
   destination (add_prefix prefix_path observable_file) = true /\
   observable_df self = None) \/
  (e = ValueError_no_table "visualization" /\
   destination (add_prefix prefix_path visualization_file) = true /\
   visualization_df self = None) \/
  (exists msg, e = WriterError msg).
Proof.
  exact (to_files_fail_inv self sbml_file condition_file measurement_file
           parameter_file visualization_file observable_file yaml_file
           prefix_path relative_paths calls calls' e).
Qed.

Lemma to_files_failure_witness :
  @to_files sample_writers scenario None None (Some "m.tsv"%string)
    (Some "p.tsv"%string) None None None None true []
  = (Fail (ValueError_no_table "measurement"), []) /\
  measurement_df scenario = None.
Proof.
  split; [reflexivity|].
  destruct (@to_files_failure sample_writers scenario None None
              (Some "m.tsv"%string) (Some "p.tsv"%string) None None None
              None true [] [] (ValueError_no_table "measurement") eq_refl)
    as [(H & _) | [(H & _) | [(_ & _ & H) | [(H & _) | [(H & _)
        | [(H & _) | (msg & H)]]]]]];
    try discriminate H.
  exact H.
Defined.

Lemma generic_destination_present {W : Writers} {T} prefix_path
  (entity : option T) name :
  destination (add_prefix (Some prefix_path) (generic_name entity name))
  = true ->
  entity <> None.
Proof.
  destruct entity; simpl; [discriminate | discriminate].
Qed.

Lemma planned_write_generic {W : Writers} {T} prefix_path
  (entity : option T) name (call : T -> string -> writer_call) :
  (forall a b, pathlib_join a b <> ""%string) ->
  planned_write (add_prefix (Some prefix_path) (generic_name entity name))
    entity call
  = written_if_present entity
      (fun t => call t (pathlib_join prefix_path name)).
Proof.
  intros Hjoin. destruct entity as [t|]; simpl; [|reflexivity].
  destruct (String.eqb_spec (pathlib_join prefix_path name) "") as [H | H];
    [now apply Hjoin in H | reflexivity].
Qed.

Lemma add_prefix_generic {W : Writers} {T} prefix_path (entity : option T)
  name :
  add_prefix (Some prefix_path) (generic_name entity name)
  = generic_path prefix_path entity name.
Proof. now destruct entity. Qed.

(** X19: [to_files_generic] never raises one of the two [ValueError]s of
    [to_files]: whatever it raises was raised by a writer.  When it
    returns, what it returns is the prefixed ['problem.yaml']; and, a
    joined path never being empty, the writers were called for exactly the
    entities the problem holds, in the order SBML, condition, measurement,
    parameter, observable, visualization, each at its generic name under
    the prefix, and last the YAML writer, given those same paths and
    [None] for the entities the problem lacks. *)
Theorem to_files_generic_outcome {W : Writers} (self : Problem)
  (prefix_path : string) (calls : list writer_call) :
  match to_files_generic self prefix_path calls with
  | (Fail e, _) => exists msg, e = WriterError msg
  | (Done path, calls') =>
      path = pathlib_join prefix_path "problem.yaml" /\
      ((forall a b, pathlib_join a b <> ""%string) ->
       calls'
       = calls
           ++ written_if_present (sbml_document self)
                (fun d => WriteSbml d (pathlib_join prefix_path "model.xml"))
           ++ written_if_present (condition_df self)
                (fun t => WriteTable ConditionTable t
                            (pathlib_join prefix_path "conditions.tsv"))
           ++ written_if_present (measurement_df self)
                (fun t => WriteTable MeasurementTable t
                            (pathlib_join prefix_path "measurements.tsv"))
           ++ written_if_present (parameter_df self)
                (fun t => WriteParameters t
                            (pathlib_join prefix_path "parameters.tsv"))
           ++ written_if_present (observable_df self)
                (fun t => WriteTable ObservableTable t
                            (pathlib_join prefix_path "observables.tsv"))
           ++ written_if_present (visualization_df self)
                (fun t => WriteTable VisualizationTable t
                            (pathlib_join prefix_path "visualizations.tsv"))
           ++ [CreateYaml
                 (generic_path prefix_path (sbml_document self) "model.xml")
                 (generic_path prefix_path (condition_df self)
                    "conditions.tsv")
                 (generic_path prefix_path (measurement_df self)
                    "measurements.tsv")
                 (generic_path prefix_path (parameter_df self)
                    "parameters.tsv")
                 (generic_path prefix_path (observable_df self)
                    "observables.tsv")
                 (pathlib_join prefix_path "problem.yaml")
                 (generic_path prefix_path (visualization_df self)
                    "visualizations.tsv")
                 true])
  end.
Proof.
  unfold to_files_generic.
  destruct (to_files self _ _ _ _ _ _ _ _ _ calls) as [[[] | e] calls']
    eqn:Hrun.
  - split; [reflexivity|]. intros Hjoin.
    apply to_files_done_inv in Hrun. destruct Hrun as [-> _].
    rewrite !planned_write_generic by exact Hjoin.
    rewrite !add_prefix_generic.
    do 7 f_equal. simpl.
    destruct (String.eqb_spec (pathlib_join prefix_path "problem.yaml") "")
      as [H | H]; [now apply Hjoin in H | reflexivity].
  - apply to_files_fail_inv in Hrun.
    destruct Hrun
      as [(_ & Hd & Hn) | [(_ & Hd & Hn) | [(_ & Hd & Hn)
          | [(_ & Hd & Hn) | [(_ & Hd & Hn) | [(_ & Hd & Hn) | Hw]]]]]];
      try (exfalso; now apply generic_destination_present in Hd).
    exact Hw.
Qed.

Lemma string_join_nonempty (a b : string) :
  (a ++ "/" ++ b)%string <> ""%string.
Proof. apply string_app_nonempty. discriminate. Qed.

Lemma to_files_generic_outcome_witness :
  @to_files_generic sample_writers scenario "out" []
  = (Done "out/problem.yaml"%string,
     [WriteParameters scenario_table "out/parameters.tsv";
      CreateYaml None None None (Some "out/parameters.tsv"%string) None
        "out/problem.yaml" None true]).
Proof.
  pose proof (@to_files_generic_outcome sample_writers scenario "out" [])
    as Houtcome.
  destruct (@to_files_generic sample_writers scenario "out" [])
    as [[path | e] calls'] eqn:Hrun.
  - destruct Houtcome as [-> Hcalls].
    rewrite (Hcalls string_join_nonempty). reflexivity.
  - discriminate Hrun.
Defined.

(* ================================================================== *)
(** * Properties of pickling *)

(** X20: the pickled state of a problem built by [__init__] holds its five
    tables, unchanged and in order, never one of the three libsbml
    objects, and, exactly when the problem has an SBML model, the entry
    ['sbml_string'] with the written document of that model. *)
Theorem getstate_of_instance {L : Libsbml} (p : Problem) :
  __getstate__ (instance_dict p)
  = Pickled
      (table_items p
         ++ match sbml_model p with
            | Some model =>
                [("sbml_string"%string,
                  PString (writeSBMLToString (getSBMLDocument model)))]
            | None => []
            end).
Proof.
  unfold __getstate__, instance_dict, table_items.
  destruct (sbml_model p) as [model|]; reflexivity.
Qed.

Lemma setstate_with_string {L : Libsbml} (p : Problem) (s : string)
  reader document model :
  s <> ""%string ->
  sbml_load_sbml_from_string s = Returned (reader, document, model) ->
  __setstate__ [] (table_items p ++ [("sbml_string"%string, PString s)])
  = Pickled
      ([("sbml_reader"%string, PSbml reader);
        ("sbml_document"%string, PSbml document);
        ("sbml_model"%string, PSbml model)] ++ table_items p,
       table_items p).
Proof.
  intros Hs Hload. unfold __setstate__, table_items. simpl.
  destruct (String.eqb_spec s "") as [-> | _]; [contradiction|]. simpl.
  rewrite Hload. reflexivity.
Qed.

(** X21: pickling and unpickling a problem that has an SBML model whose
    written document is a non-empty string the reader accepts gives an
    object with the same five tables and with the reader, document and
    model that [load_sbml_from_string] made of that string: attribute for
    attribute the instance dictionary of such a problem.  The object has no
    attribute ['sbml_string'], and the state dictionary has lost that
    entry. *)
Theorem pickle_round_trip_with_model {L : Libsbml} (p : Problem)
  (model0 reader document model : SbmlRef) :
  sbml_model p = Some model0 ->
  writeSBMLToString (getSBMLDocument model0) <> ""%string ->
  sbml_load_sbml_from_string (writeSBMLToString (getSBMLDocument model0))
  = Returned (reader, document, model) ->
  exists state self' state',
    __getstate__ (instance_dict p) = Pickled state /\
    __setstate__ [] state = Pickled (self', state') /\
    (forall name,
        objdict_get self' name
        = objdict_get
            (instance_dict
               {| condition_df := condition_df p;
                  measurement_df := measurement_df p;
                  parameter_df := parameter_df p;
                  visualization_df := visualization_df p;
                  observable_df := observable_df p;
                  sbml_reader := Some reader;
                  sbml_document := Some document;
                  sbml_model := Some model |}) name) /\
    objdict_get self' "sbml_string" = None /\
    objdict_get state' "sbml_string" = None.
Proof.
  intros Hmodel Hne Hload.
  exists (table_items p
            ++ [("sbml_string"%string,
                 PString (writeSBMLToString (getSBMLDocument model0)))]).
  exists ([("sbml_reader"%string, PSbml reader);
           ("sbml_document"%string, PSbml document);
           ("sbml_model"%string, PSbml model)] ++ table_items p).
  exists (table_items p).
  split; [|split; [|split; [|split]]].
  - unfold __getstate__, instance_dict, table_items.
    rewrite Hmodel. reflexivity.
  - now apply setstate_with_string.
  - intros name. unfold instance_dict, table_items.
    cbn [objdict_get app].
    repeat match goal with
           | |- context [String.eqb ?k name] =>
               destruct (String.eqb_spec k name) as [<- | ?];
               [reflexivity|]
           end.
    reflexivity.
  - reflexivity.
  - reflexivity.
Qed.

Lemma pickle_round_trip_with_model_witness :
  exists state self' state',
    @__getstate__ sample_libsbml (instance_dict scenario_with_model)
    = Pickled state /\
    @__setstate__ sample_libsbml [] state = Pickled (self', state') /\
    objdict_get self' "parameter_df" = Some (PParameters scenario_table) /\
    objdict_get self' "sbml_document"
    = Some (PSbml "parsed <doc of m0>"%string) /\
    objdict_get self' "sbml_string" = None.
Proof.
  destruct (@pickle_round_trip_with_model sample_libsbml scenario_with_model
              "m0"%string "reader"%string "parsed <doc of m0>"%string
              "model"%string eq_refl
              (string_app_nonempty "<" _
                 (string_app_nonempty _ ">" ltac:(discriminate)))
              eq_refl)
    as (state & self' & state' & Hget & Hset & Hattrs & Hno & _).
  exists state, self', state'.
  split; [exact Hget|]. split; [exact Hset|].
  split; [|split; [|exact Hno]].
  - rewrite Hattrs. reflexivity.
  - rewrite Hattrs. reflexivity.
Defined.

(** X22: pickling and unpickling a problem that has no SBML model gives an
    object with the five tables and nothing else: its attributes
    [sbml_reader], [sbml_document] and [sbml_model] do not exist (reading
    one raises [AttributeError], it is not [None]), and pickling that
    object again raises [AttributeError]. *)
Theorem pickle_round_trip_without_model {L : Libsbml} (p : Problem) :
  sbml_model p = None ->
  exists state self' state',
    __getstate__ (instance_dict p) = Pickled state /\
    __setstate__ [] state = Pickled (self', state') /\
    self' = table_items p /\
    getattr self' "sbml_reader" = PickleFail (AttributeError "sbml_reader") /\
    getattr self' "sbml_document"
    = PickleFail (AttributeError "sbml_document") /\
    getattr self' "sbml_model" = PickleFail (AttributeError "sbml_model") /\
    __getstate__ self' = PickleFail (AttributeError "sbml_model").
Proof.
  intros Hmodel.
  exists (table_items p), (table_items p), (table_items p).
  split; [|split].
  - unfold __getstate__, instance_dict, table_items.
    rewrite Hmodel. reflexivity.
  - reflexivity.
  - repeat split.
Qed.

Lemma pickle_round_trip_without_model_witness :
  exists state self' state',
    @__getstate__ sample_libsbml (instance_dict scenario) = Pickled state /\
    @__setstate__ sample_libsbml [] state = Pickled (self', state') /\
    self' = table_items scenario /\
    getattr self' "sbml_reader" = PickleFail (AttributeError "sbml_reader") /\
    getattr self' "sbml_document"
    = PickleFail (AttributeError "sbml_document") /\
    getattr self' "sbml_model" = PickleFail (AttributeError "sbml_model") /\
    @__getstate__ sample_libsbml self'
    = PickleFail (AttributeError "sbml_model").
Proof.
  exact (@pickle_round_trip_without_model sample_libsbml scenario eq_refl).
Defined.

(* ================================================================== *)
(** * Properties of the default file names *)

Lemma os_path_join_relative (folder name : string) :
  String.prefix "/" name = false ->
  exists sep,
    (sep = ""%string \/ sep = "/"%string) /\
    os_path_join folder name = (folder ++ sep ++ name)%string /\
    (folder = ""%string -> sep = ""%string).
Proof.
  intros Hprefix. unfold os_path_join. rewrite Hprefix.
  destruct (String.eqb_spec folder "") as [-> | Hne]; simpl.
  - exists ""%string. repeat split. now left.
  - destruct (ends_with_slash folder).
    + exists ""%string. split; [now left|]. split; [reflexivity|].
      intros Hf. contradiction.
    + exists "/"%string. split; [now right|]. split; [reflexivity|].
      intros Hf. contradiction.
Qed.

(** X23: each default-file-name helper returns a path inside the folder it
    is given: the folder, then nothing or one slash, then the file name
    ([experimentalCondition_], [measurementData_], [parameters_] or
    [model_], the model name, the extension); with the default folder ['']
    it is the bare file name.  The folder is never dropped, whatever the
    model name. *)
Theorem default_file_names_in_folder (model_name folder : string)
  (w : World) :
  (exists sep,
      (sep = ""%string \/ sep = "/"%string) /\
      fst (get_default_condition_file_name model_name folder w)
      = Ok (folder ++ sep ++ "experimentalCondition_" ++ model_name
              ++ ".tsv")%string /\
      (folder = ""%string -> sep = ""%string)) /\
  (exists sep,
      (sep = ""%string \/ sep = "/"%string) /\
      fst (get_default_measurement_file_name model_name folder w)
      = Ok (folder ++ sep ++ "measurementData_" ++ model_name
              ++ ".tsv")%string /\
      (folder = ""%string -> sep = ""%string)) /\
  (exists sep,
      (sep = ""%string \/ sep = "/"%string) /\
      fst (get_default_parameter_file_name model_name folder w)
      = Ok (folder ++ sep ++ "parameters_" ++ model_name ++ ".tsv")%string /\
      (folder = ""%string -> sep = ""%string)) /\
  (exists sep,
      (sep = ""%string \/ sep = "/"%string) /\
      fst (get_default_sbml_file_name model_name folder w)
      = Ok (folder ++ sep ++ "model_" ++ model_name ++ ".xml")%string /\
      (folder = ""%string -> sep = ""%string)).
Proof.
  unfold get_default_condition_file_name, get_default_measurement_file_name,
    get_default_parameter_file_name, get_default_sbml_file_name, bind, warn,
    ret.
  cbn [fst].
  repeat split.
  - destruct (os_path_join_relative folder
                ("experimentalCondition_" ++ model_name ++ ".tsv") eq_refl)
      as (sep & Hsep & Hjoin & Hdefault).
    exists sep. split; [exact Hsep|]. split; [|exact Hdefault].
    f_equal. exact Hjoin.
  - destruct (os_path_join_relative folder
                ("measurementData_" ++ model_name ++ ".tsv") eq_refl)
      as (sep & Hsep & Hjoin & Hdefault).
    exists sep. split; [exact Hsep|]. split; [|exact Hdefault].
    f_equal. exact Hjoin.
  - destruct (os_path_join_relative folder
                ("parameters_" ++ model_name ++ ".tsv") eq_refl)
      as (sep & Hsep & Hjoin & Hdefault).
    exists sep. split; [exact Hsep|]. split; [|exact Hdefault].
    f_equal. exact Hjoin.
  - destruct (os_path_join_relative folder
                ("model_" ++ model_name ++ ".xml") eq_refl)
      as (sep & Hsep & Hjoin & Hdefault).
    exists sep. split; [exact Hsep|]. split; [|exact Hdefault].
    f_equal. exact Hjoin.
Qed.
